(** * Account / proxy fleet controller: allocation, health and failover

    A shallow embedding of the allocation, health-monitoring, failover and
    workflow code of the control center, followed by the properties that the
    specification states about it.

    Two implementations live side by side in the repository and both are
    embedded here:

    - the SQLite-backed one ([DatabaseClient], [AccountProxyMapping],
      [HealthMonitor], [ProxyFailover]) under [src/accountProxy/];
    - the in-memory one ([AccountProxyManager], [AccountProxyWorkflows]).

    Conventions of the embedding:

    - JavaScript numbers that hold counters, scores and milliseconds are [Z];
      [Math.floor (x / 10)] is [Z.div], which rounds towards minus infinity
      for a positive divisor;
    - an optional field [f?: string] is [option string]; the idiom
      [x || null] maps both [undefined] and the empty string to [None];
    - a table is the list of its rows in insertion (rowid) order; a
      [PRIMARY KEY] or [UNIQUE] constraint makes the [INSERT] throw;
    - [new Date()] / [Date.now()] readings are arguments ([now]); the
      bookkeeping columns [created_at] / [updated_at] / [last_checked], which
      no operation below reads, are left out of the rows;
    - [crypto.randomUUID()] and [generateId()] draw from a counter kept in
      the state;
    - a thrown exception is the [Throw] outcome, the state reached before the
      throw is kept;
    - what an awaited external call answers (the network probe, the AdsPower
      update) is an argument of the operation. *)

From Stdlib Require Import ZArith List String Bool Lia Ascii QArith.
From Stdlib Require Import Permutation.
From Stdlib Require Import DecimalString DecimalZ.
Import ListNotations.

Local Open Scope string_scope.
Local Open Scope Z_scope.

(** ** JavaScript idioms *)

(** Template-literal rendering of a number. *)
Definition num (z : Z) : string := NilZero.string_of_int (Z.to_int z).

Definition fresh_id (prefix : string) (n : nat) : string :=
  (prefix ++ num (Z.of_nat n))%string.

(** [s || d] on an optional string. *)
Definition or_default (s : option string) (d : string) : string :=
  match s with
  | Some x => if (x =? "")%string then d else x
  | None => d
  end.

(** [s || null] on an optional string. *)
Definition or_null (s : option string) : option string :=
  match s with
  | Some x => if (x =? "")%string then None else Some x
  | None => None
  end.

(** [n || null] on a number. *)
Definition num_or_null (n : Z) : option Z :=
  if n =? 0 then None else Some n.

(** Outcome of a call that may throw. *)
Inductive outcome (A : Type) : Type :=
| Ret (a : A)
| Throw (message : string).
Arguments Ret {A} a.
Arguments Throw {A} message.

(** Stable sort, as [ORDER BY] on rows in rowid order and as
    [Array.prototype.sort]: elements that compare equal keep their order. *)
Section Sort.
Context {A : Type} (le : A -> A -> bool).

Fixpoint insert_sorted (x : A) (l : list A) : list A :=
  match l with
  | [] => [x]
  | y :: ys => if le x y then x :: y :: ys else y :: insert_sorted x ys
  end.

Fixpoint stable_sort (l : list A) : list A :=
  match l with
  | [] => []
  | x :: xs => insert_sorted x (stable_sort xs)
  end.
End Sort.

(** [array.slice(-n)] for [n > 0]: the last [n] elements, the whole array
    when it is shorter. *)
Definition slice_last {A : Type} (n : nat) (l : list A) : list A :=
  skipn (List.length l - n)%nat l.

(** [Set<string>]: [has], [add], [delete]. *)
Definition set_has (x : string) (s : list string) : bool :=
  existsb (String.eqb x) s.
Definition set_add (x : string) (s : list string) : list string :=
  if set_has x s then s else (s ++ [x])%list.
Definition set_delete (x : string) (s : list string) : list string :=
  filter (fun y => negb (String.eqb x y)) s.

(** [column = ?] on a nullable column, [o === k] on an optional field. *)
Definition column_is (k : string) (o : option string) : bool :=
  match o with
  | Some x => (x =? k)%string
  | None => false
  end.

(** An optional string inside a template literal. *)
Definition template (o : option string) : string :=
  match o with
  | Some x => x
  | None => "undefined"
  end.

(** [Math.round (a / b)] for integers [a] and [b > 0]: the nearest integer,
    a half going up.  The quotient is taken exactly; the double that
    JavaScript computes rounds the same way as long as the product of [b]
    and the quotient stays below 2^52, which the scores, the table sizes and
    the hours here do. *)
Definition round_div (a b : Z) : Z := (2 * a + b) / (2 * b).

(** [array.length] *)
Definition count {A : Type} (l : list A) : Z := Z.of_nat (List.length l).

(** [array.join(sep)] *)
Fixpoint join (sep : string) (l : list string) : string :=
  match l with
  | [] => ""
  | [x] => x
  | x :: rest => (x ++ sep ++ join sep rest)%string
  end.

(** The line feed. *)
Definition LF : string := String (Ascii.ascii_of_nat 10) "".

(** ** Schema (database/schema.ts) *)

Module Protocol.
Inductive t := socks5 | https.
End Protocol.

Module ProxyStatus.
Inductive t := active | failed | maintenance.
Definition eqb (a b : t) : bool :=
  match a, b with
  | active, active | failed, failed | maintenance, maintenance => true
  | _, _ => false
  end.
End ProxyStatus.

Module Phase.
Inductive t := warmup | soft | growth | full.
End Phase.

Module AccountStatus.
Inductive t := active | suspended | banned | paused.
Definition to_string (s : t) : string :=
  match s with
  | active => "active"
  | suspended => "suspended"
  | banned => "banned"
  | paused => "paused"
  end.
Definition eqb (a b : t) : bool :=
  match a, b with
  | active, active | suspended, suspended
  | banned, banned | paused, paused => true
  | _, _ => false
  end.
End AccountStatus.

Module IncidentType.
Inductive t :=
| proxy_failure
| proxy_degraded
| account_suspicious
| account_suspended
| rate_limit_hit
| health_check_failed
| failover_triggered
| manual_intervention.
Definition eqb (a b : t) : bool :=
  match a, b with
  | proxy_failure, proxy_failure
  | proxy_degraded, proxy_degraded
  | account_suspicious, account_suspicious
  | account_suspended, account_suspended
  | rate_limit_hit, rate_limit_hit
  | health_check_failed, health_check_failed
  | failover_triggered, failover_triggered
  | manual_intervention, manual_intervention => true
  | _, _ => false
  end.
End IncidentType.

Module Severity.
Inductive t := low | medium | high | critical.
End Severity.

Module IncidentStatus.
Inductive t := open | investigating | resolved | ignored.
Definition eqb (a b : t) : bool :=
  match a, b with
  | open, open | investigating, investigating
  | resolved, resolved | ignored, ignored => true
  | _, _ => false
  end.
End IncidentStatus.

Module Proxy.
Record t := mk {
  id : string;
  name : string;
  host : string;
  port : Z;
  username : string;
  password : string;
  protocol : Protocol.t;
  status : ProxyStatus.t;
  healthScore : Z;
  maxAccounts : Z;
  assignedAccounts : Z;
  lastTested : option Z;
  avgResponseTime : Z;
  successRate : Z
}.

Definition set_status (v : ProxyStatus.t) (p : t) : t :=
  mk (id p) (name p) (host p) (port p) (username p) (password p) (protocol p)
     v (healthScore p) (maxAccounts p) (assignedAccounts p)
     (lastTested p) (avgResponseTime p) (successRate p).
Definition set_healthScore (v : Z) (p : t) : t :=
  mk (id p) (name p) (host p) (port p) (username p) (password p) (protocol p)
     (status p) v (maxAccounts p) (assignedAccounts p)
     (lastTested p) (avgResponseTime p) (successRate p).
Definition set_assignedAccounts (v : Z) (p : t) : t :=
  mk (id p) (name p) (host p) (port p) (username p) (password p) (protocol p)
     (status p) (healthScore p) (maxAccounts p) v
     (lastTested p) (avgResponseTime p) (successRate p).
Definition set_lastTested (v : option Z) (p : t) : t :=
  mk (id p) (name p) (host p) (port p) (username p) (password p) (protocol p)
     (status p) (healthScore p) (maxAccounts p) (assignedAccounts p)
     v (avgResponseTime p) (successRate p).
Definition set_avgResponseTime (v : Z) (p : t) : t :=
  mk (id p) (name p) (host p) (port p) (username p) (password p) (protocol p)
     (status p) (healthScore p) (maxAccounts p) (assignedAccounts p)
     (lastTested p) v (successRate p).
Definition set_successRate (v : Z) (p : t) : t :=
  mk (id p) (name p) (host p) (port p) (username p) (password p) (protocol p)
     (status p) (healthScore p) (maxAccounts p) (assignedAccounts p)
     (lastTested p) (avgResponseTime p) v.

(** [Partial<Proxy>] as the callers build it: the fields they set.
    [lastTested] is a [Date], held as its clock reading. *)
Record updates := mk_updates {
  u_status : option ProxyStatus.t;
  u_healthScore : option Z;
  u_lastTested : option Z;
  u_avgResponseTime : option Z;
  u_successRate : option Z
}.

Definition no_updates : updates := mk_updates None None None None None.

Definition opt_apply {A B : Type} (f : A -> B -> B) (o : option A) (b : B) : B :=
  match o with
  | Some a => f a b
  | None => b
  end.

Definition apply (u : updates) (p : t) : t :=
  opt_apply set_successRate (u_successRate u)
    (opt_apply set_avgResponseTime (u_avgResponseTime u)
      (opt_apply (fun v => set_lastTested (Some v)) (u_lastTested u)
        (opt_apply set_healthScore (u_healthScore u)
          (opt_apply set_status (u_status u) p)))).
End Proxy.

Module Account.
Record t := mk {
  id : string;
  name : string;
  twitterHandle : string;
  email : option string;
  phone : option string;
  phase : Phase.t;
  day : Z;
  status : AccountStatus.t;
  healthScore : Z;
  adspowerProfileId : string;
  adspowerGroupId : option string;
  proxyId : string;
  followers : Z;
  following : Z;
  posts : Z;
  dmConversionRate : Z;
  lastAction : option Z;
  actionsToday : Z;
  spamScore : Z;
  dailyActionLimit : Z;
  notes : option string
}.

Definition set_proxyId (v : string) (a : t) : t :=
  mk (id a) (name a) (twitterHandle a) (email a) (phone a) (phase a) (day a)
     (status a) (healthScore a) (adspowerProfileId a) (adspowerGroupId a)
     v (followers a) (following a) (posts a) (dmConversionRate a)
     (lastAction a) (actionsToday a) (spamScore a) (dailyActionLimit a)
     (notes a).
Definition set_phase (v : Phase.t) (a : t) : t :=
  mk (id a) (name a) (twitterHandle a) (email a) (phone a) v (day a)
     (status a) (healthScore a) (adspowerProfileId a) (adspowerGroupId a)
     (proxyId a) (followers a) (following a) (posts a) (dmConversionRate a)
     (lastAction a) (actionsToday a) (spamScore a) (dailyActionLimit a)
     (notes a).
Definition set_dailyActionLimit (v : Z) (a : t) : t :=
  mk (id a) (name a) (twitterHandle a) (email a) (phone a) (phase a) (day a)
     (status a) (healthScore a) (adspowerProfileId a) (adspowerGroupId a)
     (proxyId a) (followers a) (following a) (posts a) (dmConversionRate a)
     (lastAction a) (actionsToday a) (spamScore a) v (notes a).
Definition set_healthScore (v : Z) (a : t) : t :=
  mk (id a) (name a) (twitterHandle a) (email a) (phone a) (phase a) (day a)
     (status a) v (adspowerProfileId a) (adspowerGroupId a)
     (proxyId a) (followers a) (following a) (posts a) (dmConversionRate a)
     (lastAction a) (actionsToday a) (spamScore a) (dailyActionLimit a)
     (notes a).

(** [Partial<Account>] as the callers build it. *)
Record updates := mk_updates {
  u_proxyId : option string;
  u_phase : option Phase.t;
  u_dailyActionLimit : option Z;
  u_healthScore : option Z
}.

Definition apply (u : updates) (a : t) : t :=
  Proxy.opt_apply set_healthScore (u_healthScore u)
    (Proxy.opt_apply set_dailyActionLimit (u_dailyActionLimit u)
      (Proxy.opt_apply set_phase (u_phase u)
        (Proxy.opt_apply set_proxyId (u_proxyId u) a))).

Definition set_status (v : AccountStatus.t) (a : t) : t :=
  mk (id a) (name a) (twitterHandle a) (email a) (phone a) (phase a) (day a)
     v (healthScore a) (adspowerProfileId a) (adspowerGroupId a)
     (proxyId a) (followers a) (following a) (posts a) (dmConversionRate a)
     (lastAction a) (actionsToday a) (spamScore a) (dailyActionLimit a)
     (notes a).
Definition set_actionsToday (v : Z) (a : t) : t :=
  mk (id a) (name a) (twitterHandle a) (email a) (phone a) (phase a) (day a)
     (status a) (healthScore a) (adspowerProfileId a) (adspowerGroupId a)
     (proxyId a) (followers a) (following a) (posts a) (dmConversionRate a)
     (lastAction a) v (spamScore a) (dailyActionLimit a) (notes a).
End Account.

Module Mapping.
Record t := mk {
  id : string;
  accountId : string;
  proxyId : string;
  assignedAt : Z;
  isActive : bool;
  previousProxyId : option string;
  reassignedAt : option Z;
  reassignmentReason : option string
}.

Definition deactivate (m : t) : t :=
  mk (id m) (accountId m) (proxyId m) (assignedAt m) false
     (previousProxyId m) (reassignedAt m) (reassignmentReason m).
End Mapping.

Module Incident.
Record t := mk {
  id : string;
  type : IncidentType.t;
  severity : Severity.t;
  accountId : option string;
  proxyId : option string;
  title : string;
  description : option string;
  oldProxyId : option string;
  newProxyId : option string;
  status : IncidentStatus.t;
  resolvedAt : option Z;
  resolvedBy : option string;
  resolution : option string
}.

(** [Omit<Incident, 'id' | 'createdAt'>]: what the callers pass. *)
Record data := mk_data {
  d_type : IncidentType.t;
  d_severity : Severity.t;
  d_accountId : option string;
  d_proxyId : option string;
  d_title : string;
  d_description : option string;
  d_oldProxyId : option string;
  d_newProxyId : option string;
  d_status : IncidentStatus.t;
  d_resolution : option string
}.

Definition resolve (res by_ : string) (at_ : Z) (i : t) : t :=
  mk (id i) (type i) (severity i) (accountId i) (proxyId i) (title i)
     (description i) (oldProxyId i) (newProxyId i) IncidentStatus.resolved
     (Some at_) (Some by_) (Some res).
End Incident.

Module HealthCheckLog.
Inductive checkType := proxy | account | full.
Record t := mk {
  accountId : option string;
  proxyId : option string;
  check : checkType;
  proxyWorking : bool;
  proxyResponseTime : option Z;
  accountStatus : option string;
  healthScore : Z;
  issues : list string
}.
End HealthCheckLog.

(** ** DatabaseClient (database/client.ts)

    The tables of the SQLite store.  The key constraints of [accounts]
    ([id] PRIMARY KEY, [twitter_handle] UNIQUE) are part of the model.  The
    foreign keys and CHECK constraints are not: in a store that satisfies
    them the operations below only write values that satisfy them too. *)

Module DatabaseClient.

Record t := mk {
  proxies : list Proxy.t;
  accounts : list Account.t;
  mappings : list Mapping.t;
  incidents : list Incident.t;
  health_check_logs : list HealthCheckLog.t;
  uuids : nat
}.

Definition set_proxies (v : list Proxy.t) (db : t) : t :=
  mk v (accounts db) (mappings db) (incidents db) (health_check_logs db)
     (uuids db).
Definition set_accounts (v : list Account.t) (db : t) : t :=
  mk (proxies db) v (mappings db) (incidents db) (health_check_logs db)
     (uuids db).
Definition set_mappings (v : list Mapping.t) (db : t) : t :=
  mk (proxies db) (accounts db) v (incidents db) (health_check_logs db)
     (uuids db).
Definition set_incidents (v : list Incident.t) (db : t) : t :=
  mk (proxies db) (accounts db) (mappings db) v (health_check_logs db)
     (uuids db).
Definition set_health_check_logs (v : list HealthCheckLog.t) (db : t) : t :=
  mk (proxies db) (accounts db) (mappings db) (incidents db) v (uuids db).

(** [crypto.randomUUID()]. *)
Definition randomUUID (db : t) : string * t :=
  (fresh_id "uuid-" (uuids db),
   mk (proxies db) (accounts db) (mappings db) (incidents db)
      (health_check_logs db) (S (uuids db))).

(** *** Proxy operations *)

Definition getProxy (id : string) (db : t) : option Proxy.t :=
  find (fun p => (Proxy.id p =? id)%string) (proxies db).

Definition proxy_id_le (a b : Proxy.t) : bool :=
  (Proxy.id a <=? Proxy.id b)%string.

(** [SELECT * FROM proxies ORDER BY id] *)
Definition getAllProxies (db : t) : list Proxy.t :=
  stable_sort proxy_id_le (proxies db).

(** [WHERE status = 'active' AND assigned_accounts < max_accounts] *)
Definition available (p : Proxy.t) : bool :=
  ProxyStatus.eqb (Proxy.status p) ProxyStatus.active
  && (Proxy.assignedAccounts p <? Proxy.maxAccounts p).

(** [ORDER BY assigned_accounts ASC, health_score DESC]: [a] does not come
    after [b]. *)
Definition available_order (a b : Proxy.t) : bool :=
  (Proxy.assignedAccounts a <? Proxy.assignedAccounts b)
  || ((Proxy.assignedAccounts a =? Proxy.assignedAccounts b)
      && (Proxy.healthScore b <=? Proxy.healthScore a)).

(** [... LIMIT 1].  Rows that tie on both sort keys come out in rowid
    order. *)
Definition findAvailableProxy (db : t) : option Proxy.t :=
  hd_error (stable_sort available_order (filter available (proxies db))).

Definition update_where {A : Type} (sel : A -> bool) (f : A -> A)
  (rows : list A) : list A :=
  map (fun r => if sel r then f r else r) rows.

(** What [run] throws, as a [TypeError], when one of the values to bind is
    a [Date]: better-sqlite3 binds numbers, strings, bigints, buffers and
    [null] only. *)
Definition bind_error : string :=
  "SQLite3 can only bind numbers, strings, bigints, buffers, and null".

(** The values of the updates are bound as they come, without conversion.
    A [lastTested] is a [Date] in every caller that passes one: [run] then
    throws before the statement is executed and no column is written.  The
    other fields are numbers and strings, so that a call without
    [lastTested] returns; such callers take the store of the result. *)
Definition updateProxy (id : string) (u : Proxy.updates) (db : t)
  : outcome unit * t :=
  match Proxy.u_lastTested u with
  | Some _ => (Throw bind_error, db)
  | None =>
      (Ret tt,
       set_proxies
         (update_where (fun p => (Proxy.id p =? id)%string) (Proxy.apply u)
            (proxies db)) db)
  end.

Definition incrementProxyAccountCount (proxyId : string) (db : t) : t :=
  set_proxies
    (update_where (fun p => (Proxy.id p =? proxyId)%string)
       (fun p => Proxy.set_assignedAccounts (Proxy.assignedAccounts p + 1) p)
       (proxies db)) db.

Definition decrementProxyAccountCount (proxyId : string) (db : t) : t :=
  set_proxies
    (update_where (fun p => (Proxy.id p =? proxyId)%string)
       (fun p =>
          Proxy.set_assignedAccounts
            (Z.max 0 (Proxy.assignedAccounts p - 1)) p)
       (proxies db)) db.

(** *** Mapping operations *)

Definition createMapping (m : Mapping.t) (db : t) : t :=
  set_mappings
    (mappings db ++
     [Mapping.mk (Mapping.id m) (Mapping.accountId m) (Mapping.proxyId m)
        (Mapping.assignedAt m) (Mapping.isActive m)
        (or_null (Mapping.previousProxyId m)) (Mapping.reassignedAt m)
        (or_null (Mapping.reassignmentReason m))])%list db.

(** *** Account operations *)

Definition getAccount (id : string) (db : t) : option Account.t :=
  find (fun a => (Account.id a =? id)%string) (accounts db).

Definition account_id_le (a b : Account.t) : bool :=
  (Account.id a <=? Account.id b)%string.

Definition getAllAccounts (db : t) : list Account.t :=
  stable_sort account_id_le (accounts db).

Definition getAccountsByProxy (proxyId : string) (db : t) : list Account.t :=
  stable_sort account_id_le
    (filter (fun a => (Account.proxyId a =? proxyId)%string) (accounts db)).

(** The row that [INSERT INTO accounts] writes for [a]. *)
Definition account_row (a : Account.t) : Account.t :=
  Account.mk (Account.id a) (Account.name a) (Account.twitterHandle a)
    (or_null (Account.email a)) (or_null (Account.phone a))
    (Account.phase a) (Account.day a) (Account.status a)
    (Account.healthScore a) (Account.adspowerProfileId a)
    (or_null (Account.adspowerGroupId a)) (Account.proxyId a)
    (Account.followers a) (Account.following a) (Account.posts a)
    (Account.dmConversionRate a) (Account.lastAction a)
    (Account.actionsToday a) (Account.spamScore a)
    (Account.dailyActionLimit a) (or_null (Account.notes a)).

(** The constraint that rejects the [INSERT], if any.  SQLite checks the
    index of [twitter_handle UNIQUE] before the index of the primary key: a
    row that violates both is reported for its handle. *)
Definition insert_violation (a : Account.t) (db : t) : option string :=
  if existsb
       (fun r => (Account.twitterHandle r =? Account.twitterHandle a)%string)
       (accounts db)
  then Some "UNIQUE constraint failed: accounts.twitter_handle"
  else if existsb (fun r => (Account.id r =? Account.id a)%string)
            (accounts db)
  then Some "UNIQUE constraint failed: accounts.id"
  else None.

Definition createAccount (now : Z) (account : Account.t) (db : t)
  : outcome (option Account.t) * t :=
  match insert_violation account db with
  | Some message => (Throw message, db)
  | None =>
      let db1 := set_accounts (accounts db ++ [account_row account])%list db in
      (* Increment proxy count *)
      let db2 := incrementProxyAccountCount (Account.proxyId account) db1 in
      (* Create mapping *)
      let (uuid, db3) := randomUUID db2 in
      let db4 :=
        createMapping
          (Mapping.mk uuid (Account.id account) (Account.proxyId account) now
             true None None None) db3 in
      (Ret (getAccount (Account.id account) db4), db4)
  end.

Definition updateAccount (id : string) (u : Account.updates) (db : t) : t :=
  set_accounts
    (update_where (fun a => (Account.id a =? id)%string) (Account.apply u)
       (accounts db)) db.

Definition updateAccountProxy (now : Z) (accountId newProxyId : string)
  (reason : option string) (db : t) : outcome unit * t :=
  match getAccount accountId db with
  | None => (Throw ("Account " ++ accountId ++ " not found")%string, db)
  | Some account =>
      let oldProxyId := Account.proxyId account in
      (* Update account *)
      let db1 :=
        updateAccount accountId
          (Account.mk_updates (Some newProxyId) None None None) db in
      (* Update proxy counts *)
      let db2 := decrementProxyAccountCount oldProxyId db1 in
      let db3 := incrementProxyAccountCount newProxyId db2 in
      (* Deactivate old mapping *)
      let db4 :=
        set_mappings
          (update_where
             (fun m => (Mapping.accountId m =? accountId)%string
                       && (Mapping.proxyId m =? oldProxyId)%string)
             Mapping.deactivate (mappings db3)) db3 in
      (* Create new mapping *)
      let (uuid, db5) := randomUUID db4 in
      (Ret tt,
       createMapping
         (Mapping.mk uuid accountId newProxyId now true (Some oldProxyId)
            (Some now) reason) db5)
  end.

(** *** Incident operations *)

Definition getIncident (id : string) (db : t) : option Incident.t :=
  find (fun i => (Incident.id i =? id)%string) (incidents db).

(** The [resolution] passed by some callers is not among the inserted
    columns. *)
Definition createIncident (d : Incident.data) (db : t) : Incident.t * t :=
  let (id, db1) := randomUUID db in
  let row :=
    Incident.mk id (Incident.d_type d) (Incident.d_severity d)
      (or_null (Incident.d_accountId d)) (or_null (Incident.d_proxyId d))
      (Incident.d_title d) (or_null (Incident.d_description d))
      (or_null (Incident.d_oldProxyId d)) (or_null (Incident.d_newProxyId d))
      (Incident.d_status d) None None None in
  (row, set_incidents (incidents db1 ++ [row])%list db1).

Definition resolveIncident (now : Z) (id resolution resolvedBy : string)
  (db : t) : t :=
  set_incidents
    (update_where (fun i => (Incident.id i =? id)%string)
       (Incident.resolve resolution resolvedBy now) (incidents db)) db.

(** *** Health check log *)

Definition logHealthCheck (accountId proxyId : option string)
  (check : HealthCheckLog.checkType) (proxyWorking : bool)
  (proxyResponseTime : option Z) (accountStatus : option string)
  (healthScore : Z) (issues : list string) (db : t) : t :=
  set_health_check_logs
    (health_check_logs db ++
     [HealthCheckLog.mk (or_null accountId) (or_null proxyId) check
        proxyWorking
        (match proxyResponseTime with
         | Some r => num_or_null r
         | None => None
         end)
        (or_null accountStatus) healthScore issues])%list db.

(** *** Creating a proxy *)

(** The constraint of [proxies] that rejects the [INSERT], if any: the
    CHECK on [health_score], then the PRIMARY KEY. *)
Definition proxy_violation (p : Proxy.t) (db : t) : option string :=
  if negb ((0 <=? Proxy.healthScore p) && (Proxy.healthScore p <=? 100))
  then
    Some "CHECK constraint failed: health_score >= 0 AND health_score <= 100"
  else if existsb (fun r => (Proxy.id r =? Proxy.id p)%string) (proxies db)
  then Some "UNIQUE constraint failed: proxies.id"
  else None.

(** The row that [INSERT INTO proxies] writes for [p]: the statement names
    the columns up to [assigned_accounts]; [avg_response_time],
    [success_rate] and [last_tested] take the defaults of the schema.  The
    password is kept as [decryptProxy] reads it back. *)
Definition proxy_row (p : Proxy.t) : Proxy.t :=
  Proxy.mk (Proxy.id p) (Proxy.name p) (Proxy.host p) (Proxy.port p)
    (Proxy.username p) (Proxy.password p) (Proxy.protocol p) (Proxy.status p)
    (Proxy.healthScore p) (Proxy.maxAccounts p) (Proxy.assignedAccounts p)
    None 0 100.

Definition createProxy (proxy : Proxy.t) (db : t)
  : outcome (option Proxy.t) * t :=
  match proxy_violation proxy db with
  | Some message => (Throw message, db)
  | None =>
      let db' := set_proxies (proxies db ++ [proxy_row proxy])%list db in
      (Ret (getProxy (Proxy.id proxy) db'), db')
  end.

(** *** Further queries on accounts *)

Definition getAccountByTwitterHandle (handle : string) (db : t)
  : option Account.t :=
  find (fun a => (Account.twitterHandle a =? handle)%string) (accounts db).

(** [WHERE status = 'active' ORDER BY id] *)
Definition getActiveAccounts (db : t) : list Account.t :=
  stable_sort account_id_le
    (filter
       (fun a => AccountStatus.eqb (Account.status a) AccountStatus.active)
       (accounts db)).

(** [UPDATE accounts SET actions_today = 0], without [WHERE]. *)
Definition resetDailyActions (db : t) : t :=
  set_accounts (map (Account.set_actionsToday 0) (accounts db)) db.

(** *** Queries on incidents

    [created_at], filled by [CURRENT_TIMESTAMP], is not among the columns
    that the rows of the model keep.  The queries that sort on it take it as
    the function [created_at] from the id of an incident.  SQLite answers
    [ORDER BY created_at DESC] by a backward scan of [idx_incidents_created]:
    of the rows of the same [created_at], the one inserted last comes
    first. *)

Definition newest_first (created_at : string -> Z) (a b : Incident.t) : bool :=
  created_at (Incident.id b) <=? created_at (Incident.id a).

(** [WHERE status = 'open' ORDER BY created_at DESC] *)
Definition getOpenIncidents (created_at : string -> Z) (db : t)
  : list Incident.t :=
  stable_sort (newest_first created_at)
    (rev
       (filter
          (fun i => IncidentStatus.eqb (Incident.status i) IncidentStatus.open)
          (incidents db))).

(** [WHERE account_id = ? ORDER BY created_at DESC] *)
Definition getIncidentsByAccount (created_at : string -> Z)
  (accountId : string) (db : t) : list Incident.t :=
  stable_sort (newest_first created_at)
    (rev
       (filter (fun i => column_is accountId (Incident.accountId i))
          (incidents db))).

(** [WHERE proxy_id = ? OR old_proxy_id = ? ORDER BY created_at DESC] *)
Definition getIncidentsByProxy (created_at : string -> Z) (proxyId : string)
  (db : t) : list Incident.t :=
  stable_sort (newest_first created_at)
    (rev
       (filter
          (fun i =>
             column_is proxyId (Incident.proxyId i)
             || column_is proxyId (Incident.oldProxyId i))
          (incidents db))).

(** *** Stats *)

(** [phaseDistribution] is the object built from the rows of
    [GROUP BY phase]: a phase without account has no key. *)
Record DashboardStats := mk_stats {
  totalAccounts : Z;
  activeAccounts : Z;
  totalProxies : Z;
  activeProxies : Z;
  openIncidents : Z;
  averageHealthScore : Z;
  phaseDistribution : Phase.t -> option Z
}.

Definition phase_eqb (a b : Phase.t) : bool :=
  match a, b with
  | Phase.warmup, Phase.warmup | Phase.soft, Phase.soft
  | Phase.growth, Phase.growth | Phase.full, Phase.full => true
  | _, _ => false
  end.

(** [SELECT COUNT( * ) ... WHERE sel] *)
Definition count_where {A : Type} (sel : A -> bool) (rows : list A) : Z :=
  count (filter sel rows).

Definition sum_health (rows : list Account.t) : Z :=
  fold_right (fun a s => Account.healthScore a + s) 0 rows.

(** [Math.round (avgHealth.score || 0)]: [AVG] is [NULL] on the empty
    table. *)
Definition getDashboardStats (db : t) : DashboardStats :=
  mk_stats (count (accounts db))
    (count_where
       (fun a => AccountStatus.eqb (Account.status a) AccountStatus.active)
       (accounts db))
    (count (proxies db))
    (count_where
       (fun p => ProxyStatus.eqb (Proxy.status p) ProxyStatus.active)
       (proxies db))
    (count_where
       (fun i => IncidentStatus.eqb (Incident.status i) IncidentStatus.open)
       (incidents db))
    (match accounts db with
     | [] => 0
     | _ => round_div (sum_health (accounts db)) (count (accounts db))
     end)
    (fun phase =>
       let n := count_where (fun a => phase_eqb (Account.phase a) phase)
                  (accounts db) in
       if n =? 0 then None else Some n).

End DatabaseClient.

(** ** AccountProxyMapping (mapping.ts) *)

Module AccountProxyMapping.

Record AccountConfig := mk_config {
  id : string;
  name : string;
  twitterHandle : string;
  email : option string;
  phone : option string;
  adspowerProfileId : string;
  adspowerGroupId : option string;
  notes : option string
}.

Record MappingResult := mk_result {
  success : bool;
  account : option Account.t;
  proxy : option Proxy.t;
  error : option string
}.

Definition failure (message : string) : MappingResult :=
  mk_result false None None (Some message).

Definition getActionLimitForPhase (phase : Phase.t) : Z :=
  match phase with
  | Phase.warmup => 10
  | Phase.soft => 20
  | Phase.growth => 50
  | Phase.full => 100
  end.

Definition no_proxy_error : string :=
  "No available proxies. All proxies have 2 accounts assigned.".

Definition createAccount (now : Z) (config : AccountConfig)
  (db : DatabaseClient.t) : MappingResult * DatabaseClient.t :=
  (* 1. Find available proxy *)
  match DatabaseClient.findAvailableProxy db with
  | None => (failure no_proxy_error, db)
  | Some proxy =>
      (* 2. Validate proxy has capacity *)
      if Proxy.maxAccounts proxy <=? Proxy.assignedAccounts proxy then
        (failure
           ("Proxy " ++ Proxy.id proxy ++ " is at capacity ("
            ++ num (Proxy.assignedAccounts proxy) ++ "/"
            ++ num (Proxy.maxAccounts proxy) ++ ")")%string, db)
      else
        (* 3. Create account with proxy assignment *)
        match
          DatabaseClient.createAccount now
            (Account.mk (id config) (name config) (twitterHandle config)
               (email config) (phone config) Phase.warmup 1
               AccountStatus.active 100 (adspowerProfileId config)
               (adspowerGroupId config) (Proxy.id proxy) 0 0 0 0 (Some now)
               0 0 (getActionLimitForPhase Phase.warmup) (notes config)) db
        with
        | (Ret account, db') =>
            (mk_result true account
               (DatabaseClient.getProxy (Proxy.id proxy) db') None, db')
        | (Throw message, db') => (failure message, db')
        end
  end.

Record ProxyValidation := mk_validation {
  v_proxyId : string;
  accountCount : Z;
  maxAllowed : Z;
  v_isValid : bool;
  accounts : list string
}.

Record ValidationResult := mk_validation_result {
  isValid : bool;
  violations : list string;
  summary : list ProxyValidation
}.

Definition validate_proxy (db : DatabaseClient.t) (proxy : Proxy.t)
  : ProxyValidation :=
  let accounts := DatabaseClient.getAccountsByProxy (Proxy.id proxy) db in
  let count := Z.of_nat (List.length accounts) in
  mk_validation (Proxy.id proxy) count (Proxy.maxAccounts proxy)
    (count <=? Proxy.maxAccounts proxy) (map Account.id accounts).

Definition violation_message (v : ProxyValidation) : string :=
  ("Proxy " ++ v_proxyId v ++ " has " ++ num (accountCount v)
   ++ " accounts (max: " ++ num (maxAllowed v) ++ ")")%string.

Definition validateMappings (db : DatabaseClient.t) : ValidationResult :=
  let summary := map (validate_proxy db) (DatabaseClient.getAllProxies db) in
  let violations :=
    map violation_message (filter (fun v => negb (v_isValid v)) summary) in
  mk_validation_result (Nat.eqb (List.length violations) 0) violations summary.

Record MoveResult := mk_move {
  m_accountId : string;
  fromProxy : string;
  toProxy : option string;
  m_success : bool;
  m_error : option string
}.

Record RebalanceResult := mk_rebalance {
  r_success : bool;
  moves : list MoveResult;
  message : string
}.

(** The inner loop of [rebalanceMappings]: one [findAvailableProxy] per
    account to move. *)
Fixpoint move_accounts (now : Z) (from : string) (ids : list string)
  (moves : list MoveResult) (db : DatabaseClient.t)
  : outcome (list MoveResult) * DatabaseClient.t :=
  match ids with
  | [] => (Ret moves, db)
  | accountId :: rest =>
      match DatabaseClient.findAvailableProxy db with
      | Some newProxy =>
          match
            DatabaseClient.updateAccountProxy now accountId (Proxy.id newProxy)
              (Some "rebalancing") db
          with
          | (Ret _, db') =>
              move_accounts now from rest
                (moves ++
                 [mk_move accountId from (Some (Proxy.id newProxy)) true None])%list
                db'
          | (Throw e, db') => (Throw e, db')
          end
      | None =>
          move_accounts now from rest
            (moves ++
             [mk_move accountId from None false
                (Some "No available proxies for rebalancing")])%list db
      end
  end.

(** The outer loop, over the summary computed before any move. *)
Fixpoint rebalance_proxies (now : Z) (summary : list ProxyValidation)
  (moves : list MoveResult) (db : DatabaseClient.t)
  : outcome (list MoveResult) * DatabaseClient.t :=
  match summary with
  | [] => (Ret moves, db)
  | proxy :: rest =>
      if negb (v_isValid proxy) then
        let excessAccounts := accountCount proxy - maxAllowed proxy in
        let accountsToMove :=
          slice_last (Z.to_nat excessAccounts) (accounts proxy) in
        match move_accounts now (v_proxyId proxy) accountsToMove moves db with
        | (Ret moves', db') => rebalance_proxies now rest moves' db'
        | (Throw e, db') => (Throw e, db')
        end
      else rebalance_proxies now rest moves db
  end.

Definition rebalanceMappings (now : Z) (db : DatabaseClient.t)
  : outcome RebalanceResult * DatabaseClient.t :=
  let validation := validateMappings db in
  if isValid validation then
    (Ret (mk_rebalance true [] "No rebalancing needed"), db)
  else
    match rebalance_proxies now (summary validation) [] db with
    | (Ret moves, db') =>
        (Ret
           (mk_rebalance (forallb m_success moves) moves
              ("Rebalanced "
               ++ num (Z.of_nat (List.length (filter m_success moves)))
               ++ " accounts")%string), db')
    | (Throw e, db') => (Throw e, db')
    end.

Definition moveAccount (now : Z) (accountId targetProxyId : string)
  (reason : option string) (db : DatabaseClient.t)
  : MappingResult * DatabaseClient.t :=
  match DatabaseClient.getAccount accountId db with
  | None => (failure ("Account " ++ accountId ++ " not found")%string, db)
  | Some _ =>
      match DatabaseClient.getProxy targetProxyId db with
      | None =>
          (failure ("Proxy " ++ targetProxyId ++ " not found")%string, db)
      | Some targetProxy =>
          if Proxy.maxAccounts targetProxy <=? Proxy.assignedAccounts targetProxy
          then
            (failure
               ("Target proxy " ++ targetProxyId ++ " is at capacity")%string,
             db)
          else
            match
              DatabaseClient.updateAccountProxy now accountId targetProxyId
                (Some (or_default reason "manual_move")) db
            with
            | (Ret _, db') =>
                (mk_result true (DatabaseClient.getAccount accountId db')
                   (DatabaseClient.getProxy targetProxyId db') None, db')
            | (Throw message, db') => (failure message, db')
            end
      end
  end.

Definition phases : list Phase.t :=
  [Phase.warmup; Phase.soft; Phase.growth; Phase.full].

Definition phase_eqb (a b : Phase.t) : bool :=
  match a, b with
  | Phase.warmup, Phase.warmup | Phase.soft, Phase.soft
  | Phase.growth, Phase.growth | Phase.full, Phase.full => true
  | _, _ => false
  end.

(** [Array.prototype.indexOf]: [-1] when absent. *)
Fixpoint indexOf (x : Phase.t) (l : list Phase.t) : Z :=
  match l with
  | [] => -1
  | y :: ys =>
      if phase_eqb x y then 0
      else let i := indexOf x ys in if i <? 0 then -1 else i + 1
  end.

Definition advancePhase (accountId : string) (db : DatabaseClient.t)
  : option Account.t * DatabaseClient.t :=
  match DatabaseClient.getAccount accountId db with
  | None => (None, db)
  | Some account =>
      let currentIndex := indexOf (Account.phase account) phases in
      if currentIndex <? Z.of_nat (List.length phases) - 1 then
        let newPhase := nth_error phases (Z.to_nat (currentIndex + 1)) in
        let db' :=
          DatabaseClient.updateAccount accountId
            (Account.mk_updates None newPhase
               (option_map getActionLimitForPhase newPhase) None) db in
        (DatabaseClient.getAccount accountId db', db')
      else (Some account, db)
  end.

(** *** Assignable accounts and bulk creation *)

Definition getAssignableAccounts (proxyId : string) (db : DatabaseClient.t)
  : list Account.t :=
  match DatabaseClient.getProxy proxyId db with
  | None => []
  | Some proxy =>
      let currentAccounts := DatabaseClient.getAccountsByProxy proxyId db in
      let availableSlots := Proxy.maxAccounts proxy - count currentAccounts in
      if availableSlots <=? 0 then []
      else
        (* Get unassigned or reassignable accounts *)
        firstn (Z.to_nat availableSlots)
          (filter (fun a => negb (Account.proxyId a =? proxyId)%string)
             (DatabaseClient.getAllAccounts db))
  end.

Record BulkCreateResult := mk_bulk_create {
  b_total : Z;
  b_successful : Z;
  b_failed : Z;
  b_results : list MappingResult;
  b_errors : list string
}.

(** The loop of [bulkCreateAccounts]. *)
Fixpoint create_each (now : Z) (configs : list AccountConfig)
  (results : list MappingResult) (errors : list string)
  (db : DatabaseClient.t)
  : list MappingResult * list string * DatabaseClient.t :=
  match configs with
  | [] => (results, errors, db)
  | config :: rest =>
      let (result, db') := createAccount now config db in
      create_each now rest (results ++ [result])%list
        (if negb (success result)
         then
           (errors
            ++ [(id config ++ ": " ++ template (error result))%string])%list
         else errors) db'
  end.

Definition bulkCreateAccounts (now : Z) (configs : list AccountConfig)
  (db : DatabaseClient.t) : BulkCreateResult * DatabaseClient.t :=
  let '(results, errors, db') := create_each now configs [] [] db in
  (mk_bulk_create (count configs) (count (filter success results))
     (count (filter (fun r => negb (success r)) results)) results errors,
   db').

End AccountProxyMapping.

(** ** HealthMonitor (health.ts) *)

Module HealthMonitor.

(** [actionRatio] is the quotient [actionsToday / dailyActionLimit]; it is
    only compared with [0.9], and is kept as an exact rational. *)
Record HealthFactors := mk_factors {
  proxyWorking : bool;
  accountStatus : string;
  actionRatio : Q;
  spamScore : Z;
  issues : Z
}.

(** [r > 0.9] *)
Definition above_nine_tenths (r : Q) : bool := negb (Qle_bool r (9 # 10)).

Definition calculateHealthScore (factors : HealthFactors) : Z :=
  let score := 100 in
  (* Proxy health (40% weight) *)
  let score := if negb (proxyWorking factors) then score - 40 else score in
  (* Account status (30% weight) *)
  let score :=
    if (accountStatus factors =? "suspended")%string then score - 30
    else score in
  let score :=
    if (accountStatus factors =? "banned")%string then score - 50
    else score in
  (* Action ratio (10% weight) *)
  let score :=
    if above_nine_tenths (actionRatio factors) then score - 10 else score in
  (* Spam score (10% weight) *)
  let score := score - spamScore factors / 10 in
  (* Issues (10% weight, -2 per issue) *)
  let score := score - issues factors * 2 in
  Z.max 0 (Z.min 100 score).

(** What the awaited [fetch] through the proxy did. *)
Inductive Fetch :=
| Response (ok : bool) (status : Z)
| Rejected (message : string).

(** One probe as the environment answers it: the fetch, the elapsed
    milliseconds read after it, and the clock reading passed as
    [lastTested]. *)
Record Probe := mk_probe {
  fetch : Fetch;
  elapsed : Z;
  testedAt : Z
}.

Record ProxyTestResult := mk_test {
  working : bool;
  responseTime : Z;
  statusCode : option Z;
  error : option string
}.

(** The [catch] block of [testProxy], entered with the message of what the
    [try] block threw.  An error that its own [updateProxy] throws leaves the
    method: the promise rejects. *)
Definition testProxy_catch (probe : Probe) (proxy : Proxy.t)
  (message : string) (db : DatabaseClient.t)
  : outcome ProxyTestResult * DatabaseClient.t :=
  let responseTime := elapsed probe in
  (* Update proxy as potentially failed *)
  match
    DatabaseClient.updateProxy (Proxy.id proxy)
      (Proxy.mk_updates None None (Some (testedAt probe)) None (Some 0)) db
  with
  | (Throw e, db') => (Throw e, db')
  | (Ret _, db') => (Ret (mk_test false responseTime None (Some message)), db')
  end.

(** Both calls of [updateProxy] pass [lastTested: new Date()].  The one of
    the [try] block is inside it: what it throws is caught like a failure of
    the fetch. *)
Definition testProxy (probe : Probe) (proxy : Proxy.t)
  (db : DatabaseClient.t) : outcome ProxyTestResult * DatabaseClient.t :=
  match fetch probe with
  | Response ok status =>
      let responseTime := elapsed probe in
      (* Update proxy metrics *)
      match
        DatabaseClient.updateProxy (Proxy.id proxy)
          (Proxy.mk_updates None None (Some (testedAt probe))
             (Some responseTime) (Some (if ok then 100 else 0))) db
      with
      | (Throw e, db') => testProxy_catch probe proxy e db'
      | (Ret _, db') =>
          if ok then (Ret (mk_test true responseTime (Some status) None), db')
          else
            (Ret
               (mk_test false responseTime (Some status)
                  (Some ("HTTP " ++ num status)%string)), db')
      end
  | Rejected message => testProxy_catch probe proxy message db
  end.

Record ProxyHealthResult := mk_health {
  h_proxyId : string;
  h_test : ProxyTestResult
}.

(** The body of the loop of [checkAllProxies] for one proxy of the list read
    at the start of the run. *)
Definition check_proxy (probe : Probe) (proxy : Proxy.t)
  (db : DatabaseClient.t) : outcome ProxyHealthResult * DatabaseClient.t :=
  match testProxy probe proxy db with
  | (Throw e, db') => (Throw e, db')
  | (Ret testResult, db1) =>
      (* Update proxy status *)
      let db2 :=
        if negb (working testResult) then
          let db' :=
            snd
              (DatabaseClient.updateProxy (Proxy.id proxy)
                 (Proxy.mk_updates (Some ProxyStatus.failed)
                    (Some (Z.max 0 (Proxy.healthScore proxy - 20))) None None
                    None) db1) in
          (* Create incident *)
          snd
            (DatabaseClient.createIncident
               (Incident.mk_data IncidentType.proxy_failure Severity.high None
                  (Some (Proxy.id proxy))
                  ("Proxy " ++ Proxy.id proxy ++ " failed health check")%string
                  (Some (or_default (error testResult) "Unknown error")) None
                  None IncidentStatus.open None) db')
        else
          (* Recovering proxy *)
          if ProxyStatus.eqb (Proxy.status proxy) ProxyStatus.failed then
            snd
              (DatabaseClient.updateProxy (Proxy.id proxy)
                 (Proxy.mk_updates (Some ProxyStatus.active)
                    (Some (Z.min 100 (Proxy.healthScore proxy + 10))) None None
                    None) db1)
          else db1 in
      (* Log health check *)
      let db3 :=
        DatabaseClient.logHealthCheck None (Some (Proxy.id proxy))
          HealthCheckLog.proxy (working testResult)
          (Some (responseTime testResult)) None
          (if working testResult then 100 else 0)
          (match or_null (error testResult) with
           | Some e => [e]
           | None => []
           end) db2 in
      (Ret (mk_health (Proxy.id proxy) testResult), db3)
  end.

(** The loop of [checkAllProxies]: a probe that rejects ends the run. *)
Fixpoint check_proxies (probe_of : string -> Probe) (proxies : list Proxy.t)
  (results : list ProxyHealthResult) (db : DatabaseClient.t)
  : outcome (list ProxyHealthResult) * DatabaseClient.t :=
  match proxies with
  | [] => (Ret results, db)
  | proxy :: rest =>
      match check_proxy (probe_of (Proxy.id proxy)) proxy db with
      | (Throw e, db') => (Throw e, db')
      | (Ret r, db') => check_proxies probe_of rest (results ++ [r])%list db'
      end
  end.

(** [probe_of] gives, for this run, the answer of the probe of each proxy. *)
Definition checkAllProxies (probe_of : string -> Probe)
  (db : DatabaseClient.t)
  : outcome (list ProxyHealthResult) * DatabaseClient.t :=
  check_proxies probe_of (DatabaseClient.getAllProxies db) [] db.

(** *** The daily health check *)

Record HealthCheckConfig := mk_config {
  proxyTestUrl : string;
  proxyTimeoutMs : Z;
  accountCheckEnabled : bool;
  alertThreshold : Z;
  criticalThreshold : Z
}.

Definition default_config : HealthCheckConfig :=
  mk_config "https://twitter.com" 10000 true 50 25.

Record HealthCheckResult := mk_result {
  r_accountId : string;
  r_proxyId : string;
  r_timestamp : Z;
  r_proxyWorking : bool;
  r_proxyResponseTime : Z;
  r_accountStatus : string;
  r_healthScore : Z;
  r_issues : list string;
  r_alerts : list string
}.

(** For now, the stored status. *)
Definition checkAccountStatus (account : Account.t) : string :=
  AccountStatus.to_string (Account.status account).

(** The double that [0.9] denotes is [8106479329266893 / 2^53], a little
    above nine tenths.  A quotient rounds to a double above it from the
    midpoint of that double and the next one on, the mantissa of the double
    being odd. *)
Definition above_double_nine_tenths_from : Q :=
  16212958658533787 # 18014398509481984.

(** [actionsToday / dailyActionLimit], of which [calculateHealthScore] reads
    the comparison with [0.9] only.  With a limit of zero the quotient is
    [Infinity] for a positive count, which is above [0.9] and rendered as 1,
    and [NaN] or [-Infinity] otherwise, which are not and are rendered
    as 0.  A quotient above nine tenths that rounds to the double [0.9] is
    not above it either, and is rendered as nine tenths. *)
Definition action_ratio (actionsToday dailyActionLimit : Z) : Q :=
  let quotient : Q :=
    if 0 <? dailyActionLimit then actionsToday # Z.to_pos dailyActionLimit
    else if dailyActionLimit <? 0
    then (- actionsToday) # Z.to_pos (- dailyActionLimit)
    else if 0 <? actionsToday then 1%Q else 0%Q in
  if above_nine_tenths quotient
     && negb (Qle_bool above_double_nine_tenths_from quotient)
  then 9 # 10
  else quotient.

(** [if (c) l.push(x)] *)
Definition push_if (c : bool) (x : string) (l : list string) : list string :=
  if c then (l ++ [x])%list else l.

Definition hour_ms : Z := 1000 * 60 * 60.

(** [Date.now() - account.lastAction.getTime()]; [mapAccount] reads a
    [NULL] [last_action] as the current time. *)
Definition since_last_action (now : Z) (account : Account.t) : Z :=
  match Account.lastAction account with
  | Some t => now - t
  | None => 0
  end.

(** [checkAccountHealth].  When the account points at no stored proxy,
    [testProxy] is entered with [null]: its [try] block throws, and so does
    its [catch] block at [proxy.id], which rejects the promise.  The awaited
    [testProxy] is not inside a [try]: when it rejects, so does the
    method. *)
Definition checkAccountHealth (now : Z) (probe : Probe) (account : Account.t)
  (db : DatabaseClient.t) : outcome HealthCheckResult * DatabaseClient.t :=
  match DatabaseClient.getProxy (Account.proxyId account) db with
  | None => (Throw "Cannot read properties of null (reading 'id')", db)
  | Some proxy =>
      (* 1. Test proxy connectivity *)
      match testProxy probe proxy db with
      | (Throw e, db') => (Throw e, db')
      | (Ret proxyTest, db') =>
          let issues :=
            push_if (negb (working proxyTest))
              ("Proxy failed: " ++ template (error proxyTest)) [] in
          let alerts :=
            push_if (negb (working proxyTest)) "Proxy connectivity issue" [] in
          (* 2. Check account status *)
          let accountStatus := checkAccountStatus account in
          let issues :=
            push_if (negb (accountStatus =? "active")%string)
              ("Account status: " ++ accountStatus) issues in
          let alerts :=
            push_if (negb (accountStatus =? "active")%string)
              "Account not active" alerts in
          (* 3. Check action limits *)
          let issues :=
            push_if
              (Account.dailyActionLimit account <=? Account.actionsToday account)
              "Daily action limit reached" issues in
          (* 4. Check spam score *)
          let issues :=
            push_if (70 <? Account.spamScore account)
              ("High spam score: " ++ num (Account.spamScore account)) issues in
          let alerts :=
            push_if (70 <? Account.spamScore account) "Elevated spam risk"
              alerts in
          (* 5. Check last action time *)
          let sinceLastAction := since_last_action now account in
          let issues :=
            push_if (48 * hour_ms <? sinceLastAction)
              ("No activity for " ++ num (round_div sinceLastAction hour_ms)
               ++ " hours") issues in
          (* Calculate health score *)
          let healthScore :=
            calculateHealthScore
              (mk_factors (working proxyTest) accountStatus
                 (action_ratio (Account.actionsToday account)
                    (Account.dailyActionLimit account))
                 (Account.spamScore account) (count issues)) in
          (Ret
             (mk_result (Account.id account) (Account.proxyId account) now
                (working proxyTest) (responseTime proxyTest) accountStatus
                healthScore issues alerts), db')
      end
  end.

(** What [sendAlert] hands to the registered callbacks: the message
    [CRITICAL: Account <id> health is <score>] or
    [WARNING: Account <id> health is <score>], behind its sign. *)
Inductive Alert :=
| Critical (accountId : string) (healthScore : Z)
| Warning (accountId : string) (healthScore : Z).

(** The private [createIncident] of the monitor. *)
Definition createIncident (type : IncidentType.t) (account : Account.t)
  (result : HealthCheckResult) (db : DatabaseClient.t) : DatabaseClient.t :=
  snd
    (DatabaseClient.createIncident
       (Incident.mk_data type
          (if r_healthScore result <? 25 then Severity.critical
           else Severity.high)
          (Some (Account.id account)) (Some (Account.proxyId account))
          ("Health check failed for " ++ Account.id account)
          (Some (join LF (r_issues result))) None None IncidentStatus.open
          None) db).

(** The body of the loop of [runDailyHealthCheck] for one account of the
    list read at the start of the run. *)
Definition check_account (config : HealthCheckConfig) (now : Z)
  (probe : Probe) (account : Account.t) (db : DatabaseClient.t)
  : outcome (HealthCheckResult * list Alert) * DatabaseClient.t :=
  match checkAccountHealth now probe account db with
  | (Throw e, db') => (Throw e, db')
  | (Ret result, db1) =>
      (* Log the check *)
      let db2 :=
        DatabaseClient.logHealthCheck (Some (Account.id account))
          (Some (Account.proxyId account)) HealthCheckLog.full
          (r_proxyWorking result) (Some (r_proxyResponseTime result))
          (Some (r_accountStatus result)) (r_healthScore result)
          (r_issues result) db1 in
      (* Update account health score *)
      let db3 :=
        DatabaseClient.updateAccount (Account.id account)
          (Account.mk_updates None None None (Some (r_healthScore result)))
          db2 in
      (* Send alerts if needed *)
      if r_healthScore result <? criticalThreshold config then
        (Ret (result, [Critical (Account.id account) (r_healthScore result)]),
         createIncident IncidentType.health_check_failed account result db3)
      else if r_healthScore result <? alertThreshold config then
        (Ret (result, [Warning (Account.id account) (r_healthScore result)]),
         db3)
      else (Ret (result, []), db3)
  end.

Fixpoint check_accounts (config : HealthCheckConfig) (now : Z)
  (probe_of : string -> Probe) (accounts : list Account.t)
  (results : list HealthCheckResult) (alerts : list Alert)
  (db : DatabaseClient.t)
  : outcome (list HealthCheckResult) * list Alert * DatabaseClient.t :=
  match accounts with
  | [] => (Ret results, alerts, db)
  | account :: rest =>
      match check_account config now (probe_of (Account.id account)) account db
      with
      | (Ret (result, sent), db') =>
          check_accounts config now probe_of rest (results ++ [result])%list
            (alerts ++ sent)%list db'
      | (Throw e, db') => (Throw e, alerts, db')
      end
  end.

(** [probe_of] gives, for this run, the answer of the probe made for each
    account; the second component lists the alerts sent. *)
Definition runDailyHealthCheck (config : HealthCheckConfig) (now : Z)
  (probe_of : string -> Probe) (db : DatabaseClient.t)
  : outcome (list HealthCheckResult) * list Alert * DatabaseClient.t :=
  check_accounts config now probe_of (DatabaseClient.getActiveAccounts db) []
    [] db.

(** *** The health summary *)

Record ProxyHealth := mk_proxy_health {
  ph_id : string;
  ph_status : ProxyStatus.t;
  ph_healthScore : Z;
  ph_responseTime : Z;
  ph_successRate : Z
}.

(** [averageHealth] is [None] when it is [NaN]. *)
Record HealthSummary := mk_summary {
  s_totalAccounts : Z;
  s_averageHealth : option Z;
  s_excellent : Z;
  s_good : Z;
  s_warning : Z;
  s_critical : Z;
  s_proxyHealth : list ProxyHealth;
  s_failingProxies : Z;
  s_accountsNeedingAttention : Z
}.

Definition getHealthSummary (db : DatabaseClient.t) : HealthSummary :=
  let accounts := DatabaseClient.getAllAccounts db in
  let proxies := DatabaseClient.getAllProxies db in
  mk_summary (count accounts)
    (match accounts with
     | [] => None
     | _ =>
         Some
           (round_div
              (fold_left (fun sum a => sum + Account.healthScore a) accounts 0)
              (count accounts))
     end)
    (count (filter (fun a => 80 <=? Account.healthScore a) accounts))
    (count
       (filter
          (fun a =>
             (60 <=? Account.healthScore a) && (Account.healthScore a <? 80))
          accounts))
    (count
       (filter
          (fun a =>
             (40 <=? Account.healthScore a) && (Account.healthScore a <? 60))
          accounts))
    (count (filter (fun a => Account.healthScore a <? 40) accounts))
    (map
       (fun p =>
          mk_proxy_health (Proxy.id p) (Proxy.status p) (Proxy.healthScore p)
            (Proxy.avgResponseTime p) (Proxy.successRate p)) proxies)
    (count
       (filter
          (fun p => negb (ProxyStatus.eqb (Proxy.status p) ProxyStatus.active))
          proxies))
    (count (filter (fun a => Account.healthScore a <? 50) accounts)).

End HealthMonitor.

(** ** ProxyFailover (failover.ts) *)

Module ProxyFailover.

Record FailoverConfig := mk_config {
  maxRetries : Z;
  retryDelayMs : Z;
  enableAutoFailover : bool;
  preserveSession : bool
}.

Definition default_config : FailoverConfig := mk_config 3 5000 true true.

Record FailoverResult := mk_result {
  success : bool;
  accountId : string;
  oldProxyId : string;
  newProxyId : option string;
  error : option string;
  incidentId : option string
}.

(** The object: its store, its configuration and the set of accounts with a
    failover in flight. *)
Record t := mk {
  db : DatabaseClient.t;
  config : FailoverConfig;
  inProgress : list string
}.

Definition set_db (v : DatabaseClient.t) (s : t) : t :=
  mk v (config s) (inProgress s).
Definition set_inProgress (v : list string) (s : t) : t :=
  mk (db s) (config s) v.

Definition already_in_progress : string :=
  "Failover already in progress for this account".

(** The [finally] block. *)
Definition release (accountId : string) (s : t) : t :=
  set_inProgress (set_delete accountId (inProgress s)) s.

(** What a call of [handleProxyFailure] holds while it is suspended at
    [await this.updateAdsPowerProxy(...)]. *)
Record Suspended := mk_suspended {
  s_accountId : string;
  s_reason : option string;
  s_oldProxyId : string;
  s_newProxy : Proxy.t
}.

Inductive Progress :=
| Returned (result : FailoverResult)
| Awaiting (call : Suspended).

(** [handleProxyFailure] from its entry up to its first [await], or up to
    its [return] when it does not get that far. *)
Definition handleProxyFailure_begin (now : Z) (accountId : string)
  (reason : option string) (s : t) : Progress * t :=
  (* Prevent concurrent failovers for same account *)
  if set_has accountId (inProgress s) then
    (Returned
       (mk_result false accountId "" None (Some already_in_progress) None), s)
  else
    let s := set_inProgress (set_add accountId (inProgress s)) s in
    match DatabaseClient.getAccount accountId (db s) with
    | None =>
        (Returned
           (mk_result false accountId "" None (Some "Account not found") None),
         release accountId s)
    | Some account =>
        let oldProxyId := Account.proxyId account in
        (* Check if auto-failover is enabled *)
        if negb (enableAutoFailover (config s)) then
          let (incident, db1) :=
            DatabaseClient.createIncident
              (Incident.mk_data IncidentType.proxy_failure Severity.high
                 (Some accountId) (Some oldProxyId)
                 ("Proxy failure detected for " ++ accountId)%string
                 (Some (or_default reason "Auto-failover disabled")) None None
                 IncidentStatus.open None) (db s) in
          (Returned
             (mk_result false accountId oldProxyId None
                (Some "Auto-failover disabled") (Some (Incident.id incident))),
           release accountId (set_db db1 s))
        else
          (* Mark old proxy as failed *)
          let db1 :=
            snd
              (DatabaseClient.updateProxy oldProxyId
                 (Proxy.mk_updates (Some ProxyStatus.failed) None None None
                    None) (db s)) in
          (* Find available proxy *)
          match DatabaseClient.findAvailableProxy db1 with
          | None =>
              (* No available proxies - critical incident *)
              let (incident, db2) :=
                DatabaseClient.createIncident
                  (Incident.mk_data IncidentType.proxy_failure
                     Severity.critical (Some accountId) (Some oldProxyId)
                     ("CRITICAL: No available proxies for " ++ accountId)%string
                     (Some
                        ("Proxy " ++ oldProxyId
                         ++ " failed and no backup proxies available.")%string)
                     None None IncidentStatus.open None) db1 in
              (Returned
                 (mk_result false accountId oldProxyId None
                    (Some "No available proxies for failover")
                    (Some (Incident.id incident))),
               release accountId (set_db db2 s))
          | Some newProxy =>
              (* Perform the switch *)
              match
                DatabaseClient.updateAccountProxy now accountId
                  (Proxy.id newProxy) (Some (or_default reason "proxy_failure"))
                  db1
              with
              | (Throw message, db2) =>
                  (Returned
                     (mk_result false accountId "" None (Some message) None),
                   release accountId (set_db db2 s))
              | (Ret _, db2) =>
                  (Awaiting
                     (mk_suspended accountId reason oldProxyId newProxy),
                   set_db db2 s)
              end
          end
    end.

(** The rest of the call, once the awaited AdsPower update has settled:
    [rejection] is [None] when it resolved and the error message when it
    rejected. *)
Definition handleProxyFailure_resume (now : Z) (call : Suspended)
  (rejection : option string) (s : t) : FailoverResult * t :=
  let accountId := s_accountId call in
  let oldProxyId := s_oldProxyId call in
  let newProxy := s_newProxy call in
  match rejection with
  | Some message =>
      (mk_result false accountId "" None (Some message) None,
       release accountId s)
  | None =>
      (* Create incident record *)
      let (incident, db1) :=
        DatabaseClient.createIncident
          (Incident.mk_data IncidentType.failover_triggered Severity.medium
             (Some accountId) (Some oldProxyId)
             ("Failover completed for " ++ accountId)%string
             (Some
                ("Switched from " ++ oldProxyId ++ " to " ++ Proxy.id newProxy
                 ++ ". Reason: "
                 ++ or_default (s_reason call) "proxy_failure")%string)
             (Some oldProxyId) (Some (Proxy.id newProxy))
             IncidentStatus.resolved
             (Some "Automatic failover completed successfully")) (db s) in
      (* Mark incident as resolved immediately for auto-failover *)
      let db2 :=
        DatabaseClient.resolveIncident now (Incident.id incident)
          "Automatic failover completed" "system" db1 in
      (mk_result true accountId oldProxyId (Some (Proxy.id newProxy)) None
         (Some (Incident.id incident)),
       release accountId (set_db db2 s))
  end.

(** A call that nothing interleaves with.  [updateAdsPowerProxy] only logs,
    so its promise resolves. *)
Definition handleProxyFailure (now : Z) (accountId : string)
  (reason : option string) (s : t) : FailoverResult * t :=
  match handleProxyFailure_begin now accountId reason s with
  | (Returned result, s') => (result, s')
  | (Awaiting call, s') => handleProxyFailure_resume now call None s'
  end.

Record BulkFailoverResult := mk_bulk {
  total : Z;
  successful : Z;
  failed : Z;
  results : list FailoverResult
}.

Fixpoint failover_each (now : Z) (reason : option string)
  (accounts : list Account.t) (results : list FailoverResult) (s : t)
  : list FailoverResult * t :=
  match accounts with
  | [] => (results, s)
  | account :: rest =>
      let (result, s') := handleProxyFailure now (Account.id account) reason s in
      failover_each now reason rest (results ++ [result])%list s'
  end.

Definition bulkFailover (now : Z) (fromProxyId : string)
  (reason : option string) (s : t) : BulkFailoverResult * t :=
  let accounts := DatabaseClient.getAccountsByProxy fromProxyId (db s) in
  (* Mark proxy as failed *)
  let s1 :=
    set_db
      (snd
         (DatabaseClient.updateProxy fromProxyId
            (Proxy.mk_updates (Some ProxyStatus.failed) None None None None)
            (db s))) s in
  let (results, s2) :=
    failover_each now (Some (or_default reason "bulk_failover")) accounts []
      s1 in
  (mk_bulk (Z.of_nat (List.length accounts))
     (Z.of_nat (List.length (filter success results)))
     (Z.of_nat (List.length (filter (fun r => negb (success r)) results)))
     results, s2).

(** *** Degradation, recovery and maintenance *)

Record DegradationMetrics := mk_metrics {
  m_avgResponseTime : Z;
  m_successRate : Z;
  m_severity : Severity.t
}.

(** The proactive failovers are calls that nothing interleaves with; their
    results are dropped. *)
Definition handleProxyDegradation (now : Z) (proxyId : string)
  (metrics : DegradationMetrics) (s : t) : t :=
  match DatabaseClient.getProxy proxyId (db s) with
  | None => s
  | Some proxy =>
      (* Create incident *)
      let (_, db1) :=
        DatabaseClient.createIncident
          (Incident.mk_data IncidentType.proxy_degraded (m_severity metrics)
             None (Some proxyId) ("Proxy " ++ proxyId ++ " degraded")%string
             (Some
                ("Response time: " ++ num (m_avgResponseTime metrics)
                 ++ "ms, Success rate: " ++ num (m_successRate metrics)
                 ++ "%")%string)
             None None IncidentStatus.open None) (db s) in
      (* Reduce health score *)
      let newHealthScore := Z.max 0 (Proxy.healthScore proxy - 15) in
      let db2 :=
        snd
          (DatabaseClient.updateProxy proxyId
             (Proxy.mk_updates None (Some newHealthScore) None None None)
             db1) in
      (* If severely degraded, consider proactive failover *)
      if m_successRate metrics <? 50 then
        let affectedAccounts := DatabaseClient.getAccountsByProxy proxyId db2 in
        snd
          (failover_each now (Some "proactive_degradation") affectedAccounts []
             (set_db db2 s))
      else set_db db2 s
  end.

(** The loop of [recoverProxy] over the incidents read before it. *)
Fixpoint resolve_open (now : Z) (incidents : list Incident.t)
  (db : DatabaseClient.t) : DatabaseClient.t :=
  match incidents with
  | [] => db
  | incident :: rest =>
      resolve_open now rest
        (if IncidentStatus.eqb (Incident.status incident) IncidentStatus.open
         then
           DatabaseClient.resolveIncident now (Incident.id incident)
             "Proxy recovered and passed health check" "system" db
         else db)
  end.

(** [probe] is the answer of the probe made by the monitor created for the
    test; [created_at] as for the queries on incidents.  Neither the awaited
    [testProxy] nor the [updateProxy], which passes [lastTested: new Date()],
    is inside a [try]: what they throw rejects the promise. *)
Definition recoverProxy (now : Z) (created_at : string -> Z)
  (probe : HealthMonitor.Probe) (proxyId : string) (s : t)
  : outcome bool * t :=
  match DatabaseClient.getProxy proxyId (db s) with
  | None => (Ret false, s)
  | Some proxy =>
      (* Test the proxy *)
      match HealthMonitor.testProxy probe proxy (db s) with
      | (Throw e, db1) => (Throw e, set_db db1 s)
      | (Ret testResult, db1) =>
          if HealthMonitor.working testResult then
            match
              DatabaseClient.updateProxy proxyId
                (Proxy.mk_updates (Some ProxyStatus.active)
                   (Some (Z.min 100 (Proxy.healthScore proxy + 20)))
                   (Some now) None None) db1
            with
            | (Throw e, db2) => (Throw e, set_db db2 s)
            | (Ret _, db2) =>
                (* Resolve any open incidents for this proxy *)
                let incidents :=
                  DatabaseClient.getIncidentsByProxy created_at proxyId db2 in
                (Ret true, set_db (resolve_open now incidents db2) s)
            end
          else (Ret false, set_db db1 s)
      end
  end.


(** *** Failover status *)

Record ProxyStatusEntry := mk_entry {
  e_id : string;
  e_status : ProxyStatus.t;
  e_assignedAccounts : Z;
  canAcceptMore : bool
}.

Record FailoverStatus := mk_status {
  totalAccounts : Z;
  protectedAccounts : Z;
  vulnerableAccounts : Z;
  proxyStatus : list ProxyStatusEntry;
  canFailover : bool;
  fs_inProgress : list string
}.

Definition getFailoverStatus (s : t) : FailoverStatus :=
  let accounts := DatabaseClient.getAllAccounts (db s) in
  let proxies := DatabaseClient.getAllProxies (db s) in
  let proxyStatus :=
    map
      (fun p =>
         mk_entry (Proxy.id p) (Proxy.status p) (Proxy.assignedAccounts p)
           (Proxy.assignedAccounts p <? Proxy.maxAccounts p)) proxies in
  let vulnerableAccounts :=
    filter
      (fun a =>
         match
           find (fun p => (Proxy.id p =? Account.proxyId a)%string) proxies
         with
         | Some proxy =>
             negb (ProxyStatus.eqb (Proxy.status proxy) ProxyStatus.active)
         | None => true
         end) accounts in
  mk_status (count accounts) (count accounts - count vulnerableAccounts)
    (count vulnerableAccounts) proxyStatus
    (existsb canAcceptMore proxyStatus) (inProgress s).

(** *** Retrying an operation *)

(** How the promise of [withRetry] settles; it rejects with [undefined] when
    no attempt was made. *)
Inductive Settled (T : Type) : Type :=
| Resolved (value : T)
| Rejected (message : string)
| RejectedUndefined.
Arguments Resolved {T} value.
Arguments Rejected {T} message.
Arguments RejectedUndefined {T}.

(** The loop of [withRetry].  [operation k] is what the call number [k]
    of the operation, counted from 0, settles to; [calls] is the number of
    calls made so far, so that the loop variable [attempt] is [calls + 1];
    [remaining] is the number of iterations left, [maxRetries - calls].  The
    second component lists the delays slept, in milliseconds. *)
Fixpoint retry_loop {T : Type} (config : FailoverConfig)
  (operation : nat -> outcome T) (remaining calls : nat)
  (lastError : option string) (slept : list Z) : Settled T * list Z :=
  match remaining with
  | O =>
      (match lastError with
       | Some e => Rejected e
       | None => RejectedUndefined
       end, slept)
  | S remaining' =>
      let attempt := Z.of_nat calls + 1 in
      match operation calls with
      | Ret value => (Resolved value, slept)
      | Throw e =>
          retry_loop config operation remaining' (S calls) (Some e)
            (if attempt <? maxRetries config
             then (slept ++ [retryDelayMs config * 2 ^ (attempt - 1)])%list
             else slept)
      end
  end.

Definition withRetry {T : Type} (config : FailoverConfig)
  (operation : nat -> outcome T) : Settled T * list Z :=
  retry_loop config operation (Z.to_nat (maxRetries config)) 0 None [].

End ProxyFailover.

(** ** AccountProxyManager (accountProxy.ts)

    The in-memory manager.  Its three [Map]s are lists of the stored objects
    in insertion order, each object under the key of its [id].  The objects
    are shared: a method that mutates one it obtained from a [Map] changes
    the stored object, which the model renders by writing the field through
    the key.  The memory hub ([persistToMemory]) and the event bus
    ([publish]) are external collaborators without effect on this state. *)

Module AccountProxyManager.

Record t := mk {
  accounts : list Account.t;
  proxies : list Proxy.t;
  incidents : list Incident.t;
  failoverInProgress : list string;
  ids : nat
}.

Definition set_accounts (v : list Account.t) (s : t) : t :=
  mk v (proxies s) (incidents s) (failoverInProgress s) (ids s).
Definition set_proxies (v : list Proxy.t) (s : t) : t :=
  mk (accounts s) v (incidents s) (failoverInProgress s) (ids s).
Definition set_incidents (v : list Incident.t) (s : t) : t :=
  mk (accounts s) (proxies s) v (failoverInProgress s) (ids s).
Definition set_failoverInProgress (v : list string) (s : t) : t :=
  mk (accounts s) (proxies s) (incidents s) v (ids s).

(** [Map.prototype.set]: replaces the value of an existing key where it
    stands, appends a new key. *)
Fixpoint map_set {A : Type} (key : A -> string) (v : A) (m : list A)
  : list A :=
  match m with
  | [] => [v]
  | x :: xs =>
      if (key x =? key v)%string then v :: xs else x :: map_set key v xs
  end.

Definition map_get {A : Type} (key : A -> string) (k : string) (m : list A)
  : option A :=
  find (fun x => (key x =? k)%string) m.

(** A write to a field of the object stored under [k]. *)
Definition map_mutate {A : Type} (key : A -> string) (k : string)
  (f : A -> A) (m : list A) : list A :=
  map (fun x => if (key x =? k)%string then f x else x) m.

Definition generateId (s : t) : string * t :=
  (fresh_id "id-" (ids s),
   mk (accounts s) (proxies s) (incidents s) (failoverInProgress s)
      (S (ids s))).

(** *** Proxy operations *)

Definition getProxy (id : string) (s : t) : option Proxy.t :=
  map_get Proxy.id id (proxies s).

Definition getAllProxies (s : t) : list Proxy.t := proxies s.

(** [(a, b) => a.assignedAccounts - b.assignedAccounts] *)
Definition by_assigned (a b : Proxy.t) : bool :=
  Proxy.assignedAccounts a <=? Proxy.assignedAccounts b.

Definition getActiveProxies (s : t) : list Proxy.t :=
  stable_sort by_assigned
    (filter (fun p => ProxyStatus.eqb (Proxy.status p) ProxyStatus.active)
       (getAllProxies s)).

Definition findAvailableProxy (s : t) : option Proxy.t :=
  hd_error
    (stable_sort by_assigned
       (filter (fun p => Proxy.assignedAccounts p <? Proxy.maxAccounts p)
          (getActiveProxies s))).

Definition updateProxy (id : string) (u : Proxy.updates) (s : t)
  : outcome Proxy.t * t :=
  match getProxy id s with
  | None => (Throw ("Proxy " ++ id ++ " not found")%string, s)
  | Some proxy =>
      let updated := Proxy.apply u proxy in
      (Ret updated, set_proxies (map_set Proxy.id updated (proxies s)) s)
  end.

Record TestResult := mk_test {
  working : bool;
  responseTime : Z;
  t_error : option string
}.

(** The probe is simulated: the [try] block cannot throw, and [elapsed] is
    the difference of its two clock readings. *)
Definition testProxy (now elapsed : Z) (proxyId : string) (s : t)
  : TestResult * t :=
  match getProxy proxyId s with
  | None => (mk_test false 0 (Some "Proxy not found"), s)
  | Some _ =>
      (mk_test true elapsed None,
       set_proxies
         (map_mutate Proxy.id proxyId
            (fun p =>
               Proxy.set_successRate 100
                 (Proxy.set_lastTested (Some now)
                    (Proxy.set_avgResponseTime elapsed p)))
            (proxies s)) s)
  end.

(** *** Account operations *)

Definition getAccount (id : string) (s : t) : option Account.t :=
  map_get Account.id id (accounts s).

Definition getAllAccounts (s : t) : list Account.t := accounts s.

Definition getAccountsByProxy (proxyId : string) (s : t) : list Account.t :=
  filter (fun a => (Account.proxyId a =? proxyId)%string) (getAllAccounts s).

Definition no_proxy_error : string :=
  "No available proxies. All proxies at capacity (2 accounts max).".

(** [accountData] comes without [proxyId]: the field of the argument is
    overwritten. *)
Definition createAccount (accountData : Account.t) (s : t)
  : outcome Account.t * t :=
  match findAvailableProxy s with
  | None => (Throw no_proxy_error, s)
  | Some availableProxy =>
      let account := Account.set_proxyId (Proxy.id availableProxy) accountData in
      let s1 := set_accounts (map_set Account.id account (accounts s)) s in
      (* Update proxy assigned count *)
      let s2 :=
        set_proxies
          (map_mutate Proxy.id (Proxy.id availableProxy)
             (fun p =>
                Proxy.set_assignedAccounts (Proxy.assignedAccounts p + 1) p)
             (proxies s1)) s1 in
      (Ret account, s2)
  end.

(** *** Incidents *)

Definition createIncident (d : Incident.data) (s : t) : Incident.t * t :=
  let (id, s1) := generateId s in
  let incident :=
    Incident.mk id (Incident.d_type d) (Incident.d_severity d)
      (Incident.d_accountId d) (Incident.d_proxyId d) (Incident.d_title d)
      (Incident.d_description d) (Incident.d_oldProxyId d)
      (Incident.d_newProxyId d) (Incident.d_status d) None None
      (Incident.d_resolution d) in
  (incident, set_incidents (map_set Incident.id incident (incidents s1)) s1).

Record FailoverResult := mk_result {
  success : bool;
  accountId : string;
  oldProxyId : string;
  newProxyId : option string;
  error : option string;
  incidentId : option string
}.

(** [result.incidentId = v] *)
Definition set_incidentId (v : option string) (r : FailoverResult)
  : FailoverResult :=
  mk_result (success r) (accountId r) (oldProxyId r) (newProxyId r) (error r)
    v.

Definition moveAccount (accountId newProxyId : string)
  (reason : option string) (s : t) : FailoverResult * t :=
  match getAccount accountId s with
  | None =>
      (mk_result false accountId "" None (Some "Account not found") None, s)
  | Some account =>
      match getProxy newProxyId s with
      | None =>
          (mk_result false accountId (Account.proxyId account) None
             (Some "New proxy not found") None, s)
      | Some newProxy =>
          if Proxy.maxAccounts newProxy <=? Proxy.assignedAccounts newProxy
          then
            (mk_result false accountId (Account.proxyId account) None
               (Some "New proxy at capacity") None, s)
          else
            let oldProxyId := Account.proxyId account in
            (* Update account *)
            let s1 :=
              set_accounts
                (map_mutate Account.id accountId
                   (Account.set_proxyId newProxyId) (accounts s)) s in
            (* Update proxy counts *)
            let s2 :=
              set_proxies
                (map_mutate Proxy.id oldProxyId
                   (fun p =>
                      Proxy.set_assignedAccounts
                        (Z.max 0 (Proxy.assignedAccounts p - 1)) p)
                   (proxies s1)) s1 in
            let s3 :=
              set_proxies
                (map_mutate Proxy.id newProxyId
                   (fun p =>
                      Proxy.set_assignedAccounts
                        (Proxy.assignedAccounts p + 1) p)
                   (proxies s2)) s2 in
            (* Create incident record *)
            let (incident, s4) :=
              createIncident
                (Incident.mk_data IncidentType.manual_intervention
                   Severity.low (Some accountId) (Some newProxyId)
                   ("Account " ++ accountId ++ " moved to proxy "
                    ++ newProxyId)%string
                   (Some (or_default reason "Manual proxy change"))
                   (Some oldProxyId) (Some newProxyId)
                   IncidentStatus.resolved None) s3 in
            (mk_result true accountId oldProxyId (Some newProxyId) None
               (Some (Incident.id incident)), s4)
      end
  end.

(** *** Failover *)

Definition already_in_progress : string := "Failover already in progress".

(** The [try] block of [failoverAccount]. *)
Definition failoverAccount_body (accountId : string) (reason : option string)
  (s : t) : FailoverResult * t :=
  match getAccount accountId s with
  | None =>
      (mk_result false accountId "" None (Some "Account not found") None, s)
  | Some account =>
      let oldProxyId := Account.proxyId account in
      match findAvailableProxy s with
      | None =>
          (* No available proxies *)
          let (incident, s1) :=
            createIncident
              (Incident.mk_data IncidentType.failover_triggered
                 Severity.critical (Some accountId) (Some oldProxyId)
                 ("CRITICAL: No available proxies for " ++ accountId)%string
                 (Some
                    ("Proxy " ++ oldProxyId
                     ++ " failed and no backup available")%string)
                 None None IncidentStatus.open None) s in
          (mk_result false accountId oldProxyId None
             (Some "No available proxies for failover")
             (Some (Incident.id incident)), s1)
      | Some newProxy =>
          (* Perform the move *)
          let (result, s1) :=
            moveAccount accountId (Proxy.id newProxy)
              (Some (or_default reason "proxy_failure")) s in
          (* Create resolved incident for successful failover *)
          if success result then
            let (incident, s2) :=
              createIncident
                (Incident.mk_data IncidentType.failover_triggered
                   Severity.medium (Some accountId) (Some oldProxyId)
                   ("Failover completed for " ++ accountId)%string
                   (Some
                      ("Switched from " ++ oldProxyId ++ " to "
                       ++ Proxy.id newProxy)%string)
                   (Some oldProxyId) (Some (Proxy.id newProxy))
                   IncidentStatus.resolved None) s1 in
            (set_incidentId (Some (Incident.id incident)) result, s2)
          else (result, s1)
      end
  end.

Definition failoverAccount (accountId : string) (reason : option string)
  (s : t) : FailoverResult * t :=
  (* Prevent concurrent failovers *)
  if set_has accountId (failoverInProgress s) then
    (mk_result false accountId "" None (Some already_in_progress) None, s)
  else
    let s1 :=
      set_failoverInProgress (set_add accountId (failoverInProgress s)) s in
    let (result, s2) := failoverAccount_body accountId reason s1 in
    (* finally *)
    (result,
     set_failoverInProgress (set_delete accountId (failoverInProgress s2)) s2).

Fixpoint failover_each (reason : option string) (accounts : list Account.t)
  (results : list FailoverResult) (s : t) : list FailoverResult * t :=
  match accounts with
  | [] => (results, s)
  | account :: rest =>
      let (result, s') := failoverAccount (Account.id account) reason s in
      failover_each reason rest (results ++ [result])%list s'
  end.

Definition handleProxyFailure (proxyId : string) (reason : option string)
  (s : t) : list FailoverResult * t :=
  match getProxy proxyId s with
  | None => ([], s)
  | Some _ =>
      (* Mark proxy as failed *)
      let s1 :=
        set_proxies
          (map_mutate Proxy.id proxyId (Proxy.set_status ProxyStatus.failed)
             (proxies s)) s in
      (* Create incident *)
      let (_, s2) :=
        createIncident
          (Incident.mk_data IncidentType.proxy_failure Severity.high None
             (Some proxyId) ("Proxy " ++ proxyId ++ " failed")%string
             (Some (or_default reason "Proxy health check failed")) None None
             IncidentStatus.open None) s1 in
      (* Move all accounts to new proxies *)
      failover_each reason (getAccountsByProxy proxyId s2) [] s2
  end.

(** [calculateHealthScore] of the manager: the same body as the monitor's. *)
Definition calculateHealthScore (factors : HealthMonitor.HealthFactors) : Z :=
  let score := 100 in
  let score :=
    if negb (HealthMonitor.proxyWorking factors) then score - 40 else score in
  let score :=
    if (HealthMonitor.accountStatus factors =? "suspended")%string
    then score - 30 else score in
  let score :=
    if (HealthMonitor.accountStatus factors =? "banned")%string
    then score - 50 else score in
  let score :=
    if HealthMonitor.above_nine_tenths (HealthMonitor.actionRatio factors)
    then score - 10 else score in
  let score := score - HealthMonitor.spamScore factors / 10 in
  let score := score - HealthMonitor.issues factors * 2 in
  Z.max 0 (Z.min 100 score).

(** *** Further operations on accounts and proxies *)

Definition getActiveAccounts (s : t) : list Account.t :=
  filter (fun a => AccountStatus.eqb (Account.status a) AccountStatus.active)
    (getAllAccounts s).

Definition updateAccount (id : string) (u : Account.updates) (s : t)
  : outcome Account.t * t :=
  match getAccount id s with
  | None => (Throw ("Account " ++ id ++ " not found")%string, s)
  | Some account =>
      let updated := Account.apply u account in
      (Ret updated, set_accounts (map_set Account.id updated (accounts s)) s)
  end.


Definition resetDailyActions (s : t) : t :=
  set_accounts (map (Account.set_actionsToday 0) (accounts s)) s.

(** *** Further operations on incidents

    [createdAt] is not among the fields that the incidents of the model
    keep.  The methods that sort on it take it as the function [createdAt]
    from the id of an incident. *)

Definition getIncident (id : string) (s : t) : option Incident.t :=
  map_get Incident.id id (incidents s).

(** [(a, b) => b.createdAt.getTime() - a.createdAt.getTime()] *)
Definition newest_first (createdAt : string -> Z) (a b : Incident.t) : bool :=
  createdAt (Incident.id b) <=? createdAt (Incident.id a).

Definition getAllIncidents (createdAt : string -> Z) (s : t)
  : list Incident.t :=
  stable_sort (newest_first createdAt) (incidents s).

Definition getOpenIncidents (createdAt : string -> Z) (s : t)
  : list Incident.t :=
  filter (fun i => IncidentStatus.eqb (Incident.status i) IncidentStatus.open)
    (getAllIncidents createdAt s).

Definition getIncidentsByAccount (createdAt : string -> Z)
  (accountId : string) (s : t) : list Incident.t :=
  filter (fun i => column_is accountId (Incident.accountId i))
    (getAllIncidents createdAt s).

Definition getIncidentsByProxy (createdAt : string -> Z) (proxyId : string)
  (s : t) : list Incident.t :=
  filter
    (fun i =>
       column_is proxyId (Incident.proxyId i)
       || column_is proxyId (Incident.oldProxyId i)
       || column_is proxyId (Incident.newProxyId i))
    (getAllIncidents createdAt s).

Definition resolveIncident (now : Z) (id resolution resolvedBy : string)
  (s : t) : outcome Incident.t * t :=
  match getIncident id s with
  | None => (Throw ("Incident " ++ id ++ " not found")%string, s)
  | Some incident =>
      (Ret (Incident.resolve resolution resolvedBy now incident),
       set_incidents
         (map_mutate Incident.id id
            (Incident.resolve resolution resolvedBy now) (incidents s)) s)
  end.

(** *** Recovery *)

(** The loop of [recoverProxy] over the open incidents read before it. *)
Fixpoint resolve_for (now : Z) (proxyId : string) (open : list Incident.t)
  (s : t) : outcome unit * t :=
  match open with
  | [] => (Ret tt, s)
  | incident :: rest =>
      if column_is proxyId (Incident.proxyId incident) then
        match
          resolveIncident now (Incident.id incident)
            "Proxy recovered and passed health check" "system" s
        with
        | (Ret _, s') => resolve_for now proxyId rest s'
        | (Throw e, s') => (Throw e, s')
        end
      else resolve_for now proxyId rest s
  end.

Definition recoverProxy (now elapsed : Z) (createdAt : string -> Z)
  (proxyId : string) (s : t) : outcome bool * t :=
  match getProxy proxyId s with
  | None => (Ret false, s)
  | Some _ =>
      (* Test the proxy *)
      let (testResult, s1) := testProxy now elapsed proxyId s in
      if working testResult then
        let s2 :=
          set_proxies
            (map_mutate Proxy.id proxyId
               (fun p =>
                  Proxy.set_healthScore (Z.min 100 (Proxy.healthScore p + 20))
                    (Proxy.set_status ProxyStatus.active p))
               (proxies s1)) s1 in
        (* Resolve incidents *)
        match resolve_for now proxyId (getOpenIncidents createdAt s2) s2 with
        | (Ret _, s3) => (Ret true, s3)
        | (Throw e, s3) => (Throw e, s3)
        end
      else (Ret false, s1)
  end.

(** *** Health monitoring *)

Record HealthCheckResult := mk_health {
  h_accountId : string;
  h_proxyId : string;
  h_timestamp : Z;
  h_proxyWorking : bool;
  h_proxyResponseTime : Z;
  h_accountStatus : string;
  h_healthScore : Z;
  h_issues : list string;
  h_alerts : list string
}.

(** [elapsed] as for [testProxy].  An account object without [lastAction]
    makes [account.lastAction.getTime()] throw. *)
Definition checkAccountHealth (now elapsed : Z) (account : Account.t) (s : t)
  : outcome HealthCheckResult * t :=
  (* Test proxy *)
  let '(proxyWorking, proxyResponseTime, issues, alerts, s1) :=
    match getProxy (Account.proxyId account) s with
    | Some proxy =>
        let (testResult, s1) := testProxy now elapsed (Proxy.id proxy) s in
        (working testResult, responseTime testResult,
         HealthMonitor.push_if (negb (working testResult))
           ("Proxy failed: " ++ template (t_error testResult))%string [],
         HealthMonitor.push_if (negb (working testResult))
           "Proxy connectivity issue" [], s1)
    | None => (false, 0, ["No proxy assigned"], [], s)
    end in
  (* Check action limits *)
  let issues :=
    HealthMonitor.push_if
      (Account.dailyActionLimit account <=? Account.actionsToday account)
      "Daily action limit reached" issues in
  (* Check spam score *)
  let issues :=
    HealthMonitor.push_if (70 <? Account.spamScore account)
      ("High spam score: " ++ num (Account.spamScore account))%string issues in
  let alerts :=
    HealthMonitor.push_if (70 <? Account.spamScore account)
      "Elevated spam risk" alerts in
  (* Check last action time *)
  match Account.lastAction account with
  | None =>
      (Throw "Cannot read properties of undefined (reading 'getTime')", s1)
  | Some lastAction =>
      let sinceLastAction := now - lastAction in
      let issues :=
        HealthMonitor.push_if (48 * HealthMonitor.hour_ms <? sinceLastAction)
          ("No activity for "
           ++ num (round_div sinceLastAction HealthMonitor.hour_ms)
           ++ " hours")%string issues in
      (* Calculate health score *)
      let healthScore :=
        calculateHealthScore
          (HealthMonitor.mk_factors proxyWorking
             (AccountStatus.to_string (Account.status account))
             (HealthMonitor.action_ratio (Account.actionsToday account)
                (Account.dailyActionLimit account))
             (Account.spamScore account) (count issues)) in
      (Ret
         (mk_health (Account.id account) (Account.proxyId account) now
            proxyWorking proxyResponseTime
            (AccountStatus.to_string (Account.status account)) healthScore
            issues alerts), s1)
  end.

(** The body of the loop of [runHealthCheck] for one account of the list
    read at the start of the run. *)
Definition check_account (now elapsed : Z) (account : Account.t) (s : t)
  : outcome HealthCheckResult * t :=
  match checkAccountHealth now elapsed account s with
  | (Throw e, s') => (Throw e, s')
  | (Ret result, s1) =>
      (* Update account health score *)
      match
        updateAccount (Account.id account)
          (Account.mk_updates None None None (Some (h_healthScore result))) s1
      with
      | (Throw e, s') => (Throw e, s')
      | (Ret _, s2) =>
          (* Handle critical issues *)
          if h_healthScore result <? 25 then
            let (_, s3) :=
              createIncident
                (Incident.mk_data IncidentType.health_check_failed
                   Severity.critical (Some (Account.id account))
                   (Some (Account.proxyId account))
                   ("Critical health for account " ++ Account.id account)%string
                   (Some (join LF (h_issues result))) None None
                   IncidentStatus.open None) s2 in
            (Ret result, s3)
          else (Ret result, s2)
      end
  end.

Fixpoint check_accounts (now : Z) (elapsed_of : string -> Z)
  (accounts : list Account.t) (results : list HealthCheckResult) (s : t)
  : outcome (list HealthCheckResult) * t :=
  match accounts with
  | [] => (Ret results, s)
  | account :: rest =>
      match check_account now (elapsed_of (Account.id account)) account s with
      | (Ret result, s') =>
          check_accounts now elapsed_of rest (results ++ [result])%list s'
      | (Throw e, s') => (Throw e, s')
      end
  end.


(** *** Stats *)

(** [phaseDistribution] is the object filled by the loop over the accounts:
    a phase without account has no key. *)
Record AccountProxyStats := mk_stats {
  totalAccounts : Z;
  activeAccounts : Z;
  totalProxies : Z;
  activeProxies : Z;
  openIncidents : Z;
  averageHealthScore : Z;
  phaseDistribution : Phase.t -> option Z;
  failingProxies : Z;
  accountsNeedingAttention : Z
}.

(** [Math.round (sum / accounts.length || 0)]: the quotient is [NaN]
    without accounts. *)
Definition getStats (createdAt : string -> Z) (s : t) : AccountProxyStats :=
  let accounts := getAllAccounts s in
  let proxies := getAllProxies s in
  let openIncidents := getOpenIncidents createdAt s in
  mk_stats (count accounts)
    (count
       (filter
          (fun a => AccountStatus.eqb (Account.status a) AccountStatus.active)
          accounts))
    (count proxies)
    (count
       (filter (fun p => ProxyStatus.eqb (Proxy.status p) ProxyStatus.active)
          proxies))
    (count openIncidents)
    (match accounts with
     | [] => 0
     | _ =>
         round_div
           (fold_left (fun sum a => sum + Account.healthScore a) accounts 0)
           (count accounts)
     end)
    (fun phase =>
       let n :=
         count
           (filter (fun a => DatabaseClient.phase_eqb (Account.phase a) phase)
              accounts) in
       if n =? 0 then None else Some n)
    (count
       (filter
          (fun p => negb (ProxyStatus.eqb (Proxy.status p) ProxyStatus.active))
          proxies))
    (count (filter (fun a => Account.healthScore a <? 50) accounts)).

(** *** Account issues *)

(** The handler of the events [account.suspended] and [account.banned];
    [reason] is [payload.reason]. *)
Definition handleAccountIssue (accountId type : string)
  (reason : option string) (s : t) : t :=
  match getAccount accountId s with
  | None => s
  | Some account =>
      if (type =? "account.suspended")%string then
        let s1 :=
          set_accounts
            (map_mutate Account.id accountId
               (Account.set_status AccountStatus.suspended) (accounts s)) s in
        snd
          (createIncident
             (Incident.mk_data IncidentType.account_suspended
                Severity.critical (Some accountId)
                (Some (Account.proxyId account))
                ("Account " ++ accountId ++ " suspended")%string
                (Some (or_default reason "Account suspended by Twitter")) None
                None IncidentStatus.open None) s1)
      else if (type =? "account.banned")%string then
        let s1 :=
          set_accounts
            (map_mutate Account.id accountId
               (Account.set_status AccountStatus.banned) (accounts s)) s in
        snd
          (createIncident
             (Incident.mk_data IncidentType.proxy_failure Severity.critical
                (Some accountId) (Some (Account.proxyId account))
                ("Account " ++ accountId ++ " banned")%string
                (Some (or_default reason "Account banned by Twitter")) None
                None IncidentStatus.open None) s1)
      else s
  end.

End AccountProxyManager.

(** ** AccountProxyWorkflows (accountProxy workflows)

    The workflow object holds a manager, injected at construction, and its
    own [Map] of workflows.  A workflow and its steps are objects that stay
    shared with the [Map] while they are mutated; the model writes them
    through their ids.  All clock readings of one call are the argument
    [now]. *)

Module StepStatus.
Inductive t := pending | in_progress | completed | failed.
End StepStatus.

Module WorkflowStatus.
Inductive t := pending | running | completed | failed.
End WorkflowStatus.

Module WorkflowType.
Inductive t := onboarding | maintenance | recovery | bulk_operation.
Definition to_string (w : t) : string :=
  match w with
  | onboarding => "onboarding"
  | maintenance => "maintenance"
  | recovery => "recovery"
  | bulk_operation => "bulk_operation"
  end.
End WorkflowType.

Module AccountProxyWorkflows.

Record OnboardingConfig := mk_config {
  accountId : string;
  name : string;
  twitterHandle : string;
  adspowerProfileId : string;
  email : option string;
  phone : option string;
  notes : option string;
  initialPhase : option Phase.t
}.

(** The objects that the steps of the onboarding return. *)
Inductive StepOutput :=
| Valid
| AvailableProxyId (id : string)
| Created (account : Account.t)
| AssignedProxyId (id : string)
| ProxyTest (result : AccountProxyManager.TestResult)
| Skipped
| Completed.

Module Step.
Record t := mk {
  id : string;
  name : string;
  status : StepStatus.t;
  startedAt : option Z;
  completedAt : option Z;
  error : option string;
  output : option StepOutput
}.
End Step.

Module Workflow.
Record t := mk {
  id : string;
  type : WorkflowType.t;
  status : WorkflowStatus.t;
  steps : list Step.t;
  startedAt : option Z;
  completedAt : option Z;
  metadata : OnboardingConfig
}.
Definition set_steps (v : list Step.t) (w : t) : t :=
  mk (id w) (type w) (status w) v (startedAt w) (completedAt w) (metadata w).
Definition finish (v : WorkflowStatus.t) (at_ : Z) (w : t) : t :=
  mk (id w) (type w) v (steps w) (startedAt w) (Some at_) (metadata w).
End Workflow.

Record t := mk {
  manager : AccountProxyManager.t;
  workflows : list Workflow.t;
  ids : nat
}.

Definition set_manager (v : AccountProxyManager.t) (s : t) : t :=
  mk v (workflows s) (ids s).
Definition set_workflows (v : list Workflow.t) (s : t) : t :=
  mk (manager s) v (ids s).

Definition generateId (s : t) : string * t :=
  (fresh_id "wf-" (ids s), mk (manager s) (workflows s) (S (ids s))).

Definition getWorkflow (id : string) (s : t) : option Workflow.t :=
  AccountProxyManager.map_get Workflow.id id (workflows s).

(** A computation of the workflow object that may throw. *)
Definition M (A : Type) : Type := t -> outcome A * t.

Definition ret {A : Type} (a : A) : M A := fun s => (Ret a, s).
Definition throw {A : Type} (message : string) : M A :=
  fun s => (Throw message, s).
Definition bind {A B : Type} (m : M A) (k : A -> M B) : M B :=
  fun s =>
    match m s with
    | (Ret a, s') => k a s'
    | (Throw e, s') => (Throw e, s')
    end.

Notation "x <- m ;; k" := (bind m (fun x => k))
  (at level 61, m at next level, right associativity).
Notation "m ;; k" := (bind m (fun _ => k))
  (at level 61, right associativity).

Definition getActionLimitForPhase (phase : Phase.t) : Z :=
  match phase with
  | Phase.warmup => 10
  | Phase.soft => 20
  | Phase.growth => 50
  | Phase.full => 100
  end.

Definition createWorkflow (now : Z) (type : WorkflowType.t)
  (metadata : OnboardingConfig) (s : t) : Workflow.t * t :=
  let (id, s1) := generateId s in
  let workflow :=
    Workflow.mk id type WorkflowStatus.running [] (Some now) None metadata in
  (workflow,
   set_workflows
     (AccountProxyManager.map_set Workflow.id workflow (workflows s1)) s1).

(** A write to the workflow object [wid]. *)
Definition mutate_workflow (wid : string) (f : Workflow.t -> Workflow.t)
  (s : t) : t :=
  set_workflows
    (AccountProxyManager.map_mutate Workflow.id wid f (workflows s)) s.

(** A write to the step object [sid] of the workflow [wid]. *)
Definition mutate_step (wid sid : string) (f : Step.t -> Step.t) (s : t) : t :=
  mutate_workflow wid
    (fun w =>
       Workflow.set_steps
         (AccountProxyManager.map_mutate Step.id sid f (Workflow.steps w)) w)
    s.

Definition executeStep (now : Z) (wid stepName : string)
  (operation : M StepOutput) : M StepOutput :=
  fun s =>
    let (sid, s1) := generateId s in
    let step :=
      Step.mk sid stepName StepStatus.in_progress (Some now) None None None in
    let s2 :=
      mutate_workflow wid
        (fun w => Workflow.set_steps (Workflow.steps w ++ [step])%list w) s1 in
    match operation s2 with
    | (Ret output, s3) =>
        (Ret output,
         mutate_step wid sid
           (fun st =>
              Step.mk (Step.id st) (Step.name st) StepStatus.completed
                (Step.startedAt st) (Some now) (Step.error st) (Some output))
           s3)
    | (Throw e, s3) =>
        (Throw e,
         mutate_step wid sid
           (fun st =>
              Step.mk (Step.id st) (Step.name st) StepStatus.failed
                (Step.startedAt st) (Some now) (Some e) (Step.output st))
           s3)
    end.

Definition completeWorkflow (now : Z) (wid : string) : M unit :=
  fun s =>
    (Ret tt, mutate_workflow wid (Workflow.finish WorkflowStatus.completed now) s).

Definition failWorkflow (now : Z) (wid : string) (type : WorkflowType.t)
  (error : string) (s : t) : t :=
  let s1 := mutate_workflow wid (Workflow.finish WorkflowStatus.failed now) s in
  (* Create incident for failed workflow *)
  let (_, m) :=
    AccountProxyManager.createIncident
      (Incident.mk_data IncidentType.manual_intervention Severity.high None
         None ("Workflow " ++ WorkflowType.to_string type ++ " failed")%string
         (Some error) None None IncidentStatus.open None) (manager s1) in
  set_manager m s1.

(** [!s] on a string. *)
Definition empty (s : string) : bool := (s =? "")%string.

(** *** The steps of the onboarding *)

Definition validate (config : OnboardingConfig) : M StepOutput :=
  if empty (accountId config) || empty (name config)
     || empty (twitterHandle config)
  then throw "Missing required fields: accountId, name, twitterHandle"
  else if empty (adspowerProfileId config)
  then throw "Missing required field: adspowerProfileId"
  else ret Valid.

Definition check_proxies : M StepOutput :=
  fun s =>
    match AccountProxyManager.findAvailableProxy (manager s) with
    | None => (Throw AccountProxyManager.no_proxy_error, s)
    | Some availableProxy => (Ret (AvailableProxyId (Proxy.id availableProxy)), s)
    end.

Definition phase_or_warmup (p : option Phase.t) : Phase.t :=
  match p with
  | Some x => x
  | None => Phase.warmup
  end.

Definition create_account (now : Z) (config : OnboardingConfig)
  : M StepOutput :=
  fun s =>
    match
      AccountProxyManager.createAccount
        (Account.mk (accountId config) (name config) (twitterHandle config)
           (email config) (phone config)
           (phase_or_warmup (initialPhase config)) 1 AccountStatus.active 100
           (adspowerProfileId config) None "" 0 0 0 0 (Some now) 0 0
           (getActionLimitForPhase (phase_or_warmup (initialPhase config)))
           (notes config)) (manager s)
    with
    | (Ret account, m) => (Ret (Created account), set_manager m s)
    | (Throw e, m) => (Throw e, set_manager m s)
    end.

Definition verify_assignment (config : OnboardingConfig) : M StepOutput :=
  fun s =>
    match AccountProxyManager.getAccount (accountId config) (manager s) with
    | None => (Throw "Account created but proxy assignment failed", s)
    | Some account =>
        if empty (Account.proxyId account)
        then (Throw "Account created but proxy assignment failed", s)
        else (Ret (AssignedProxyId (Account.proxyId account)), s)
    end.

(** [probe] is what the awaited [manager.testProxy] settles to: [Ret elapsed]
    when the manager's method runs (its own body cannot throw), [Throw e]
    when the promise of the injected manager rejects with [e]. *)
Definition health_check (now : Z) (probe : outcome Z)
  (config : OnboardingConfig) : M StepOutput :=
  fun s =>
    match
      find
        (fun p =>
           existsb (fun a => (Account.id a =? accountId config)%string)
             (AccountProxyManager.getAccountsByProxy (Proxy.id p) (manager s)))
        (AccountProxyManager.getAllProxies (manager s))
    with
    | Some proxy =>
        match probe with
        | Ret elapsed =>
            let (testResult, m) :=
              AccountProxyManager.testProxy now elapsed (Proxy.id proxy)
                (manager s) in
            (Ret (ProxyTest testResult), set_manager m s)
        | Throw e => (Throw e, s)
        end
    | None => (Ret Skipped, s)
    end.

Definition complete : M StepOutput := ret Completed.

Definition onboardAccount (now : Z) (probe : outcome Z)
  (config : OnboardingConfig) : M (option Workflow.t) :=
  fun s =>
    let (workflow, s0) := createWorkflow now WorkflowType.onboarding config s in
    let wid := Workflow.id workflow in
    match
      (executeStep now wid "validate" (validate config) ;;
       executeStep now wid "check_proxies" check_proxies ;;
       executeStep now wid "create_account" (create_account now config) ;;
       executeStep now wid "verify_assignment" (verify_assignment config) ;;
       executeStep now wid "health_check" (health_check now probe config) ;;
       executeStep now wid "complete" complete ;;
       completeWorkflow now wid) s0
    with
    | (Ret _, s1) => (Ret (getWorkflow wid s1), s1)
    | (Throw e, s1) =>
        (Throw e, failWorkflow now wid (Workflow.type workflow) e s1)
    end.

(** *** Bulk onboarding *)

(** The loop of [bulkOnboard]: the workflows of the onboardings that
    returned, and a line per onboarding that threw.  [probe_of] gives, for
    this run, what the probe made for each account settles to. *)
Fixpoint onboard_each (now : Z) (probe_of : string -> outcome Z)
  (configs : list OnboardingConfig) (workflows : list Workflow.t)
  (errors : list string) (s : t) : list Workflow.t * list string * t :=
  match configs with
  | [] => (workflows, errors, s)
  | accountConfig :: rest =>
      match
        onboardAccount now (probe_of (accountId accountConfig)) accountConfig s
      with
      | (Ret workflow, s') =>
          onboard_each now probe_of rest
            (match workflow with
             | Some w => (workflows ++ [w])%list
             | None => workflows
             end) errors s'
      | (Throw errorMsg, s') =>
          onboard_each now probe_of rest workflows
            (errors ++ [(accountId accountConfig ++ ": " ++ errorMsg)%string])%list
            s'
      end
  end.

(** The second component is the [errors] of the published event. *)
Definition bulkOnboard (now : Z) (probe_of : string -> outcome Z)
  (configs : list OnboardingConfig) (s : t)
  : list Workflow.t * list string * t :=
  onboard_each now probe_of configs [] [] s.

End AccountProxyWorkflows.

(** * The statements of the specification

    Definitions that follow the words of the specification, to be compared
    with the code above, and the data of the scenarios it describes. *)

(** ** Health score *)

(** The score as the specification words it: 100, minus the weighted
    penalties, clamped to [[0, 100]]. *)
Definition health_score_spec (f : HealthMonitor.HealthFactors) : Z :=
  let penalties :=
    (if HealthMonitor.proxyWorking f then 0 else 40)
    + (if (HealthMonitor.accountStatus f =? "suspended")%string then 30 else 0)
    + (if (HealthMonitor.accountStatus f =? "banned")%string then 50 else 0)
    + (if Qlt_le_dec (9 # 10) (HealthMonitor.actionRatio f) then 10 else 0)
    + HealthMonitor.spamScore f / 10
    + 2 * HealthMonitor.issues f in
  if 100 - penalties <? 0 then 0
  else if 100 <? 100 - penalties then 100
  else 100 - penalties.

Definition scenario_factors : HealthMonitor.HealthFactors :=
  HealthMonitor.mk_factors false "active" (1 # 2) 30 1.

(** ** Phases *)

(** One step along warmup, soft, growth, full; nothing after full. *)
Definition next_phase (p : Phase.t) : option Phase.t :=
  match p with
  | Phase.warmup => Some Phase.soft
  | Phase.soft => Some Phase.growth
  | Phase.growth => Some Phase.full
  | Phase.full => None
  end.

(** The table [{warmup: 10, soft: 20, growth: 50, full: 100}]. *)
Definition table_limit (p : Phase.t) : Z :=
  match p with
  | Phase.warmup => 10
  | Phase.soft => 20
  | Phase.growth => 50
  | Phase.full => 100
  end.

(** [b] is [a] up to its phase and its daily action limit. *)
Definition same_but_phase_and_limit (a b : Account.t) : Prop :=
  Account.id b = Account.id a
  /\ Account.name b = Account.name a
  /\ Account.twitterHandle b = Account.twitterHandle a
  /\ Account.email b = Account.email a
  /\ Account.phone b = Account.phone a
  /\ Account.day b = Account.day a
  /\ Account.status b = Account.status a
  /\ Account.healthScore b = Account.healthScore a
  /\ Account.adspowerProfileId b = Account.adspowerProfileId a
  /\ Account.adspowerGroupId b = Account.adspowerGroupId a
  /\ Account.proxyId b = Account.proxyId a
  /\ Account.followers b = Account.followers a
  /\ Account.following b = Account.following a
  /\ Account.posts b = Account.posts a
  /\ Account.dmConversionRate b = Account.dmConversionRate a
  /\ Account.lastAction b = Account.lastAction a
  /\ Account.actionsToday b = Account.actionsToday a
  /\ Account.spamScore b = Account.spamScore a
  /\ Account.notes b = Account.notes a.

(** ** Stores and probes of the scenarios *)

Definition mars (n : string) (port : Z) (status : ProxyStatus.t)
  (healthScore assigned : Z) : Proxy.t :=
  Proxy.mk ("mars_00" ++ n)%string ("Mars ISP " ++ n)%string
    "port.marsproxies.com" port "user" "secret" Protocol.socks5 status
    healthScore 2 assigned None 120 100.

Definition empty_db : DatabaseClient.t := DatabaseClient.mk [] [] [] [] [] 0.

Definition one_proxy_db : DatabaseClient.t :=
  DatabaseClient.set_proxies [mars "1" 5000 ProxyStatus.active 80 0] empty_db.

Definition timeout_probe : HealthMonitor.Probe :=
  HealthMonitor.mk_probe (HealthMonitor.Rejected "network timeout") 10000
    1700000000000.

(** ** Proxy selection *)

(** Active with spare capacity. *)
Definition has_spare_capacity (p : Proxy.t) : Prop :=
  Proxy.status p = ProxyStatus.active
  /\ Proxy.assignedAccounts p < Proxy.maxAccounts p.

(** Two active, empty proxies that differ in health score only. *)
Definition tied_pool : list Proxy.t :=
  [mars "1" 5000 ProxyStatus.active 50 0; mars "2" 5001 ProxyStatus.active 90 0].

Definition tied_db : DatabaseClient.t :=
  DatabaseClient.set_proxies tied_pool empty_db.

Definition tied_manager : AccountProxyManager.t :=
  AccountProxyManager.mk [] tied_pool [] [] 0.

(** ** Keys *)

(** A list of keys without repetition, as a PRIMARY KEY column holds. *)
Fixpoint unique (keys : list string) : bool :=
  match keys with
  | [] => true
  | k :: rest => negb (existsb (String.eqb k) rest) && unique rest
  end.


(** ** Checking all proxies *)

Definition always_timeout (_ : string) : HealthMonitor.Probe := timeout_probe.

Definition ok_probe : HealthMonitor.Probe :=
  HealthMonitor.mk_probe (HealthMonitor.Response true 200) 85 1700000000000.

Definition always_ok (_ : string) : HealthMonitor.Probe := ok_probe.

Definition failed_proxy_db : DatabaseClient.t :=
  DatabaseClient.set_proxies [mars "1" 5000 ProxyStatus.failed 95 0] empty_db.

(** The store after a run of [checkAllProxies]. *)
Definition check_run (probe_of : string -> HealthMonitor.Probe)
  (db : DatabaseClient.t) : DatabaseClient.t :=
  snd (HealthMonitor.checkAllProxies probe_of db).

(** ** Creating an account *)

(** The account that [createAccount] stores for [config] on [proxyId]. *)
Definition onboarded (now : Z) (config : AccountProxyMapping.AccountConfig)
  (proxyId : string) : Account.t :=
  Account.mk (AccountProxyMapping.id config) (AccountProxyMapping.name config)
    (AccountProxyMapping.twitterHandle config)
    (or_null (AccountProxyMapping.email config))
    (or_null (AccountProxyMapping.phone config)) Phase.warmup 1
    AccountStatus.active 100 (AccountProxyMapping.adspowerProfileId config)
    (or_null (AccountProxyMapping.adspowerGroupId config)) proxyId 0 0 0 0
    (Some now) 0 0 10 (or_null (AccountProxyMapping.notes config)).

Definition one_more_account (p : Proxy.t) : Proxy.t :=
  Proxy.set_assignedAccounts (Proxy.assignedAccounts p + 1) p.

(** The three effects of a successful creation on [proxy], and nothing
    else. *)
Definition fully_created (now : Z) (config : AccountProxyMapping.AccountConfig)
  (proxy : Proxy.t) (db db' : DatabaseClient.t) : Prop :=
  DatabaseClient.accounts db'
  = (DatabaseClient.accounts db ++ [onboarded now config (Proxy.id proxy)])%list
  /\ DatabaseClient.proxies db'
     = DatabaseClient.update_where
         (fun p => (Proxy.id p =? Proxy.id proxy)%string) one_more_account
         (DatabaseClient.proxies db)
  /\ DatabaseClient.mappings db'
     = (DatabaseClient.mappings db
        ++ [Mapping.mk (fresh_id "uuid-" (DatabaseClient.uuids db))
              (AccountProxyMapping.id config) (Proxy.id proxy) now true None
              None None])%list
  /\ DatabaseClient.incidents db' = DatabaseClient.incidents db
  /\ DatabaseClient.health_check_logs db' = DatabaseClient.health_check_logs db.

(** The key constraint of [accounts] that [config] is reported to violate,
    if any: the one of the handle when the handle is stored, whether the id
    is stored too or not, and the one of the id when only the id is. *)
Definition key_taken (config : AccountProxyMapping.AccountConfig)
  (db : DatabaseClient.t) : option string :=
  if existsb
       (fun r =>
          (Account.twitterHandle r
           =? AccountProxyMapping.twitterHandle config)%string)
       (DatabaseClient.accounts db)
  then Some "UNIQUE constraint failed: accounts.twitter_handle"
  else if existsb
            (fun r => (Account.id r =? AccountProxyMapping.id config)%string)
            (DatabaseClient.accounts db)
  then Some "UNIQUE constraint failed: accounts.id"
  else None.


(** *** Scenario data *)

Definition ella (n : string) : AccountProxyMapping.AccountConfig :=
  AccountProxyMapping.mk_config ("ella_00" ++ n)%string "Ella Sophie"
    ("@ellasophiee" ++ n)%string None None ("profile_" ++ n)%string None None.

(** One proxy with a free slot and the account [ella_001] on it. *)
Definition ella_db : DatabaseClient.t :=
  snd (AccountProxyMapping.createAccount 1700000000000 (ella "1") one_proxy_db).

(** ** Failover *)

(** Two proxies, [ella_001] on the first, the second empty. *)
Definition two_proxy_db : DatabaseClient.t :=
  snd
    (AccountProxyMapping.createAccount 1700000000000 (ella "1")
       (DatabaseClient.set_proxies
          [mars "1" 5000 ProxyStatus.active 80 0;
           mars "2" 5001 ProxyStatus.active 60 0] empty_db)).

Definition idle_failover : ProxyFailover.t :=
  ProxyFailover.mk two_proxy_db ProxyFailover.default_config [].

(** The object while a failover of [ella_001] is suspended at its await. *)
Definition failover_in_flight : ProxyFailover.t :=
  snd (ProxyFailover.handleProxyFailure_begin 1700000000001 "ella_001" None
         idle_failover).

Definition rejected_failover (accountId : string)
  : ProxyFailover.FailoverResult :=
  ProxyFailover.mk_result false accountId "" None
    (Some ProxyFailover.already_in_progress) None.

(** The second half of the claim as the specification states it, of one
    call: once the call has completed, the id is not in the in-progress
    set. *)
Definition released_after_call (now : Z) (accountId : string)
  (reason : option string) (s : ProxyFailover.t) : Prop :=
  set_has accountId
    (ProxyFailover.inProgress
       (snd (ProxyFailover.handleProxyFailure now accountId reason s)))
  = false.

Definition ella_account (n : string) (proxyId : string) : Account.t :=
  Account.mk ("ella_00" ++ n)%string "Ella Sophie" ("@ellasophiee" ++ n)%string
    None None Phase.warmup 1 AccountStatus.active 100 ("profile_" ++ n)%string
    None proxyId 0 0 0 0 (Some 1700000000000) 0 0 10 None.

(** The manager with two empty proxies. *)
Definition fresh_manager : AccountProxyManager.t :=
  AccountProxyManager.mk []
    [mars "1" 5000 ProxyStatus.active 80 0;
     mars "2" 5001 ProxyStatus.active 60 0] [] [] 0.

(** The manager once [ella_001] was created. *)
Definition idle_manager : AccountProxyManager.t :=
  snd (AccountProxyManager.createAccount (ella_account "1" "") fresh_manager).

Definition busy_manager : AccountProxyManager.t :=
  AccountProxyManager.set_failoverInProgress ["ella_001"] idle_manager.

(** ** Onboarding *)








(** *** Scenario data *)




(** What a run of the workflow object is followed by: its manager, the
    workflow under way, with steps whose ids the counter has passed, and the
    id counter. *)
Definition tracks (wid : string) (s : AccountProxyWorkflows.t)
  (m : AccountProxyManager.t) (w : AccountProxyWorkflows.Workflow.t)
  (n : nat) : Prop :=
  AccountProxyWorkflows.manager s = m
  /\ AccountProxyWorkflows.getWorkflow wid s = Some w
  /\ AccountProxyWorkflows.ids s = n
  /\ AccountProxyWorkflows.Workflow.id w = wid
  /\ Forall
       (fun st =>
          exists k,
            (k < n)%nat
            /\ AccountProxyWorkflows.Step.id st = fresh_id "wf-" k)
       (AccountProxyWorkflows.Workflow.steps w).

(** The step object once its operation has returned or thrown. *)
Definition settled (now : Z) (n : nat) (stepName : string)
  (res : outcome AccountProxyWorkflows.StepOutput)
  : AccountProxyWorkflows.Step.t :=
  match res with
  | Ret output =>
      AccountProxyWorkflows.Step.mk (fresh_id "wf-" n) stepName
        StepStatus.completed (Some now) (Some now) None (Some output)
  | Throw e =>
      AccountProxyWorkflows.Step.mk (fresh_id "wf-" n) stepName
        StepStatus.failed (Some now) (Some now) (Some e) None
  end.

(** ** Consistency of the store *)

(** The accounts whose [proxyId] points at the proxy [k]. *)
Definition bound_accounts (k : string) (db : DatabaseClient.t)
  : list Account.t :=
  filter (fun a => (Account.proxyId a =? k)%string) (DatabaseClient.accounts db).

(** The active mappings of an account. *)
Definition active_mappings (accountId : string) (db : DatabaseClient.t)
  : list Mapping.t :=
  filter
    (fun m => (Mapping.accountId m =? accountId)%string && Mapping.isActive m)
    (DatabaseClient.mappings db).

(** The accounts whose [proxyId] points at [k] and that have an active
    mapping onto [k]. *)
Definition live_accounts (k : string) (db : DatabaseClient.t)
  : list Account.t :=
  filter
    (fun a =>
       existsb (fun m => (Mapping.proxyId m =? k)%string)
         (active_mappings (Account.id a) db))
    (bound_accounts k db).

(** A consistent store: the primary keys are unique; every proxy counts the
    accounts bound to it and is within its capacity; every account has
    exactly one active mapping, onto its proxy; every mapping belongs to a
    stored account. *)
Definition Consistent (db : DatabaseClient.t) : Prop :=
  NoDup (map Account.id (DatabaseClient.accounts db))
  /\ NoDup (map Proxy.id (DatabaseClient.proxies db))
  /\ (forall p,
         In p (DatabaseClient.proxies db) ->
         Proxy.assignedAccounts p
         = Z.of_nat (List.length (bound_accounts (Proxy.id p) db))
         /\ Proxy.assignedAccounts p <= Proxy.maxAccounts p)
  /\ (forall a,
         In a (DatabaseClient.accounts db) ->
         exists m,
           active_mappings (Account.id a) db = [m]
           /\ Mapping.proxyId m = Account.proxyId a)
  /\ (forall m,
         In m (DatabaseClient.mappings db) ->
         exists a,
           In a (DatabaseClient.accounts db)
           /\ Account.id a = Mapping.accountId m).

(** The same, as a check that runs. *)
Definition consistent (db : DatabaseClient.t) : bool :=
  unique (map Account.id (DatabaseClient.accounts db))
  && unique (map Proxy.id (DatabaseClient.proxies db))
  && forallb
       (fun p =>
          (Proxy.assignedAccounts p
           =? Z.of_nat (List.length (bound_accounts (Proxy.id p) db)))
          && (Proxy.assignedAccounts p <=? Proxy.maxAccounts p))
       (DatabaseClient.proxies db)
  && forallb
       (fun a =>
          match active_mappings (Account.id a) db with
          | [m] => (Mapping.proxyId m =? Account.proxyId a)%string
          | _ => false
          end)
       (DatabaseClient.accounts db)
  && forallb
       (fun m =>
          existsb (fun a => (Account.id a =? Mapping.accountId m)%string)
            (DatabaseClient.accounts db))
       (DatabaseClient.mappings db).

(** The capacity invariant of the specification. *)
Definition capacity_invariant (db : DatabaseClient.t) : Prop :=
  forall p,
    In p (DatabaseClient.proxies db) ->
    0 <= Proxy.assignedAccounts p <= Proxy.maxAccounts p
    /\ Proxy.assignedAccounts p
       = Z.of_nat (List.length (live_accounts (Proxy.id p) db)).

(** The mapping invariant of the specification. *)
Definition one_active_mapping (db : DatabaseClient.t) : Prop :=
  forall a,
    In a (DatabaseClient.accounts db) ->
    List.length (active_mappings (Account.id a) db) = 1%nat.

(** The operations of the allocation engine and of the failover controller
    on the store. *)
Inductive operation :=
| CreateAccount (now : Z) (config : AccountProxyMapping.AccountConfig)
| MoveAccount (now : Z) (accountId targetProxyId : string)
    (reason : option string)
| HandleProxyFailure (now : Z) (accountId : string) (reason : option string)
| BulkFailover (now : Z) (fromProxyId : string) (reason : option string)
| RebalanceMappings (now : Z).

Definition perform (s : ProxyFailover.t) (op : operation) : ProxyFailover.t :=
  match op with
  | CreateAccount now config =>
      ProxyFailover.set_db
        (snd (AccountProxyMapping.createAccount now config (ProxyFailover.db s)))
        s
  | MoveAccount now accountId targetProxyId reason =>
      ProxyFailover.set_db
        (snd
           (AccountProxyMapping.moveAccount now accountId targetProxyId reason
              (ProxyFailover.db s))) s
  | HandleProxyFailure now accountId reason =>
      snd (ProxyFailover.handleProxyFailure now accountId reason s)
  | BulkFailover now fromProxyId reason =>
      snd (ProxyFailover.bulkFailover now fromProxyId reason s)
  | RebalanceMappings now =>
      ProxyFailover.set_db
        (snd (AccountProxyMapping.rebalanceMappings now (ProxyFailover.db s))) s
  end.

Definition perform_all (ops : list operation) (s : ProxyFailover.t)
  : ProxyFailover.t :=
  fold_left perform ops s.

(** What the capacity invariant reads of a proxy. *)
Definition capacity_of (p : Proxy.t) : string * Z * Z :=
  (Proxy.id p, Proxy.assignedAccounts p, Proxy.maxAccounts p).

(** ** Moving an account *)

Definition one_less_account (p : Proxy.t) : Proxy.t :=
  Proxy.set_assignedAccounts (Z.max 0 (Proxy.assignedAccounts p - 1)) p.

(** The mappings of [accountId] onto [old]: the rows that the reassignment
    deactivates. *)
Definition old_binding (accountId old : string) (m : Mapping.t) : bool :=
  (Mapping.accountId m =? accountId)%string
  && (Mapping.proxyId m =? old)%string.

(** The mapping that the reassignment appends. *)
Definition new_binding (now : Z) (accountId old new : string)
  (reason : option string) (db : DatabaseClient.t) : Mapping.t :=
  Mapping.mk (fresh_id "uuid-" (DatabaseClient.uuids db)) accountId new now
    true (or_null (Some old)) (Some now) (or_null reason).

(** The effects of the reassignment of [accountId] from [old] to [new]. *)
Definition reassigned (now : Z) (accountId old new : string)
  (reason : option string) (db db' : DatabaseClient.t) : Prop :=
  DatabaseClient.accounts db'
  = DatabaseClient.update_where
      (fun a => (Account.id a =? accountId)%string) (Account.set_proxyId new)
      (DatabaseClient.accounts db)
  /\ DatabaseClient.proxies db'
     = DatabaseClient.update_where
         (fun p => (Proxy.id p =? new)%string) one_more_account
         (DatabaseClient.update_where
            (fun p => (Proxy.id p =? old)%string) one_less_account
            (DatabaseClient.proxies db))
  /\ DatabaseClient.mappings db'
     = (DatabaseClient.update_where (old_binding accountId old)
          Mapping.deactivate (DatabaseClient.mappings db)
        ++ [new_binding now accountId old new reason db])%list
  /\ DatabaseClient.incidents db' = DatabaseClient.incidents db.

(** *** Scenario data *)

(** A run of the five kinds of operations on the store with two proxies and
    [ella_001]. *)
Definition sample_operations : list operation :=
  [CreateAccount 1700000000001 (ella "2");
   MoveAccount 1700000000002 "ella_002" "mars_001" (Some "load");
   HandleProxyFailure 1700000000003 "ella_001" None;
   CreateAccount 1700000000004 (ella "3");
   BulkFailover 1700000000005 "mars_002" None;
   RebalanceMappings 1700000000006].

Definition sample_store : DatabaseClient.t :=
  ProxyFailover.db (perform_all sample_operations idle_failover).

(** The manager after [createAccount] was called twice with the id
    [ella_001]. *)
Definition manager_after_duplicate : AccountProxyManager.t :=
  snd (AccountProxyManager.createAccount (ella_account "1" "") idle_manager).

(** The accounts of the manager whose [proxyId] points at [k]. *)
Definition manager_bound_accounts (k : string) (s : AccountProxyManager.t)
  : list Account.t :=
  AccountProxyManager.getAccountsByProxy k s.

(** ** The manager's counters *)

(** The part of the capacity invariant that the manager keeps: unique proxy
    ids and [0 <= assignedAccounts <= maxAccounts]. *)
Definition within_capacity (s : AccountProxyManager.t) : Prop :=
  NoDup (map Proxy.id (AccountProxyManager.proxies s))
  /\ forall p,
       In p (AccountProxyManager.proxies s) ->
       0 <= Proxy.assignedAccounts p <= Proxy.maxAccounts p.

Inductive manager_operation :=
| ManagerCreateAccount (accountData : Account.t)
| ManagerMoveAccount (accountId newProxyId : string) (reason : option string)
| ManagerFailoverAccount (accountId : string) (reason : option string)
| ManagerHandleProxyFailure (proxyId : string) (reason : option string).

Definition manager_perform (s : AccountProxyManager.t)
  (op : manager_operation) : AccountProxyManager.t :=
  match op with
  | ManagerCreateAccount accountData =>
      snd (AccountProxyManager.createAccount accountData s)
  | ManagerMoveAccount accountId newProxyId reason =>
      snd (AccountProxyManager.moveAccount accountId newProxyId reason s)
  | ManagerFailoverAccount accountId reason =>
      snd (AccountProxyManager.failoverAccount accountId reason s)
  | ManagerHandleProxyFailure proxyId reason =>
      snd (AccountProxyManager.handleProxyFailure proxyId reason s)
  end.

(** *** Scenarios of the specification *)

Fixpoint create_all (now : Z)
  (configs : list AccountProxyMapping.AccountConfig) (db : DatabaseClient.t)
  : list AccountProxyMapping.MappingResult * DatabaseClient.t :=
  match configs with
  | [] => ([], db)
  | config :: rest =>
      let (result, db1) := AccountProxyMapping.createAccount now config db in
      let (results, db2) := create_all now rest db1 in
      (result :: results, db2)
  end.

(** Two empty proxies of capacity 2. *)
Definition two_empty_proxies : DatabaseClient.t :=
  DatabaseClient.set_proxies
    [mars "1" 5000 ProxyStatus.active 100 0;
     mars "2" 5001 ProxyStatus.active 100 0] empty_db.

(** Three proxies of capacity 2 and five accounts: two on the first, two on
    the second, one on the third, so one free slot in all. *)
Definition one_free_slot : ProxyFailover.t :=
  ProxyFailover.mk
    (snd
       (create_all 1700000000000
          [ella "1"; ella "2"; ella "3"; ella "4"; ella "5"]
          (DatabaseClient.set_proxies
             [mars "1" 5000 ProxyStatus.active 100 0;
              mars "2" 5001 ProxyStatus.active 90 0;
              mars "3" 5002 ProxyStatus.active 80 0] empty_db)))
    ProxyFailover.default_config [].

(** * Notions used by the further properties *)

(** The count under a key of a distribution object, 0 for an absent key. *)
Definition or_zero (o : option Z) : Z :=
  match o with
  | Some n => n
  | None => 0
  end.

(** ** Free slots *)

(** The accounts that a proxy can still take: none when it is not active. *)
Definition slots_of (p : Proxy.t) : Z :=
  if DatabaseClient.available p
  then Proxy.maxAccounts p - Proxy.assignedAccounts p
  else 0.

Definition slots (rows : list Proxy.t) : Z :=
  fold_right (fun p n => slots_of p + n) 0 rows.

(** The free slots of the store. *)
Definition free_slots (db : DatabaseClient.t) : Z :=
  slots (DatabaseClient.proxies db).

(** ** Keys of the consistency *)

(** What the consistency of the store reads of an account. *)
Definition account_key (a : Account.t) : string * string :=
  (Account.id a, Account.proxyId a).

(** ** What a failover may do to a proxy *)

(** The row [p'] is the row [p] with, at most, another number of assigned
    accounts and the status [failed]. *)
Definition kept_or_failed (p p' : Proxy.t) : Prop :=
  Proxy.id p' = Proxy.id p
  /\ Proxy.healthScore p' = Proxy.healthScore p
  /\ Proxy.maxAccounts p' = Proxy.maxAccounts p
  /\ (Proxy.status p' = Proxy.status p
      \/ Proxy.status p' = ProxyStatus.failed).

(** ** Delays *)

Definition total (delays : list Z) : Z := fold_right Z.add 0 delays.

(** The delays of a backoff that starts at [delay] and doubles [n] times. *)
Definition backoff (delay : Z) (n : nat) : list Z :=
  map (fun j => delay * 2 ^ Z.of_nat j) (seq 0 n).

(** ** Scenario data of the failover controller *)

(** The controller over a store whose only proxy is failed. *)
Definition failed_proxy_failover : ProxyFailover.t :=
  ProxyFailover.mk failed_proxy_db ProxyFailover.default_config [].

(** Incidents created within the same second. *)
Definition same_second (_ : string) : Z := 1700000000.

(** Two proxies of capacity 2 with two accounts each. *)
Definition full_house : ProxyFailover.t :=
  ProxyFailover.mk
    (snd
       (create_all 1700000000000 [ella "1"; ella "2"; ella "3"; ella "4"]
          two_empty_proxies))
    ProxyFailover.default_config [].

(** An operation that fails twice and then returns 7. *)
Definition third_time_lucky (call : nat) : outcome Z :=
  match call with
  | 0%nat => Throw "ECONNRESET"
  | 1%nat => Throw "ETIMEDOUT"
  | _ => Ret 7
  end.

(** An operation that fails on every call, with the number of the call in
    its message. *)
Definition never_lucky (call : nat) : outcome Z :=
  Throw (fresh_id "failure " call).

(** ** Scenario data of the manager *)


(** The manager once the proxy of [ella_001] has failed and no other proxy
    could take the account: the second proxy is in maintenance. *)
Definition stranded_manager : AccountProxyManager.t :=
  snd
    (AccountProxyManager.handleProxyFailure "mars_001" (Some "timeout")
       (snd
          (AccountProxyManager.updateProxy "mars_002"
             (Proxy.mk_updates (Some ProxyStatus.maintenance) None None None
                None) idle_manager))).

(** ** The steps of a workflow *)

(** The steps of a workflow run one after the other, up to the first one
    that throws. *)
Fixpoint run_steps (now : Z) (wid : string)
  (ops : list (string * AccountProxyWorkflows.M AccountProxyWorkflows.StepOutput))
  : AccountProxyWorkflows.M unit :=
  match ops with
  | [] => AccountProxyWorkflows.ret tt
  | (stepName, operation) :: rest =>
      AccountProxyWorkflows.bind
        (AccountProxyWorkflows.executeStep now wid stepName operation)
        (fun _ => run_steps now wid rest)
  end.

(** The steps of the onboarding, by name. *)
Definition onboarding_steps (now : Z) (probe : outcome Z)
  (config : AccountProxyWorkflows.OnboardingConfig)
  : list (string * AccountProxyWorkflows.M AccountProxyWorkflows.StepOutput) :=
  [("validate", AccountProxyWorkflows.validate config);
   ("check_proxies", AccountProxyWorkflows.check_proxies);
   ("create_account", AccountProxyWorkflows.create_account now config);
   ("verify_assignment", AccountProxyWorkflows.verify_assignment config);
   ("health_check", AccountProxyWorkflows.health_check now probe config);
   ("complete", AccountProxyWorkflows.complete)].

(** An operation of a step that reads and writes the manager only: [f] is
    what it does to the manager. *)
Definition on_manager
  (f : AccountProxyManager.t
       -> outcome AccountProxyWorkflows.StepOutput * AccountProxyManager.t)
  (operation : AccountProxyWorkflows.M AccountProxyWorkflows.StepOutput)
  : Prop :=
  forall s,
    operation s
    = (fst (f (AccountProxyWorkflows.manager s)),
       AccountProxyWorkflows.set_manager
         (snd (f (AccountProxyWorkflows.manager s))) s).

Definition step_completed (st : AccountProxyWorkflows.Step.t) : Prop :=
  AccountProxyWorkflows.Step.status st = StepStatus.completed
  /\ AccountProxyWorkflows.Step.error st = None.

(** The step that threw [e]. *)
Definition step_failed (e : string) (st : AccountProxyWorkflows.Step.t)
  : Prop :=
  AccountProxyWorkflows.Step.status st = StepStatus.failed
  /\ AccountProxyWorkflows.Step.error st = Some e.

(** The incident that [failWorkflow] records for the error [e] of an
    onboarding. *)
Definition failure_incident (e : string) (i : Incident.t) : Prop :=
  Incident.type i = IncidentType.manual_intervention
  /\ Incident.severity i = Severity.high
  /\ Incident.status i = IncidentStatus.open
  /\ Incident.title i = "Workflow onboarding failed"
  /\ Incident.description i = Some e
  /\ Incident.accountId i = None
  /\ Incident.proxyId i = None.

(** What [bulkOnboard] returns of a workflow: it is completed, stored under
    its id, which the counter has passed, and belongs to one of the
    accounts. *)
Definition onboarded_in
  (configs : list AccountProxyWorkflows.OnboardingConfig)
  (s' : AccountProxyWorkflows.t) (w : AccountProxyWorkflows.Workflow.t)
  : Prop :=
  AccountProxyWorkflows.Workflow.status w = WorkflowStatus.completed
  /\ AccountProxyWorkflows.getWorkflow (AccountProxyWorkflows.Workflow.id w)
       s' = Some w
  /\ In (AccountProxyWorkflows.Workflow.metadata w) configs
  /\ Forall step_completed (AccountProxyWorkflows.Workflow.steps w)
  /\ exists k,
       (k < AccountProxyWorkflows.ids s')%nat
       /\ AccountProxyWorkflows.Workflow.id w = fresh_id "wf-" k.

(** A line of the errors that [bulkOnboard] reports. *)
Definition error_line_of
  (configs : list AccountProxyWorkflows.OnboardingConfig) (line : string)
  : Prop :=
  exists config e,
    In config configs
    /\ line = (AccountProxyWorkflows.accountId config ++ ": " ++ e)%string.

(** ** Lists of incidents *)

(** No incident of the list was created after one that stands before it. *)
Fixpoint newest_to_oldest (created_at : string -> Z) (l : list Incident.t)
  : Prop :=
  match l with
  | [] => True
  | x :: rest =>
      (forall y,
          In y rest -> created_at (Incident.id y) <= created_at (Incident.id x))
      /\ newest_to_oldest created_at rest
  end.

(** The store of [ella_001] at the end of a day with seven actions. *)
Definition evening_db : DatabaseClient.t :=
  DatabaseClient.set_accounts
    (map (Account.set_actionsToday 7) (DatabaseClient.accounts ella_db))
    ella_db.

(** * Properties *)

(** ** Health score *)

Lemma above_nine_tenths_iff (r : Q) :
  HealthMonitor.above_nine_tenths r = true <-> (9 # 10 < r)%Q.
Proof.
  unfold HealthMonitor.above_nine_tenths.
  destruct (Qle_bool r (9 # 10)) eqn:E; cbn [negb].
  - apply Qle_bool_iff in E. split; [discriminate |].
    intro H. exfalso. exact (Qlt_not_le _ _ H E).
  - split; [intros _ | reflexivity].
    apply Qnot_le_lt. intro H. apply Qle_bool_iff in H. congruence.
Qed.

Lemma above_nine_tenths_dec (r : Q) :
  HealthMonitor.above_nine_tenths r
  = if Qlt_le_dec (9 # 10) r then true else false.
Proof.
  destruct (Qlt_le_dec (9 # 10) r) as [H | H].
  - now apply above_nine_tenths_iff.
  - apply not_true_iff_false. intro A. apply above_nine_tenths_iff in A.
    exact (Qlt_not_le _ _ A H).
Qed.

(** C5. For every set of factors the computed score is 100 minus 40 when the
    proxy is not working, minus 30 when the account is suspended, minus 50
    when it is banned, minus 10 when the action ratio exceeds 0.9, minus
    [floor (spamScore / 10)], minus 2 per issue, clamped to [[0, 100]]; the
    monitor and the manager compute the same score; and the factors
    [{proxyWorking: false, accountStatus: "active", actionRatio: 0.5,
    spamScore: 30, issues: 1}] give exactly 55. *)
Theorem C5_health_score_formula :
  (forall f : HealthMonitor.HealthFactors,
      HealthMonitor.calculateHealthScore f = health_score_spec f
      /\ AccountProxyManager.calculateHealthScore f = health_score_spec f
      /\ 0 <= HealthMonitor.calculateHealthScore f <= 100)
  /\ HealthMonitor.calculateHealthScore scenario_factors = 55
  /\ AccountProxyManager.calculateHealthScore scenario_factors = 55.
Proof.
  split; [| split; reflexivity].
  intro f.
  assert (E : HealthMonitor.calculateHealthScore f = health_score_spec f).
  { unfold HealthMonitor.calculateHealthScore, health_score_spec.
    rewrite above_nine_tenths_dec.
    destruct (HealthMonitor.proxyWorking f);
      destruct (HealthMonitor.accountStatus f =? "suspended")%string;
      destruct (HealthMonitor.accountStatus f =? "banned")%string;
      destruct (Qlt_le_dec (9 # 10) (HealthMonitor.actionRatio f));
      cbn [negb];
      repeat match goal with
             | |- context [?a <? ?b] => destruct (Z.ltb_spec a b)
             end; lia. }
  split; [exact E |]. split.
  - change (AccountProxyManager.calculateHealthScore f)
      with (HealthMonitor.calculateHealthScore f). exact E.
  - unfold HealthMonitor.calculateHealthScore. lia.
Qed.

(** ** Rows and keys *)

Lemma find_update_where {A : Type} (sel : A -> bool) (f : A -> A)
  (rows : list A) :
  (forall r, sel r = true -> sel (f r) = true) ->
  find sel (DatabaseClient.update_where sel f rows) = option_map f (find sel rows).
Proof.
  intro K. induction rows as [| r rows IH]; [reflexivity |].
  cbn [DatabaseClient.update_where map find].
  destruct (sel r) eqn:E.
  - now rewrite (K r E).
  - rewrite E. exact IH.
Qed.

(** ** Probing a proxy *)

(** An update that carries a [lastTested] is refused and writes nothing. *)
Lemma updateProxy_lastTested (id : string) (u : Proxy.updates) (at_ : Z)
  (db : DatabaseClient.t) :
  Proxy.u_lastTested u = Some at_ ->
  DatabaseClient.updateProxy id u db = (Throw DatabaseClient.bind_error, db).
Proof. unfold DatabaseClient.updateProxy. now intros ->. Qed.

(** An update that carries none returns. *)
Lemma updateProxy_returns (id : string) (u : Proxy.updates)
  (db : DatabaseClient.t) :
  Proxy.u_lastTested u = None ->
  DatabaseClient.updateProxy id u db
  = (Ret tt,
     DatabaseClient.set_proxies
       (DatabaseClient.update_where (fun p => (Proxy.id p =? id)%string)
          (Proxy.apply u) (DatabaseClient.proxies db)) db).
Proof. unfold DatabaseClient.updateProxy. now intros ->. Qed.

(** What [testProxy] does, whatever the probe did. *)
Lemma testProxy_refused (probe : HealthMonitor.Probe) (proxy : Proxy.t)
  (db : DatabaseClient.t) :
  HealthMonitor.testProxy probe proxy db
  = (Throw DatabaseClient.bind_error, db).
Proof.
  unfold HealthMonitor.testProxy, HealthMonitor.testProxy_catch.
  destruct (HealthMonitor.fetch probe) as [ok status | message]; reflexivity.
Qed.

(** C9 fails of the code: whatever the probe did, [testProxy] writes no
    metric and returns no result.  Its [updateProxy] passes [lastTested] as a
    [Date], which the store refuses to bind; after a response the error is
    caught by the [catch] block, whose [updateProxy] is refused in the same
    way, and the promise rejects with that error.  The store is as it
    was. *)
Theorem C9_testProxy_rejects (probe : HealthMonitor.Probe) (proxy : Proxy.t)
  (db : DatabaseClient.t) :
  HealthMonitor.testProxy probe proxy db
  = (Throw DatabaseClient.bind_error, db)
  /\ DatabaseClient.getProxy (Proxy.id proxy)
       (snd (HealthMonitor.testProxy probe proxy db))
     = DatabaseClient.getProxy (Proxy.id proxy) db.
Proof.
  pose proof (testProxy_refused probe proxy db) as E.
  split; [exact E | now rewrite E].
Qed.

(** On the proxy of the scenario, after a fetch that timed out and after one
    that was answered with 200: no metric of the proxy is written. *)
Example probes_write_no_metric :
  map (fun probe => HealthMonitor.testProxy probe
                      (mars "1" 5000 ProxyStatus.active 80 0) one_proxy_db)
    [timeout_probe; ok_probe]
  = [(Throw DatabaseClient.bind_error, one_proxy_db);
     (Throw DatabaseClient.bind_error, one_proxy_db)]
  /\ option_map
       (fun p =>
          (Proxy.avgResponseTime p, Proxy.successRate p, Proxy.lastTested p))
       (DatabaseClient.getProxy "mars_001" one_proxy_db)
     = Some (120, 100, None).
Proof. split; reflexivity. Qed.

(** ** Sorting *)

Section SortFacts.
Context {A : Type} (le : A -> A -> bool).

Lemma insert_sorted_In (x y : A) (l : list A) :
  In y (insert_sorted le x l) <-> y = x \/ In y l.
Proof.
  induction l as [| h t IH]; cbn.
  - intuition.
  - destruct (le x h); cbn; [intuition |]. rewrite IH. intuition.
Qed.

Lemma stable_sort_In (y : A) (l : list A) :
  In y (stable_sort le l) <-> In y l.
Proof.
  induction l as [| h t IH]; cbn; [tauto |].
  rewrite insert_sorted_In, IH. intuition.
Qed.

Lemma insert_sorted_length (x : A) (l : list A) :
  List.length (insert_sorted le x l) = S (List.length l).
Proof.
  induction l as [| h t IH]; cbn; [reflexivity |].
  destruct (le x h); cbn; congruence.
Qed.

Lemma stable_sort_length (l : list A) :
  List.length (stable_sort le l) = List.length l.
Proof.
  induction l as [| h t IH]; cbn; [reflexivity |].
  now rewrite insert_sorted_length, IH.
Qed.

Lemma hd_insert_sorted (x : A) (l : list A) :
  hd_error (insert_sorted le x l)
  = Some match hd_error l with
         | None => x
         | Some h => if le x h then x else h
         end.
Proof. destruct l as [| h t]; cbn; [| destruct (le x h)]; reflexivity. Qed.

Lemma hd_stable_sort_none (l : list A) :
  hd_error (stable_sort le l) = None -> l = [].
Proof.
  destruct l as [| h t]; [reflexivity |]. cbn.
  rewrite hd_insert_sorted. discriminate.
Qed.

Hypothesis le_total : forall a b, le a b = true \/ le b a = true.
Hypothesis le_trans :
  forall a b c, le a b = true -> le b c = true -> le a c = true.

Lemma hd_stable_sort_least (l : list A) (x : A) :
  hd_error (stable_sort le l) = Some x ->
  In x l /\ forall y, In y l -> le x y = true.
Proof.
  revert x. induction l as [| a t IH]; intros x; cbn; [discriminate |].
  rewrite hd_insert_sorted.
  destruct (hd_error (stable_sort le t)) as [h |] eqn:H.
  - destruct (IH h eq_refl) as [Hin Hle].
    destruct (le a h) eqn:E; intros [= <-].
    + split; [now left |]. intros y [<- | Hy].
      * destruct (le_total a a); assumption.
      * eapply le_trans; [exact E | now apply Hle].
    + split; [now right |]. intros y [<- | Hy].
      * destruct (le_total a h) as [C | C]; [congruence | exact C].
      * now apply Hle.
  - apply hd_stable_sort_none in H. subst t. intros [= <-].
    split; [now left |]. intros y [<- | []].
    destruct (le_total a a); assumption.
Qed.
End SortFacts.

(** ** Proxy selection *)

Lemma available_iff (p : Proxy.t) :
  DatabaseClient.available p = true <-> has_spare_capacity p.
Proof.
  unfold DatabaseClient.available, has_spare_capacity.
  rewrite andb_true_iff, Z.ltb_lt.
  destruct (Proxy.status p); cbn; intuition discriminate.
Qed.

Lemma available_order_total (a b : Proxy.t) :
  DatabaseClient.available_order a b = true
  \/ DatabaseClient.available_order b a = true.
Proof.
  unfold DatabaseClient.available_order.
  repeat rewrite orb_true_iff, andb_true_iff.
  rewrite !Z.ltb_lt, !Z.eqb_eq, !Z.leb_le. lia.
Qed.

Lemma available_order_trans (a b c : Proxy.t) :
  DatabaseClient.available_order a b = true ->
  DatabaseClient.available_order b c = true ->
  DatabaseClient.available_order a c = true.
Proof.
  unfold DatabaseClient.available_order.
  repeat rewrite orb_true_iff, andb_true_iff.
  rewrite !Z.ltb_lt, !Z.eqb_eq, !Z.leb_le. lia.
Qed.

(** The selection rule of the store: the result is an active proxy with
    spare capacity, none such has fewer assigned accounts, none such with as
    many has a higher health score; there is no result only when no active
    proxy has spare capacity. *)
Lemma db_findAvailableProxy_rule (db : DatabaseClient.t) :
  match DatabaseClient.findAvailableProxy db with
  | Some p =>
      In p (DatabaseClient.proxies db)
      /\ has_spare_capacity p
      /\ forall q,
           In q (DatabaseClient.proxies db) -> has_spare_capacity q ->
           Proxy.assignedAccounts p <= Proxy.assignedAccounts q
           /\ (Proxy.assignedAccounts q = Proxy.assignedAccounts p ->
               Proxy.healthScore q <= Proxy.healthScore p)
  | None =>
      forall q, In q (DatabaseClient.proxies db) -> ~ has_spare_capacity q
  end.
Proof.
  unfold DatabaseClient.findAvailableProxy.
  destruct (hd_error _) as [p |] eqn:H.
  - apply (hd_stable_sort_least _ available_order_total available_order_trans)
      in H.
    destruct H as [Hin Hle]. apply filter_In in Hin. destruct Hin as [Hin Hav].
    split; [exact Hin |]. split; [now apply available_iff |].
    intros q Hq Hs.
    assert (L : DatabaseClient.available_order p q = true).
    { apply Hle, filter_In. split; [exact Hq | now apply available_iff]. }
    unfold DatabaseClient.available_order in L.
    rewrite orb_true_iff, andb_true_iff, Z.ltb_lt, Z.eqb_eq, Z.leb_le in L.
    lia.
  - apply hd_stable_sort_none in H. intros q Hq Hs.
    assert (I : In q (filter DatabaseClient.available (DatabaseClient.proxies db))).
    { apply filter_In. split; [exact Hq | now apply available_iff]. }
    rewrite H in I. exact I.
Qed.

Lemma by_assigned_total (a b : Proxy.t) :
  AccountProxyManager.by_assigned a b = true
  \/ AccountProxyManager.by_assigned b a = true.
Proof. unfold AccountProxyManager.by_assigned. rewrite !Z.leb_le. lia. Qed.

Lemma by_assigned_trans (a b c : Proxy.t) :
  AccountProxyManager.by_assigned a b = true ->
  AccountProxyManager.by_assigned b c = true ->
  AccountProxyManager.by_assigned a c = true.
Proof. unfold AccountProxyManager.by_assigned. rewrite !Z.leb_le. lia. Qed.

(** The selection rule of the manager: as the store's, without the health
    score. *)
Lemma manager_findAvailableProxy_rule (s : AccountProxyManager.t) :
  match AccountProxyManager.findAvailableProxy s with
  | Some p =>
      In p (AccountProxyManager.proxies s)
      /\ has_spare_capacity p
      /\ forall q,
           In q (AccountProxyManager.proxies s) -> has_spare_capacity q ->
           Proxy.assignedAccounts p <= Proxy.assignedAccounts q
  | None =>
      forall q, In q (AccountProxyManager.proxies s) -> ~ has_spare_capacity q
  end.
Proof.
  unfold AccountProxyManager.findAvailableProxy,
    AccountProxyManager.getActiveProxies, AccountProxyManager.getAllProxies.
  assert (M : forall q,
             In q (filter
                     (fun p => Proxy.assignedAccounts p <? Proxy.maxAccounts p)
                     (stable_sort AccountProxyManager.by_assigned
                        (filter
                           (fun p =>
                              ProxyStatus.eqb (Proxy.status p) ProxyStatus.active)
                           (AccountProxyManager.proxies s))))
             <-> In q (AccountProxyManager.proxies s) /\ has_spare_capacity q).
  { intro q. rewrite filter_In, stable_sort_In, filter_In, Z.ltb_lt.
    unfold has_spare_capacity.
    destruct (Proxy.status q); cbn; intuition discriminate. }
  destruct (hd_error _) as [p |] eqn:H.
  - apply (hd_stable_sort_least _ by_assigned_total by_assigned_trans) in H.
    destruct H as [Hin Hle]. apply M in Hin. destruct Hin as [Hin Hs].
    split; [exact Hin |]. split; [exact Hs |]. intros q Hq Hqs.
    apply Z.leb_le. apply Hle. apply M. now split.
  - apply hd_stable_sort_none in H. intros q Hq Hs.
    assert (I : In q []) by (rewrite <- H; apply M; now split).
    exact I.
Qed.

(** C3 holds of the store and fails of the manager: with two active, empty
    proxies, the first of health score 50 and the second of health score 90,
    the manager's [findAvailableProxy] returns the first, where the rule (and
    the store's [findAvailableProxy]) selects the second. *)
Theorem C3_manager_tie_ignores_healthScore :
  AccountProxyManager.findAvailableProxy tied_manager
  = Some (mars "1" 5000 ProxyStatus.active 50 0)
  /\ DatabaseClient.findAvailableProxy tied_db
     = Some (mars "2" 5001 ProxyStatus.active 90 0).
Proof. split; reflexivity. Qed.

(** ** Keys *)

Lemma existsb_eqb_In (k : string) (l : list string) :
  existsb (String.eqb k) l = true <-> In k l.
Proof.
  rewrite existsb_exists. split.
  - intros (x & Hx & E). apply String.eqb_eq in E. now subst.
  - intro H. exists k. split; [exact H | apply String.eqb_refl].
Qed.

Lemma unique_NoDup (l : list string) : unique l = true <-> NoDup l.
Proof.
  induction l as [| k t IH]; cbn.
  - split; [constructor | reflexivity].
  - rewrite andb_true_iff, negb_true_iff, IH. split.
    + intros [N D]. constructor; [| exact D].
      intro I. apply existsb_eqb_In in I. congruence.
    + intro D. inversion D as [| ? ? N D']; subst. split; [| exact D'].
      apply not_true_iff_false. intro I. now apply existsb_eqb_In in I.
Qed.

Lemma insert_sorted_perm {A : Type} (le : A -> A -> bool) (x : A)
  (l : list A) : Permutation (insert_sorted le x l) (x :: l).
Proof.
  induction l as [| h t IH]; cbn; [reflexivity |].
  destruct (le x h); [reflexivity |].
  rewrite IH. apply perm_swap.
Qed.

Lemma stable_sort_perm {A : Type} (le : A -> A -> bool) (l : list A) :
  Permutation (stable_sort le l) l.
Proof.
  induction l as [| h t IH]; cbn; [reflexivity |].
  rewrite insert_sorted_perm. now constructor.
Qed.

Lemma update_where_keys {A : Type} (key : A -> string) (sel : A -> bool)
  (f : A -> A) (rows : list A) :
  (forall r, key (f r) = key r) ->
  map key (DatabaseClient.update_where sel f rows) = map key rows.
Proof.
  intro K. unfold DatabaseClient.update_where. rewrite map_map.
  apply map_ext. intro r. destruct (sel r); [apply K | reflexivity].
Qed.


Lemma find_update_where_other {A : Type} (sel sel' : A -> bool) (f : A -> A)
  (rows : list A) :
  (forall r, sel' r = true -> sel (f r) = sel r) ->
  (forall r, sel' r = true -> sel r = true -> f r = r) ->
  find sel (DatabaseClient.update_where sel' f rows) = find sel rows.
Proof.
  intros K1 K2. induction rows as [| r rows IH]; [reflexivity |].
  cbn [DatabaseClient.update_where map find].
  destruct (sel' r) eqn:E'; [| now destruct (sel r)].
  rewrite (K1 r E'). destruct (sel r) eqn:E; [| exact IH].
  now rewrite (K2 r E' E).
Qed.

Lemma find_by_key_unique {A : Type} (key : A -> string) (rows : list A)
  (r : A) :
  NoDup (map key rows) -> In r rows ->
  find (fun x => (key x =? key r)%string) rows = Some r.
Proof.
  induction rows as [| h t IH]; cbn; [intros _ [] |].
  intros D [-> | I].
  - now rewrite String.eqb_refl.
  - inversion D as [| ? ? N D']; subst.
    destruct (String.eqb_spec (key h) (key r)) as [E | E].
    + exfalso. apply N. rewrite E. now apply in_map.
    + now apply IH.
Qed.

Lemma find_by_key_key {A : Type} (key : A -> string) (k : string)
  (rows : list A) (r : A) :
  find (fun x => (key x =? k)%string) rows = Some r -> key r = k /\ In r rows.
Proof.
  intro F. apply find_some in F. destruct F as [I E].
  apply String.eqb_eq in E. now split.
Qed.

(** ** Phase advancement *)

(** C10. [advancePhase] on an unknown id returns null and changes nothing;
    on an account in the final phase [full] it performs no update and returns
    the account as it is.  On any other account it returns the account as
    it is stored afterwards: its phase is the next one along warmup, soft,
    growth, full; its [dailyActionLimit] is the table value of that phase,
    20, 50 or 100; every other field is as it was.  The accounts of other
    ids and the other tables are untouched. *)
Theorem C10_advancePhase (accountId : string) (db : DatabaseClient.t) :
  match DatabaseClient.getAccount accountId db with
  | None => AccountProxyMapping.advancePhase accountId db = (None, db)
  | Some account =>
      match next_phase (Account.phase account) with
      | None =>
          Account.phase account = Phase.full
          /\ AccountProxyMapping.advancePhase accountId db = (Some account, db)
      | Some newPhase =>
          exists updated db',
            AccountProxyMapping.advancePhase accountId db = (Some updated, db')
            /\ Account.phase updated = newPhase
            /\ Account.dailyActionLimit updated = table_limit newPhase
            /\ In (newPhase, Account.dailyActionLimit updated)
                 [(Phase.soft, 20); (Phase.growth, 50); (Phase.full, 100)]
            /\ same_but_phase_and_limit account updated
            /\ DatabaseClient.getAccount accountId db' = Some updated
            /\ (forall k,
                   k <> accountId ->
                   DatabaseClient.getAccount k db'
                   = DatabaseClient.getAccount k db)
            /\ map Account.id (DatabaseClient.accounts db')
               = map Account.id (DatabaseClient.accounts db)
            /\ DatabaseClient.proxies db' = DatabaseClient.proxies db
            /\ DatabaseClient.mappings db' = DatabaseClient.mappings db
            /\ DatabaseClient.incidents db' = DatabaseClient.incidents db
      end
  end.
Proof.
  unfold AccountProxyMapping.advancePhase.
  destruct (DatabaseClient.getAccount accountId db) as [account |] eqn:G;
    [| reflexivity].
  assert (U : forall u,
             DatabaseClient.getAccount accountId
               (DatabaseClient.updateAccount accountId u db)
             = Some (Account.apply u account)).
  { intro u. unfold DatabaseClient.getAccount, DatabaseClient.updateAccount in *.
    cbn [DatabaseClient.accounts DatabaseClient.set_accounts].
    rewrite find_update_where.
    - now rewrite G.
    - intros r E. rewrite <- E. f_equal. unfold Account.apply.
      destruct (Account.u_healthScore u), (Account.u_dailyActionLimit u),
        (Account.u_phase u), (Account.u_proxyId u); reflexivity. }
  assert (I : forall (u : Account.updates) (r : Account.t),
             Account.id (Account.apply u r) = Account.id r).
  { intros u r. unfold Account.apply.
    destruct (Account.u_healthScore u), (Account.u_dailyActionLimit u),
      (Account.u_phase u), (Account.u_proxyId u); reflexivity. }
  assert (O : forall u k,
             k <> accountId ->
             DatabaseClient.getAccount k
               (DatabaseClient.updateAccount accountId u db)
             = DatabaseClient.getAccount k db).
  { intros u k N. unfold DatabaseClient.getAccount, DatabaseClient.updateAccount.
    cbn [DatabaseClient.accounts DatabaseClient.set_accounts].
    apply find_update_where_other.
    - intros r _. now rewrite I.
    - intros r Ea Ek. apply String.eqb_eq in Ek, Ea. congruence. }
  assert (K : forall u,
             Account.u_proxyId u = None ->
             map Account.id
               (DatabaseClient.accounts
                  (DatabaseClient.updateAccount accountId u db))
             = map Account.id (DatabaseClient.accounts db)).
  { intros u _. unfold DatabaseClient.updateAccount.
    cbn [DatabaseClient.accounts DatabaseClient.set_accounts].
    apply update_where_keys. intro r. apply I. }
  destruct (Account.phase account) eqn:P; cbn [next_phase];
    cbn -[DatabaseClient.updateAccount DatabaseClient.getAccount];
    try (split; reflexivity).
  all: rewrite U; eexists; eexists; split; [reflexivity |].
  all: split; [reflexivity |]; split; [reflexivity |].
  all: split; [cbn; tauto |].
  all: split; [repeat split |].
  all: split; [apply U |]; split; [intros k N; now apply O |].
  all: split; [now apply K |]; repeat split.
Qed.

(** ** Checking all proxies *)

Lemma or_null_key (k : string) : k <> "" -> or_null (Some k) = Some k.
Proof.
  intro N. cbn. destruct (String.eqb_spec k ""); [contradiction | reflexivity].
Qed.

Lemma stable_sort_nil {A : Type} (le : A -> A -> bool) (l : list A) :
  stable_sort le l = [] -> l = [].
Proof.
  intro E. apply (f_equal (@List.length A)) in E.
  rewrite stable_sort_length in E. now destruct l.
Qed.

(** C6 fails of the code: a run of [checkAllProxies] on a store that holds a
    proxy rejects at the first proxy, whatever the probes did, because
    [testProxy] does; no proxy is marked failed or active, no health score
    changes, no incident is opened and nothing is logged.  A run on a store
    without proxies returns the empty list. *)
Theorem C6_checkAllProxies_rejects (probe_of : string -> HealthMonitor.Probe)
  (db : DatabaseClient.t) :
  HealthMonitor.checkAllProxies probe_of db
  = match DatabaseClient.proxies db with
    | [] => (Ret [], db)
    | _ :: _ => (Throw DatabaseClient.bind_error, db)
    end.
Proof.
  unfold HealthMonitor.checkAllProxies.
  destruct (DatabaseClient.getAllProxies db) as [| proxy rest] eqn:E.
  - unfold DatabaseClient.getAllProxies in E. apply stable_sort_nil in E.
    now rewrite E.
  - assert (N : DatabaseClient.proxies db <> []).
    { intro X. unfold DatabaseClient.getAllProxies in E. rewrite X in E.
      discriminate E. }
    destruct (DatabaseClient.proxies db); [contradiction |].
    cbn [HealthMonitor.check_proxies]. unfold HealthMonitor.check_proxy.
    now rewrite testProxy_refused.
Qed.

(** The scenario of the claim: the proxy is active with a health score of
    80 and its probe fails on three runs.  Each run rejects; afterwards the
    proxy is still active with a health score of 80 and there is no
    incident.  A run on a failed proxy whose probe passes rejects too, and
    the proxy stays failed. *)
Example three_failing_checks_change_nothing :
  fst (HealthMonitor.checkAllProxies always_timeout one_proxy_db)
  = Throw DatabaseClient.bind_error
  /\ check_run always_timeout
       (check_run always_timeout (check_run always_timeout one_proxy_db))
     = one_proxy_db
  /\ option_map (fun p => (Proxy.status p, Proxy.healthScore p))
       (DatabaseClient.getProxy "mars_001" one_proxy_db)
     = Some (ProxyStatus.active, 80)
  /\ DatabaseClient.incidents one_proxy_db = []
  /\ HealthMonitor.checkAllProxies always_ok failed_proxy_db
     = (Throw DatabaseClient.bind_error, failed_proxy_db).
Proof. repeat split. Qed.

(** ** Creating an account *)

Lemma find_app_fresh {A : Type} (sel : A -> bool) (rows : list A) (r : A) :
  existsb sel rows = false -> sel r = true ->
  find sel (rows ++ [r]) = Some r.
Proof.
  intros E S. induction rows as [| h t IH]; cbn in *.
  - now rewrite S.
  - apply orb_false_iff in E. destruct E as [-> E]. now apply IH.
Qed.


(** Which key is reported: the handle's when the id and the handle are both
    stored, as for a second [ella_001], and when only the handle is; the
    id's when only the id is. *)
Example duplicate_keys_as_reported :
  map
    (fun config =>
       AccountProxyMapping.error
         (fst (AccountProxyMapping.createAccount 1700000000001 config ella_db)))
    [ella "1";
     AccountProxyMapping.mk_config "ella_002" "Ella Sophie" "@ellasophiee1"
       None None "profile_2" None None;
     AccountProxyMapping.mk_config "ella_001" "Ella Sophie" "@ellasophiee9"
       None None "profile_1" None None]
  = [Some "UNIQUE constraint failed: accounts.twitter_handle";
     Some "UNIQUE constraint failed: accounts.twitter_handle";
     Some "UNIQUE constraint failed: accounts.id"].
Proof. reflexivity. Qed.

(** The outcomes of [createAccount] of the mapping engine. *)
Lemma mapping_createAccount_outcome (now : Z)
  (config : AccountProxyMapping.AccountConfig) (db : DatabaseClient.t) :
  let (result, db') := AccountProxyMapping.createAccount now config db in
  (exists proxy,
      DatabaseClient.findAvailableProxy db = Some proxy
      /\ key_taken config db = None
      /\ result
         = AccountProxyMapping.mk_result true
             (Some (onboarded now config (Proxy.id proxy)))
             (DatabaseClient.getProxy (Proxy.id proxy) db') None
      /\ fully_created now config proxy db db')
  \/ (db' = db
      /\ (DatabaseClient.findAvailableProxy db = None
          /\ result
             = AccountProxyMapping.failure AccountProxyMapping.no_proxy_error
          \/ exists proxy message,
               DatabaseClient.findAvailableProxy db = Some proxy
               /\ key_taken config db = Some message
               /\ result = AccountProxyMapping.failure message)).
Proof.
  unfold AccountProxyMapping.createAccount.
  pose proof (db_findAvailableProxy_rule db) as R.
  destruct (DatabaseClient.findAvailableProxy db) as [proxy |] eqn:F.
  2: { right. split; [reflexivity |]. left. now split. }
  destruct R as (_ & [_ Cap] & _).
  destruct (Z.leb_spec (Proxy.maxAccounts proxy) (Proxy.assignedAccounts proxy))
    as [L | _]; [lia |].
  unfold DatabaseClient.createAccount, DatabaseClient.insert_violation,
    key_taken.
  cbn [Account.id Account.twitterHandle].
  destruct (existsb
              (fun r =>
                 (Account.twitterHandle r
                  =? AccountProxyMapping.twitterHandle config)%string)
              (DatabaseClient.accounts db)) eqn:E2.
  { right. split; [reflexivity |]. right. eexists. eexists.
    repeat split. }
  destruct (existsb
              (fun r => (Account.id r =? AccountProxyMapping.id config)%string)
              (DatabaseClient.accounts db)) eqn:E1.
  { right. split; [reflexivity |]. right. eexists. eexists.
    repeat split. }
  left. exists proxy. split; [reflexivity |]. split; [reflexivity |].
  cbn. split; [| repeat split].
  unfold DatabaseClient.getAccount. cbn.
  rewrite (find_app_fresh _ _ _ E1) by (cbn; apply String.eqb_refl).
  reflexivity.
Qed.

(** The outcomes of [createAccount] of the manager. *)
Lemma manager_createAccount_outcome (accountData : Account.t)
  (s : AccountProxyManager.t) :
  match AccountProxyManager.createAccount accountData s with
  | (Throw e, s') =>
      AccountProxyManager.findAvailableProxy s = None
      /\ e = AccountProxyManager.no_proxy_error /\ s' = s
  | (Ret account, s') =>
      exists proxy,
        AccountProxyManager.findAvailableProxy s = Some proxy
        /\ account = Account.set_proxyId (Proxy.id proxy) accountData
        /\ AccountProxyManager.accounts s'
           = AccountProxyManager.map_set Account.id account
               (AccountProxyManager.accounts s)
        /\ AccountProxyManager.proxies s'
           = AccountProxyManager.map_mutate Proxy.id (Proxy.id proxy)
               one_more_account (AccountProxyManager.proxies s)
        /\ AccountProxyManager.incidents s' = AccountProxyManager.incidents s
  end.
Proof.
  unfold AccountProxyManager.createAccount.
  destruct (AccountProxyManager.findAvailableProxy s) as [proxy |] eqn:F.
  - exists proxy. repeat split.
  - repeat split.
Qed.


(** ** The failover guard *)

Lemma set_has_delete (x : string) (s : list string) :
  set_has x (set_delete x s) = false.
Proof.
  unfold set_has, set_delete. induction s as [| y t IH]; cbn; [reflexivity |].
  destruct (x =? y)%string eqn:E; cbn; [exact IH |]. now rewrite E.
Qed.

Lemma set_has_add (x : string) (s : list string) :
  set_has x (set_add x s) = true.
Proof.
  unfold set_add. destruct (set_has x s) eqn:E; [exact E |].
  unfold set_has. rewrite existsb_app. cbn. rewrite String.eqb_refl.
  now rewrite orb_true_r.
Qed.

Lemma release_releases (x : string) (s : ProxyFailover.t) :
  set_has x (ProxyFailover.inProgress (ProxyFailover.release x s)) = false.
Proof. apply set_has_delete. Qed.

(** C4, as stated, fails: the call that the guard rejects is a failover call
    that completes, with a failure, and when it has completed the id is
    still in the in-progress set, where the call in flight put it. *)
Lemma C4_rejected_call_leaves_the_id_in_flight :
  ~ released_after_call 1700000000002 "ella_001" None failover_in_flight.
Proof. unfold released_after_call. vm_compute. discriminate. Qed.

(** C4, amended. A failover call for an account that already has a failover
    in flight returns the failure "already in progress" and changes nothing:
    it performs no reassignment and leaves the id in the in-progress set.
    A call that is let in holds the guard exactly
    while it is suspended: if it returns before its await the id is out of the
    in-progress set, if it is suspended the id is in the set, and when it
    resumes the id is out of the set again whether the awaited update
    resolved or rejected (the exception path).  The same holds of the
    manager's [failoverAccount], which has no await. *)
Theorem C4_failover_guard (now : Z) (accountId : string)
  (reason : option string) (s : ProxyFailover.t) (m : AccountProxyManager.t) :
  (set_has accountId (ProxyFailover.inProgress s) = true ->
   ProxyFailover.handleProxyFailure_begin now accountId reason s
   = (ProxyFailover.Returned (rejected_failover accountId), s)
   /\ ProxyFailover.handleProxyFailure now accountId reason s
      = (rejected_failover accountId, s))
  /\ (set_has accountId (ProxyFailover.inProgress s) = false ->
      match ProxyFailover.handleProxyFailure_begin now accountId reason s with
      | (ProxyFailover.Returned _, s') =>
          set_has accountId (ProxyFailover.inProgress s') = false
      | (ProxyFailover.Awaiting call, s') =>
          ProxyFailover.s_accountId call = accountId
          /\ set_has accountId (ProxyFailover.inProgress s') = true
          /\ forall now' rejection s'',
               set_has accountId
                 (ProxyFailover.inProgress
                    (snd
                       (ProxyFailover.handleProxyFailure_resume now' call
                          rejection s''))) = false
      end
      /\ set_has accountId
           (ProxyFailover.inProgress
              (snd (ProxyFailover.handleProxyFailure now accountId reason s)))
         = false)
  /\ (set_has accountId (AccountProxyManager.failoverInProgress m) = true ->
      AccountProxyManager.failoverAccount accountId reason m
      = (AccountProxyManager.mk_result false accountId "" None
           (Some AccountProxyManager.already_in_progress) None, m))
  /\ (set_has accountId (AccountProxyManager.failoverInProgress m) = false ->
      set_has accountId
        (AccountProxyManager.failoverInProgress
           (snd (AccountProxyManager.failoverAccount accountId reason m)))
      = false).
Proof.
  assert (Resume : forall now' rejection s'' call,
             ProxyFailover.s_accountId call = accountId ->
             set_has accountId
               (ProxyFailover.inProgress
                  (snd
                     (ProxyFailover.handleProxyFailure_resume now' call
                        rejection s''))) = false).
  { intros now' rejection s'' call <-.
    unfold ProxyFailover.handleProxyFailure_resume.
    destruct rejection; [apply release_releases |].
    destruct (DatabaseClient.createIncident _ _). apply release_releases. }
  assert (Begin : set_has accountId (ProxyFailover.inProgress s) = false ->
            match
              ProxyFailover.handleProxyFailure_begin now accountId reason s
            with
            | (ProxyFailover.Returned _, s') =>
                set_has accountId (ProxyFailover.inProgress s') = false
            | (ProxyFailover.Awaiting call, s') =>
                ProxyFailover.s_accountId call = accountId
                /\ set_has accountId (ProxyFailover.inProgress s') = true
            end).
  { intro H. unfold ProxyFailover.handleProxyFailure_begin. rewrite H.
    cbn [ProxyFailover.db ProxyFailover.set_inProgress ProxyFailover.config].
    destruct (DatabaseClient.getAccount accountId (ProxyFailover.db s));
      [| apply release_releases].
    destruct (ProxyFailover.enableAutoFailover (ProxyFailover.config s));
      cbn [negb].
    2: { destruct (DatabaseClient.createIncident _ _).
         apply release_releases. }
    destruct (DatabaseClient.findAvailableProxy _).
    2: { destruct (DatabaseClient.createIncident _ _).
         apply release_releases. }
    destruct (DatabaseClient.updateAccountProxy _ _ _ _ _) as [[[] | e] db2].
    - split; [reflexivity |]. cbn. apply set_has_add.
    - apply release_releases. }
  split; [| split; [| split]].
  - intro H. unfold ProxyFailover.handleProxyFailure,
      ProxyFailover.handleProxyFailure_begin. now rewrite H.
  - intro H. specialize (Begin H). unfold ProxyFailover.handleProxyFailure.
    destruct (ProxyFailover.handleProxyFailure_begin now accountId reason s)
      as [[r | call] s'].
    + split; exact Begin.
    + destruct Begin as [E I]. split.
      * split; [exact E |]. split; [exact I |].
        intros now' rejection s''. now apply Resume.
      * now apply Resume.
  - intro H. unfold AccountProxyManager.failoverAccount. now rewrite H.
  - intro H. unfold AccountProxyManager.failoverAccount. rewrite H.
    destruct (AccountProxyManager.failoverAccount_body _ _ _). cbn.
    apply set_has_delete.
Qed.

(** C4 on the scenario: a second failover of [ella_001] while the first is
    suspended, and one that runs alone. *)
Lemma C4_failover_guard_witness :
  (ProxyFailover.handleProxyFailure_begin 1700000000002 "ella_001" None
     failover_in_flight
   = (ProxyFailover.Returned (rejected_failover "ella_001"), failover_in_flight)
   /\ ProxyFailover.handleProxyFailure 1700000000002 "ella_001" None
        failover_in_flight
      = (rejected_failover "ella_001", failover_in_flight))
  /\ set_has "ella_001"
       (ProxyFailover.inProgress
          (snd
             (ProxyFailover.handleProxyFailure 1700000000001 "ella_001" None
                idle_failover))) = false
  /\ AccountProxyManager.failoverAccount "ella_001" None busy_manager
     = (AccountProxyManager.mk_result false "ella_001" "" None
          (Some AccountProxyManager.already_in_progress) None, busy_manager)
  /\ set_has "ella_001"
       (AccountProxyManager.failoverInProgress
          (snd (AccountProxyManager.failoverAccount "ella_001" None idle_manager)))
     = false.
Proof.
  split; [| split; [| split]].
  - apply (proj1
             (C4_failover_guard 1700000000002 "ella_001" None failover_in_flight
                busy_manager)).
    reflexivity.
  - apply (proj1 (proj2
             (C4_failover_guard 1700000000001 "ella_001" None idle_failover
                idle_manager))).
    reflexivity.
  - apply (proj1 (proj2 (proj2
             (C4_failover_guard 1700000000002 "ella_001" None failover_in_flight
                busy_manager)))).
    reflexivity.
  - apply (proj2 (proj2 (proj2
             (C4_failover_guard 1700000000001 "ella_001" None idle_failover
                idle_manager)))).
    reflexivity.
Defined.

(** In the scenario the first call is suspended after the reassignment. *)
Example failover_in_flight_is_suspended :
  exists call,
    ProxyFailover.handleProxyFailure_begin 1700000000001 "ella_001" None
      idle_failover = (ProxyFailover.Awaiting call, failover_in_flight)
    /\ DatabaseClient.getAccount "ella_001"
         (ProxyFailover.db failover_in_flight)
       = Some (ella_account "1" "mars_002").
Proof. eexists. split; reflexivity. Qed.

(** ** Generated ids *)

Lemma to_int_not_nil (z : Z) :
  Z.to_int z <> Decimal.Pos Decimal.Nil /\ Z.to_int z <> Decimal.Neg Decimal.Nil.
Proof.
  split; intro E; pose proof (DecimalZ.of_to z) as O; rewrite E in O;
    cbn in O; subst z; discriminate E.
Qed.

Lemma num_inj (a b : Z) : num a = num b -> a = b.
Proof.
  unfold num. intro E.
  destruct (to_int_not_nil a) as [A1 A2]. destruct (to_int_not_nil b) as [B1 B2].
  pose proof (NilZero.isi _ A1 A2) as Ia. pose proof (NilZero.isi _ B1 B2) as Ib.
  rewrite E in Ia. rewrite Ia in Ib. injection Ib as Ib.
  rewrite <- (DecimalZ.of_to a), <- (DecimalZ.of_to b). now rewrite Ib.
Qed.

Lemma append_inj (p a b : string) : (p ++ a)%string = (p ++ b)%string -> a = b.
Proof.
  induction p as [| c p IH]; cbn; [trivial |]. intros [= E]. now apply IH.
Qed.

Lemma fresh_id_inj (prefix : string) (a b : nat) :
  fresh_id prefix a = fresh_id prefix b -> a = b.
Proof.
  unfold fresh_id. intro E. apply append_inj, num_inj in E. lia.
Qed.

(** ** Maps *)

Section MapFacts.
Context {A : Type} (key : A -> string).

Lemma map_get_set (v : A) (m : list A) :
  AccountProxyManager.map_get key (key v) (AccountProxyManager.map_set key v m)
  = Some v.
Proof.
  unfold AccountProxyManager.map_get.
  induction m as [| x t IH]; cbn.
  - now rewrite String.eqb_refl.
  - destruct (key x =? key v)%string eqn:E; cbn.
    + now rewrite String.eqb_refl.
    + now rewrite E.
Qed.

Lemma map_get_mutate (k : string) (f : A -> A) (m : list A) :
  (forall x, key (f x) = key x) ->
  AccountProxyManager.map_get key k (AccountProxyManager.map_mutate key k f m)
  = option_map f (AccountProxyManager.map_get key k m).
Proof.
  intro K. apply (find_update_where (fun x => (key x =? k)%string)).
  intros r E. now rewrite K.
Qed.


Lemma map_mutate_last (k : string) (f : A -> A) (m : list A) (v : A) :
  Forall (fun x => key x <> k) m -> key v = k ->
  AccountProxyManager.map_mutate key k f (m ++ [v]) = (m ++ [f v])%list.
Proof.
  intros F E. unfold AccountProxyManager.map_mutate. rewrite map_app. cbn.
  rewrite E, String.eqb_refl. f_equal.
  induction F as [| x t N F IH]; cbn; [reflexivity |].
  apply String.eqb_neq in N. now rewrite N, IH.
Qed.

Lemma In_map_set (v : A) (m : list A) :
  In v (AccountProxyManager.map_set key v m).
Proof.
  induction m as [| x t IH]; cbn; [now left |].
  destruct (key x =? key v)%string; [now left | now right].
Qed.

End MapFacts.

(** ** Onboarding *)

Section Onboarding.
Import AccountProxyWorkflows.

Lemma getWorkflow_mutate (wid : string) (f : Workflow.t -> Workflow.t)
  (s : t) :
  (forall w, Workflow.id (f w) = Workflow.id w) ->
  getWorkflow wid (mutate_workflow wid f s)
  = option_map f (getWorkflow wid s).
Proof. intro K. unfold getWorkflow. cbn. now apply map_get_mutate. Qed.

Lemma executeStep_run (now : Z) (wid stepName : string)
  (operation : M StepOutput) (s : t) (m m' : AccountProxyManager.t)
  (w : Workflow.t) (n : nat) (res : outcome StepOutput) :
  tracks wid s m w n ->
  (forall s2, manager s2 = m -> operation s2 = (res, set_manager m' s2)) ->
  exists s',
    executeStep now wid stepName operation s = (res, s')
    /\ tracks wid s' m'
         (Workflow.set_steps
            (Workflow.steps w ++ [settled now n stepName res])%list w) (S n).
Proof.
  intros (Hm & Hw & Hn & Hid & Hsteps) Hop.
  unfold executeStep, generateId. rewrite Hn.
  set (step := Step.mk (fresh_id "wf-" n) stepName StepStatus.in_progress
                 (Some now) None None None).
  set (s2 := mutate_workflow wid
               (fun w0 => Workflow.set_steps (Workflow.steps w0 ++ [step])%list w0)
               (mk (manager s) (workflows s) (S n))).
  assert (M2 : manager s2 = m) by exact Hm.
  assert (W2 : getWorkflow wid s2
               = Some (Workflow.set_steps (Workflow.steps w ++ [step])%list w)).
  { unfold s2. rewrite getWorkflow_mutate by reflexivity.
    change (getWorkflow wid (mk (manager s) (workflows s) (S n)))
      with (getWorkflow wid s).
    now rewrite Hw. }
  rewrite (Hop s2 M2).
  assert (Fresh : Forall (fun st => Step.id st <> fresh_id "wf-" n)
                    (Workflow.steps w)).
  { eapply Forall_impl; [| exact Hsteps]. cbn beta. intros st (k & Lt & E) C.
    rewrite E in C. apply fresh_id_inj in C. lia. }
  assert (Below : Forall
                    (fun st =>
                       exists k, (k < S n)%nat /\ Step.id st = fresh_id "wf-" k)
                    (Workflow.steps w ++ [settled now n stepName res])%list).
  { apply Forall_app. split.
    - eapply Forall_impl; [| exact Hsteps]. cbn beta. intros st (k & Lt & E).
      exists k. split; [lia | exact E].
    - constructor; [| constructor]. exists n. split; [lia |].
      destruct res; reflexivity. }
  destruct res as [output | e]; eexists; (split; [reflexivity |]).
  all: unfold tracks; split; [reflexivity |]; split;
    [| split; [reflexivity | split; [exact Hid | exact Below]]].
  all: unfold mutate_step; rewrite getWorkflow_mutate by reflexivity.
  all: assert (W3 : getWorkflow wid (set_manager m' s2) = getWorkflow wid s2)
         by reflexivity.
  all: rewrite W3, W2; cbn [option_map Workflow.steps Workflow.set_steps];
    rewrite (map_mutate_last Step.id (fresh_id "wf-" n) _ _ step Fresh eq_refl);
    reflexivity.
Qed.

Lemma set_manager_same (s : t) : set_manager (manager s) s = s.
Proof. now destruct s. Qed.


End Onboarding.

Section OnboardingFailure.
Import AccountProxyWorkflows.





End OnboardingFailure.


(** ** Consistency of the store *)

Lemma consistent_Consistent (db : DatabaseClient.t) :
  consistent db = true -> Consistent db.
Proof.
  unfold consistent, Consistent. rewrite !andb_true_iff, !forallb_forall.
  intros [[[[U1 U2] K3] K4] K5].
  split; [now apply unique_NoDup |]. split; [now apply unique_NoDup |].
  split; [| split].
  - intros p I. specialize (K3 p I).
    apply andb_true_iff in K3. destruct K3 as [E L].
    apply Z.eqb_eq in E. apply Z.leb_le in L. now split.
  - intros a I. specialize (K4 a I).
    destruct (active_mappings (Account.id a) db) as [| m [| m' t]];
      try discriminate.
    exists m. split; [reflexivity | now apply String.eqb_eq].
  - intros m I. specialize (K5 m I). apply existsb_exists in K5.
    destruct K5 as (a & Ia & E). exists a. split; [exact Ia |].
    now apply String.eqb_eq.
Qed.

Lemma NoDup_key_inj {A : Type} (key : A -> string) (l : list A) (x y : A) :
  NoDup (map key l) -> In x l -> In y l -> key x = key y -> x = y.
Proof.
  intros D Ix Iy E.
  pose proof (find_by_key_unique key l x D Ix) as Fx.
  pose proof (find_by_key_unique key l y D Iy) as Fy.
  rewrite E in Fx. congruence.
Qed.

(** The consistency of the store only reads the accounts, the mappings and
    the id, count and capacity of the proxies. *)
Lemma Consistent_frame (db db' : DatabaseClient.t) :
  DatabaseClient.accounts db' = DatabaseClient.accounts db ->
  DatabaseClient.mappings db' = DatabaseClient.mappings db ->
  map capacity_of (DatabaseClient.proxies db')
  = map capacity_of (DatabaseClient.proxies db) ->
  Consistent db -> Consistent db'.
Proof.
  intros Ea Em Ep (K1 & K2 & K3 & K4 & K5).
  unfold Consistent, bound_accounts, active_mappings in *.
  rewrite Ea, Em.
  split; [exact K1 |]. split; [| split; [| split; assumption]].
  - replace (map Proxy.id (DatabaseClient.proxies db'))
      with (map (fun c => fst (fst c)) (map capacity_of (DatabaseClient.proxies db')))
      by (rewrite map_map; reflexivity).
    rewrite Ep, map_map. exact K2.
  - intros p' I. apply (in_map capacity_of) in I. rewrite Ep in I.
    apply in_map_iff in I. destruct I as (p & E & I).
    injection E as E1 E2 E3. rewrite <- E1, <- E2, <- E3. now apply K3.
Qed.

Lemma update_where_capacity (sel : Proxy.t -> bool) (f : Proxy.t -> Proxy.t)
  (rows : list Proxy.t) :
  (forall p, capacity_of (f p) = capacity_of p) ->
  map capacity_of (DatabaseClient.update_where sel f rows)
  = map capacity_of rows.
Proof.
  intro K. unfold DatabaseClient.update_where. rewrite map_map.
  apply map_ext. intro p. destruct (sel p); [apply K | reflexivity].
Qed.

Lemma Consistent_updateProxy_status (id : string) (status : ProxyStatus.t)
  (db : DatabaseClient.t) :
  Consistent db ->
  Consistent
    (snd
       (DatabaseClient.updateProxy id
          (Proxy.mk_updates (Some status) None None None None) db)).
Proof.
  apply Consistent_frame; try reflexivity.
  cbn. now apply update_where_capacity.
Qed.

Lemma Consistent_createIncident (d : Incident.data) (db : DatabaseClient.t) :
  Consistent db -> Consistent (snd (DatabaseClient.createIncident d db)).
Proof. apply Consistent_frame; reflexivity. Qed.

Lemma Consistent_resolveIncident (now : Z) (id res by_ : string)
  (db : DatabaseClient.t) :
  Consistent db -> Consistent (DatabaseClient.resolveIncident now id res by_ db).
Proof. apply Consistent_frame; reflexivity. Qed.

Lemma In_update_where {A : Type} (sel : A -> bool) (f : A -> A)
  (rows : list A) (r' : A) :
  In r' (DatabaseClient.update_where sel f rows) ->
  exists r, In r rows /\ r' = if sel r then f r else r.
Proof.
  unfold DatabaseClient.update_where. intro I. apply in_map_iff in I.
  destruct I as (r & E & I). now exists r.
Qed.

Lemma NoDup_snoc (k : string) (l : list string) :
  NoDup l -> ~ In k l -> NoDup (l ++ [k]).
Proof.
  intros D N. eapply Permutation_NoDup; [apply Permutation_cons_append |].
  now constructor.
Qed.

Lemma existsb_key_false {A : Type} (key : A -> string) (k : string)
  (l : list A) :
  existsb (fun r => (key r =? k)%string) l = false -> ~ In k (map key l).
Proof.
  intros E I. apply in_map_iff in I. destruct I as (r & <- & I).
  assert (T : existsb (fun r0 => (key r0 =? key r)%string) l = true).
  { apply existsb_exists. exists r. split; [exact I | apply String.eqb_refl]. }
  congruence.
Qed.

Lemma key_taken_none (config : AccountProxyMapping.AccountConfig)
  (db : DatabaseClient.t) :
  key_taken config db = None ->
  ~ In (AccountProxyMapping.id config)
      (map Account.id (DatabaseClient.accounts db)).
Proof.
  unfold key_taken. intro K. apply existsb_key_false.
  destruct (existsb
              (fun r =>
                 (Account.twitterHandle r
                  =? AccountProxyMapping.twitterHandle config)%string)
              (DatabaseClient.accounts db)); [discriminate |].
  destruct (existsb _ (DatabaseClient.accounts db)); [discriminate | reflexivity].
Qed.

(** A successful creation keeps the store consistent. *)
Lemma Consistent_fully_created (now : Z)
  (config : AccountProxyMapping.AccountConfig) (proxy : Proxy.t)
  (db db' : DatabaseClient.t) :
  Consistent db ->
  DatabaseClient.findAvailableProxy db = Some proxy ->
  key_taken config db = None ->
  fully_created now config proxy db db' ->
  Consistent db'
  /\ active_mappings (AccountProxyMapping.id config) db'
     = [Mapping.mk (fresh_id "uuid-" (DatabaseClient.uuids db))
          (AccountProxyMapping.id config) (Proxy.id proxy) now true None None
          None].
Proof.
  intros (K1 & K2 & K3 & K4 & K5) F KT (Ea & Ep & Em & _).
  pose proof (db_findAvailableProxy_rule db) as R. rewrite F in R.
  destruct R as (Iproxy & [_ Cap] & _).
  apply key_taken_none in KT.
  set (new := onboarded now config (Proxy.id proxy)) in *.
  assert (Bound : forall k,
             bound_accounts k db'
             = (bound_accounts k db
                ++ if (Proxy.id proxy =? k)%string then [new] else [])%list).
  { intro k. unfold bound_accounts. rewrite Ea, filter_app. reflexivity. }
  assert (Active : forall k,
             active_mappings k db'
             = (active_mappings k db
                ++ if (AccountProxyMapping.id config =? k)%string
                   then [Mapping.mk (fresh_id "uuid-" (DatabaseClient.uuids db))
                           (AccountProxyMapping.id config) (Proxy.id proxy) now
                           true None None None]
                   else [])%list).
  { intro k. unfold active_mappings. rewrite Em, filter_app. cbn.
    now destruct (AccountProxyMapping.id config =? k)%string. }
  assert (None_yet : active_mappings (AccountProxyMapping.id config) db = []).
  { unfold active_mappings.
    destruct (filter _ (DatabaseClient.mappings db)) as [| m t] eqn:Fm;
      [reflexivity |].
    assert (Im : In m (filter
                         (fun m0 =>
                            (Mapping.accountId m0
                             =? AccountProxyMapping.id config)%string
                            && Mapping.isActive m0)
                         (DatabaseClient.mappings db)))
      by (rewrite Fm; now left).
    apply filter_In in Im. destruct Im as [Im Pm].
    apply andb_true_iff in Pm. destruct Pm as [Pm _].
    apply String.eqb_eq in Pm.
    destruct (K5 m Im) as (a & Ia & Ha).
    exfalso. apply KT. rewrite <- Pm, <- Ha. now apply in_map. }
  split; [| now rewrite Active, String.eqb_refl, None_yet].
  unfold Consistent. split; [| split; [| split; [| split]]].
  - rewrite Ea, map_app. cbn. now apply NoDup_snoc.
  - rewrite Ep, update_where_keys by reflexivity. exact K2.
  - intros p' I. rewrite Ep in I. apply In_update_where in I.
    destruct I as (p & I & ->). destruct (K3 p I) as [C L].
    destruct (String.eqb_spec (Proxy.id p) (Proxy.id proxy)) as [E | E].
    + assert (p = proxy) by (eapply NoDup_key_inj; eassumption). subst p.
      cbn. rewrite Bound, String.eqb_refl, length_app. cbn. lia.
    + rewrite Bound. apply not_eq_sym in E. apply String.eqb_neq in E.
      rewrite E, app_nil_r. now split.
  - intros a I. rewrite Ea in I. apply in_app_or in I.
    destruct I as [I | [<- | []]].
    + destruct (K4 a I) as (m & A & P). exists m. split; [| exact P].
      rewrite Active, A.
      destruct (String.eqb_spec (AccountProxyMapping.id config) (Account.id a))
        as [E | E]; [| reflexivity].
      exfalso. apply KT. rewrite E. now apply in_map.
    + eexists. split.
      * rewrite Active. cbn [new onboarded Account.id].
        now rewrite String.eqb_refl, None_yet.
      * reflexivity.
  - intros m I. rewrite Em in I. apply in_app_or in I. rewrite Ea.
    destruct I as [I | [<- | []]].
    + destruct (K5 m I) as (a & Ia & Ha). exists a. split; [| exact Ha].
      apply in_or_app. now left.
    + exists new. split; [| reflexivity]. apply in_or_app. right. now left.
Qed.

Lemma Consistent_createAccount (now : Z)
  (config : AccountProxyMapping.AccountConfig) (db : DatabaseClient.t) :
  Consistent db ->
  Consistent (snd (AccountProxyMapping.createAccount now config db)).
Proof.
  intro K. pose proof (mapping_createAccount_outcome now config db) as O.
  destruct (AccountProxyMapping.createAccount now config db) as [r db'].
  destruct O as [(proxy & F & KT & _ & FC) | [-> _]]; [| exact K].
  eapply (proj1 (Consistent_fully_created _ _ _ _ _ K F KT FC)).
Qed.

(** ** Moving an account *)

Lemma updateAccountProxy_effect (now : Z) (accountId new : string)
  (reason : option string) (db : DatabaseClient.t) :
  match DatabaseClient.getAccount accountId db with
  | Some account =>
      exists db',
        DatabaseClient.updateAccountProxy now accountId new reason db
        = (Ret tt, db')
        /\ reassigned now accountId (Account.proxyId account) new reason db db'
  | None =>
      DatabaseClient.updateAccountProxy now accountId new reason db
      = (Throw ("Account " ++ accountId ++ " not found")%string, db)
  end.
Proof.
  unfold DatabaseClient.updateAccountProxy.
  destruct (DatabaseClient.getAccount accountId db) as [account |];
    [| reflexivity].
  eexists. split; [reflexivity |]. repeat split.
Qed.

Lemma update_where_none {A : Type} (sel : A -> bool) (f : A -> A)
  (rows : list A) :
  (forall r, In r rows -> sel r = false) ->
  DatabaseClient.update_where sel f rows = rows.
Proof.
  intro N. induction rows as [| h t IH]; [reflexivity |]. cbn.
  rewrite (N h (or_introl eq_refl)). f_equal. apply IH.
  intros r I. apply N. now right.
Qed.

Lemma filter_none {A : Type} (g : A -> bool) (l : list A) :
  (forall x, In x l -> g x = false) -> filter g l = [].
Proof.
  intro N. induction l as [| h t IH]; [reflexivity |]. cbn.
  rewrite (N h (or_introl eq_refl)). apply IH. intros x I. apply N. now right.
Qed.

Lemma filter_update_where_other {A : Type} (g sel : A -> bool) (f : A -> A)
  (l : list A) :
  (forall x, sel x = true -> g x = false /\ g (f x) = false) ->
  filter g (DatabaseClient.update_where sel f l) = filter g l.
Proof.
  intro K. induction l as [| h t IH]; [reflexivity |]. cbn.
  destruct (sel h) eqn:E.
  - destruct (K h E) as [-> ->]. exact IH.
  - destruct (g h); [f_equal |]; exact IH.
Qed.

(** The number of accounts bound to [k] once [a0] is bound to [new]. *)
Lemma count_after_rebind (l : list Account.t) (a0 : Account.t)
  (new k : string) :
  NoDup (map Account.id l) -> In a0 l ->
  Z.of_nat
    (List.length
       (filter (fun a => (Account.proxyId a =? k)%string)
          (DatabaseClient.update_where
             (fun a => (Account.id a =? Account.id a0)%string)
             (Account.set_proxyId new) l)))
  = Z.of_nat (List.length (filter (fun a => (Account.proxyId a =? k)%string) l))
    - (if (Account.proxyId a0 =? k)%string then 1 else 0)
    + (if (new =? k)%string then 1 else 0).
Proof.
  induction l as [| h t IH]; intros D I; [destruct I |].
  inversion D as [| ? ? N D']; subst.
  cbn [DatabaseClient.update_where map filter].
  destruct (String.eqb_spec (Account.id h) (Account.id a0)) as [E | E].
  - assert (a0 = h).
    { symmetry. eapply (NoDup_key_inj Account.id (h :: t)); eauto.
      now left. }
    subst a0.
    change (map (fun r => if (Account.id r =? Account.id h)%string
                          then Account.set_proxyId new r else r) t)
      with (DatabaseClient.update_where
              (fun a => (Account.id a =? Account.id h)%string)
              (Account.set_proxyId new) t).
    rewrite update_where_none.
    2: { intros r Ir. apply String.eqb_neq. intro C. apply N. rewrite <- C.
         now apply in_map. }
    cbn [Account.proxyId Account.set_proxyId].
    destruct (new =? k)%string; destruct (Account.proxyId h =? k)%string;
      cbn [List.length]; lia.
  - destruct I as [-> | I]; [contradiction |].
    specialize (IH D' I). unfold DatabaseClient.update_where in IH.
    destruct (Account.proxyId h =? k)%string; cbn [List.length]; lia.
Qed.

(** A reassignment onto a proxy with a free slot (or onto the proxy the
    account is already on) keeps the store consistent; it deactivates the one
    active mapping of the account and leaves the appended mapping as its only
    active one. *)
Lemma Consistent_reassigned (now : Z) (accountId new : string)
  (reason : option string) (db db' : DatabaseClient.t) (a0 : Account.t) :
  Consistent db ->
  DatabaseClient.getAccount accountId db = Some a0 ->
  (forall q,
      In q (DatabaseClient.proxies db) -> Proxy.id q = new ->
      new <> Account.proxyId a0 ->
      Proxy.assignedAccounts q < Proxy.maxAccounts q) ->
  reassigned now accountId (Account.proxyId a0) new reason db db' ->
  Consistent db'
  /\ active_mappings accountId db'
     = [new_binding now accountId (Account.proxyId a0) new reason db]
  /\ exists m,
       filter
         (fun m => old_binding accountId (Account.proxyId a0) m
                   && Mapping.isActive m) (DatabaseClient.mappings db) = [m]
       /\ active_mappings accountId db = [m].
Proof.
  intros (K1 & K2 & K3 & K4 & K5) G Cap (Ea & Ep & Em & _).
  destruct (find_by_key_key _ _ _ _ G) as [Eid I0].
  set (old := Account.proxyId a0) in *.
  destruct (K4 a0 I0) as (m0 & A0 & P0). rewrite Eid in A0.
  (* the mappings of the account after the deactivation *)
  assert (Gone : filter
                   (fun m => (Mapping.accountId m =? accountId)%string
                             && Mapping.isActive m)
                   (DatabaseClient.update_where (old_binding accountId old)
                      Mapping.deactivate (DatabaseClient.mappings db)) = []).
  { apply filter_none. intros x Ix. apply In_update_where in Ix.
    destruct Ix as (r & Ir & ->).
    destruct (old_binding accountId old r) eqn:S.
    - cbn. apply andb_false_r.
    - destruct ((Mapping.accountId r =? accountId)%string && Mapping.isActive r)
        eqn:Gr; [| reflexivity].
      assert (Im : In r (active_mappings accountId db))
        by (apply filter_In; now split).
      rewrite A0 in Im. destruct Im as [<- | []].
      apply andb_true_iff in Gr. destruct Gr as [Gr _].
      unfold old_binding in S. rewrite Gr, P0 in S. cbn in S.
      now rewrite String.eqb_refl in S. }
  assert (Active_self : active_mappings accountId db'
                        = [new_binding now accountId old new reason db]).
  { unfold active_mappings. rewrite Em, filter_app, Gone. cbn.
    now rewrite String.eqb_refl. }
  assert (Active_other : forall k,
             k <> accountId -> active_mappings k db' = active_mappings k db).
  { intros k N. unfold active_mappings. rewrite Em, filter_app. cbn.
    apply not_eq_sym in N. apply String.eqb_neq in N. rewrite N. cbn.
    rewrite app_nil_r. apply filter_update_where_other.
    intros x S. unfold old_binding in S. apply andb_true_iff in S.
    destruct S as [S _]. apply String.eqb_eq in S. cbn. rewrite S, N.
    now split. }
  assert (Count : forall k,
             Z.of_nat (List.length (bound_accounts k db'))
             = Z.of_nat (List.length (bound_accounts k db))
               - (if (old =? k)%string then 1 else 0)
               + (if (new =? k)%string then 1 else 0)).
  { intro k. unfold bound_accounts. rewrite Ea, <- Eid.
    now apply count_after_rebind. }
  assert (Some_bound : 1 <= Z.of_nat (List.length (bound_accounts old db))).
  { assert (Ib : In a0 (bound_accounts old db)).
    { apply filter_In. split; [exact I0 | apply String.eqb_refl]. }
    destruct (bound_accounts old db); [destruct Ib | cbn; lia]. }
  split; [| split; [exact Active_self |]].
  - unfold Consistent. split; [| split; [| split; [| split]]].
    + rewrite Ea, update_where_keys by reflexivity. exact K1.
    + rewrite Ep, !update_where_keys by reflexivity. exact K2.
    + intros p' I. rewrite Ep in I. apply In_update_where in I.
      destruct I as (p1 & I1 & ->). apply In_update_where in I1.
      destruct I1 as (p & I & ->). destruct (K3 p I) as [C L].
      assert (Idp : forall b : bool,
                 Proxy.id (if b then one_less_account p else p) = Proxy.id p)
        by (now intros []).
      rewrite Idp.
      replace (Proxy.id
                 (if (Proxy.id p =? new)%string
                  then one_more_account
                         (if (Proxy.id p =? old)%string
                          then one_less_account p else p)
                  else if (Proxy.id p =? old)%string
                       then one_less_account p else p))
        with (Proxy.id p)
        by (destruct (Proxy.id p =? new)%string;
            destruct (Proxy.id p =? old)%string; reflexivity).
      rewrite (Count (Proxy.id p)).
      rewrite (String.eqb_sym old), (String.eqb_sym new).
      destruct (String.eqb_spec (Proxy.id p) new) as [En | En];
        destruct (String.eqb_spec (Proxy.id p) old) as [Eo | Eo];
        cbn [one_more_account one_less_account Proxy.assignedAccounts
             Proxy.maxAccounts Proxy.set_assignedAccounts].
      * rewrite Eo in C |- *. lia.
      * assert (Proxy.assignedAccounts p < Proxy.maxAccounts p).
        { apply Cap; [exact I | exact En |]. congruence. }
        lia.
      * rewrite Eo in C |- *. lia.
      * lia.
    + intros a' I. rewrite Ea in I. apply In_update_where in I.
      destruct I as (a & I & ->).
      destruct (String.eqb_spec (Account.id a) accountId) as [E | E].
      * cbn [Account.id Account.set_proxyId]. rewrite E, Active_self.
        eexists. split; reflexivity.
      * rewrite (Active_other _ E). now apply K4.
    + intros m I. rewrite Em in I. apply in_app_or in I.
      assert (Ids : forall a,
                 In a (DatabaseClient.accounts db) ->
                 exists a',
                   In a' (DatabaseClient.accounts db')
                   /\ Account.id a' = Account.id a).
      { intros a Ia. rewrite Ea.
        exists (if (Account.id a =? accountId)%string
                then Account.set_proxyId new a else a).
        split.
        - unfold DatabaseClient.update_where. apply in_map_iff.
          now exists a.
        - now destruct (Account.id a =? accountId)%string. }
      destruct I as [I | [<- | []]].
      * apply In_update_where in I. destruct I as (r & Ir & ->).
        destruct (K5 r Ir) as (a & Ia & Ha). destruct (Ids a Ia) as (a' & Ia' & Ha').
        exists a'. split; [exact Ia' |]. rewrite Ha', Ha.
        now destruct (old_binding accountId old r).
      * destruct (Ids a0 I0) as (a' & Ia' & Ha'). exists a'.
        split; [exact Ia' |]. now rewrite Ha', Eid.
  - exists m0. split; [| exact A0].
    rewrite <- A0. unfold active_mappings. apply filter_ext_in.
    intros x Ix. unfold old_binding.
    destruct ((Mapping.accountId x =? accountId)%string) eqn:Ex; cbn;
      [| reflexivity].
    destruct (Mapping.isActive x) eqn:Ax; [| now rewrite andb_false_r].
    assert (Im : In x (active_mappings accountId db)).
    { apply filter_In. split; [exact Ix |]. now rewrite Ex, Ax. }
    rewrite A0 in Im. destruct Im as [<- | []].
    rewrite P0. fold old. now rewrite String.eqb_refl.
Qed.

(** The outcomes of [moveAccount] of the mapping engine. *)
Lemma moveAccount_outcome (now : Z) (accountId targetProxyId : string)
  (reason : option string) (db : DatabaseClient.t) :
  let (result, db') :=
    AccountProxyMapping.moveAccount now accountId targetProxyId reason db in
  (exists account target,
      DatabaseClient.getAccount accountId db = Some account
      /\ DatabaseClient.getProxy targetProxyId db = Some target
      /\ Proxy.assignedAccounts target < Proxy.maxAccounts target
      /\ AccountProxyMapping.success result = true
      /\ reassigned now accountId (Account.proxyId account) targetProxyId
           (Some (or_default reason "manual_move")) db db')
  \/ (AccountProxyMapping.success result = false /\ db' = db).
Proof.
  unfold AccountProxyMapping.moveAccount.
  pose proof (updateAccountProxy_effect now accountId targetProxyId
                (Some (or_default reason "manual_move")) db) as U.
  destruct (DatabaseClient.getAccount accountId db) as [account |];
    [| now right].
  destruct (DatabaseClient.getProxy targetProxyId db) as [target |];
    [| now right].
  destruct (Z.leb_spec (Proxy.maxAccounts target) (Proxy.assignedAccounts target))
    as [L | L]; [now right |].
  destruct U as (db' & -> & R). left. exists account, target.
  repeat split; try assumption; apply R.
Qed.

Lemma Consistent_moveAccount (now : Z) (accountId targetProxyId : string)
  (reason : option string) (db : DatabaseClient.t) :
  Consistent db ->
  Consistent
    (snd (AccountProxyMapping.moveAccount now accountId targetProxyId reason db)).
Proof.
  intro K. pose proof (moveAccount_outcome now accountId targetProxyId reason db)
    as O.
  destruct (AccountProxyMapping.moveAccount now accountId targetProxyId reason db)
    as [r db'].
  destruct O as [(account & target & G & Gp & Cap & _ & R) | [_ ->]];
    [| exact K].
  eapply Consistent_reassigned; [exact K | exact G | | exact R].
  intros q Iq Eq _. destruct (find_by_key_key _ _ _ _ Gp) as [Et It].
  destruct K as (_ & K2 & _).
  assert (q = target) by (eapply NoDup_key_inj; eauto; congruence).
  now subst q.
Qed.

(** ** Failover keeps the store consistent *)

Lemma Consistent_handleProxyFailure (now : Z) (accountId : string)
  (reason : option string) (s : ProxyFailover.t) :
  Consistent (ProxyFailover.db s) ->
  Consistent
    (ProxyFailover.db
       (snd (ProxyFailover.handleProxyFailure now accountId reason s))).
Proof.
  intro K. unfold ProxyFailover.handleProxyFailure,
    ProxyFailover.handleProxyFailure_begin.
  destruct (set_has accountId (ProxyFailover.inProgress s)); [exact K |].
  cbn [ProxyFailover.db ProxyFailover.set_inProgress ProxyFailover.config].
  destruct (DatabaseClient.getAccount accountId (ProxyFailover.db s))
    as [account |] eqn:G; [| exact K].
  destruct (ProxyFailover.enableAutoFailover (ProxyFailover.config s));
    cbn [negb].
  2: { pose proof (Consistent_createIncident
                     (Incident.mk_data IncidentType.proxy_failure Severity.high
                        (Some accountId) (Some (Account.proxyId account))
                        ("Proxy failure detected for " ++ accountId)%string
                        (Some (or_default reason "Auto-failover disabled"))
                        None None IncidentStatus.open None)
                     (ProxyFailover.db s) K) as KI.
       destruct (DatabaseClient.createIncident _ (ProxyFailover.db s)).
       exact KI. }
  set (db1 := snd
                (DatabaseClient.updateProxy (Account.proxyId account)
                   (Proxy.mk_updates (Some ProxyStatus.failed) None None None
                      None) (ProxyFailover.db s))).
  assert (K1 : Consistent db1) by now apply Consistent_updateProxy_status.
  pose proof (db_findAvailableProxy_rule db1) as R.
  destruct (DatabaseClient.findAvailableProxy db1) as [newProxy |].
  2: { match goal with
       | |- context [DatabaseClient.createIncident ?d db1] =>
           pose proof (Consistent_createIncident d db1 K1) as KI;
           destruct (DatabaseClient.createIncident d db1)
       end. exact KI. }
  destruct R as (In1 & [_ Cap] & _).
  pose proof (updateAccountProxy_effect now accountId (Proxy.id newProxy)
                (Some (or_default reason "proxy_failure")) db1) as U.
  change (DatabaseClient.getAccount accountId db1)
    with (DatabaseClient.getAccount accountId (ProxyFailover.db s)) in U.
  rewrite G in U. destruct U as (db2 & -> & Re).
  assert (K2 : Consistent db2).
  { eapply Consistent_reassigned; [exact K1 | exact G | | exact Re].
    intros q Iq Eq _. destruct K1 as (_ & D & _).
    assert (q = newProxy) by (eapply NoDup_key_inj; eauto).
    now subst q. }
  unfold ProxyFailover.handleProxyFailure_resume.
  cbn [ProxyFailover.db ProxyFailover.set_db ProxyFailover.s_accountId
       ProxyFailover.s_oldProxyId ProxyFailover.s_newProxy
       ProxyFailover.s_reason].
  match goal with
  | |- context [DatabaseClient.createIncident ?d db2] =>
      pose proof (Consistent_createIncident d db2 K2) as KI;
      destruct (DatabaseClient.createIncident d db2) as [incident db3]
  end.
  cbn [snd ProxyFailover.db ProxyFailover.release ProxyFailover.set_db
       ProxyFailover.set_inProgress] in *.
  now apply Consistent_resolveIncident.
Qed.

Lemma Consistent_failover_each (now : Z) (reason : option string)
  (accounts : list Account.t) :
  forall results s,
    Consistent (ProxyFailover.db s) ->
    Consistent
      (ProxyFailover.db
         (snd (ProxyFailover.failover_each now reason accounts results s))).
Proof.
  induction accounts as [| account rest IH]; intros results s K; [exact K |].
  cbn [ProxyFailover.failover_each].
  pose proof (Consistent_handleProxyFailure now (Account.id account) reason s K)
    as K1.
  destruct (ProxyFailover.handleProxyFailure now (Account.id account) reason s)
    as [result s1].
  now apply IH.
Qed.

Lemma Consistent_bulkFailover (now : Z) (fromProxyId : string)
  (reason : option string) (s : ProxyFailover.t) :
  Consistent (ProxyFailover.db s) ->
  Consistent
    (ProxyFailover.db
       (snd (ProxyFailover.bulkFailover now fromProxyId reason s))).
Proof.
  intro K. unfold ProxyFailover.bulkFailover.
  match goal with
  | |- context [ProxyFailover.failover_each ?n ?r ?a ?rs ?s1] =>
      pose proof (Consistent_failover_each n r a rs s1) as KF;
      destruct (ProxyFailover.failover_each n r a rs s1)
  end.
  apply KF. now apply Consistent_updateProxy_status.
Qed.

(** ** Validation and rebalancing *)

Lemma validateMappings_consistent (db : DatabaseClient.t) :
  Consistent db ->
  AccountProxyMapping.isValid (AccountProxyMapping.validateMappings db) = true.
Proof.
  intros (_ & _ & K3 & _). unfold AccountProxyMapping.validateMappings.
  cbn [AccountProxyMapping.isValid].
  rewrite filter_none; [reflexivity |].
  intros v I. apply in_map_iff in I. destruct I as (p & <- & I).
  apply stable_sort_In in I. destruct (K3 p I) as [C L].
  unfold AccountProxyMapping.validate_proxy.
  cbn [AccountProxyMapping.v_isValid]. apply negb_false_iff, Z.leb_le.
  unfold DatabaseClient.getAccountsByProxy. rewrite stable_sort_length.
  unfold bound_accounts in C. lia.
Qed.

(** In a consistent store there is nothing to rebalance. *)
Lemma rebalanceMappings_consistent (now : Z) (db : DatabaseClient.t) :
  Consistent db ->
  AccountProxyMapping.rebalanceMappings now db
  = (Ret (AccountProxyMapping.mk_rebalance true [] "No rebalancing needed"), db).
Proof.
  intro K. unfold AccountProxyMapping.rebalanceMappings.
  now rewrite (validateMappings_consistent db K).
Qed.

(** ** The invariants of the store *)

Lemma Consistent_perform (s : ProxyFailover.t) (op : operation) :
  Consistent (ProxyFailover.db s) ->
  Consistent (ProxyFailover.db (perform s op)).
Proof.
  intro K. destruct op as [now config | now a t r | now a r | now p r | now];
    cbn [perform ProxyFailover.db ProxyFailover.set_db].
  - now apply Consistent_createAccount.
  - now apply Consistent_moveAccount.
  - now apply Consistent_handleProxyFailure.
  - now apply Consistent_bulkFailover.
  - now rewrite (rebalanceMappings_consistent now _ K).
Qed.

Lemma Consistent_perform_all (ops : list operation) :
  forall s,
    Consistent (ProxyFailover.db s) ->
    Consistent (ProxyFailover.db (perform_all ops s)).
Proof.
  induction ops as [| op rest IH]; intros s K; [exact K |].
  cbn [perform_all fold_left]. apply IH. now apply Consistent_perform.
Qed.

Lemma Consistent_capacity (db : DatabaseClient.t) :
  Consistent db -> capacity_invariant db.
Proof.
  intros (_ & _ & K3 & K4 & _) p I. destruct (K3 p I) as [C L].
  assert (Live : live_accounts (Proxy.id p) db = bound_accounts (Proxy.id p) db).
  { unfold live_accounts. apply forallb_filter_id. apply forallb_forall.
    intros a Ia. apply filter_In in Ia. destruct Ia as [Ia Ea].
    apply String.eqb_eq in Ea. destruct (K4 a Ia) as (m & -> & P).
    cbn. now rewrite P, Ea, String.eqb_refl. }
  rewrite Live. lia.
Qed.

Lemma Consistent_one_active (db : DatabaseClient.t) :
  Consistent db -> one_active_mapping db.
Proof.
  intros (_ & _ & _ & K4 & _) a I. now destruct (K4 a I) as (m & -> & _).
Qed.

(** The capacity invariant in the store: from a consistent store, after any
    sequence of account creations, moves, failovers, bulk failovers and
    rebalancings, every proxy has [0 <= assignedAccounts <= maxAccounts] and
    [assignedAccounts] is the number of accounts bound to it with an active
    mapping. *)
Lemma store_capacity_invariant (ops : list operation) (s : ProxyFailover.t) :
  consistent (ProxyFailover.db s) = true ->
  capacity_invariant (ProxyFailover.db (perform_all ops s)).
Proof.
  intro K. apply Consistent_capacity, Consistent_perform_all.
  now apply consistent_Consistent.
Qed.

Lemma or_default_or_null (s : option string) (d : string) :
  d <> "" -> or_null (Some (or_default s d)) = Some (or_default s d).
Proof.
  intro N. apply or_null_key. unfold or_default.
  destruct s as [x |]; [| exact N].
  destruct (String.eqb_spec x ""); assumption.
Qed.

(** C8. From a consistent store, after any sequence of account creations,
    moves, failovers, bulk failovers and rebalancings, every account has
    exactly one active mapping.  In the store so reached, a [moveAccount]
    that succeeds deactivates exactly one mapping that was active, the one
    of the account, and appends exactly one mapping, active, which carries
    the previous proxy id (null when that id is the empty string) and the
    reason, and which is then the only active mapping of the account; a
    [createAccount] that succeeds appends exactly one mapping, active, the
    only active mapping of the new account. *)
Theorem C8_one_active_mapping (ops : list operation) (s : ProxyFailover.t) :
  consistent (ProxyFailover.db s) = true ->
  let db := ProxyFailover.db (perform_all ops s) in
  one_active_mapping db
  /\ (forall now accountId targetProxyId reason,
         let (result, db') :=
           AccountProxyMapping.moveAccount now accountId targetProxyId reason db
         in
         AccountProxyMapping.success result = true ->
         exists account previous,
           let old := Account.proxyId account in
           let added :=
             new_binding now accountId old targetProxyId
               (Some (or_default reason "manual_move")) db in
           DatabaseClient.getAccount accountId db = Some account
           /\ filter
                (fun m => old_binding accountId old m && Mapping.isActive m)
                (DatabaseClient.mappings db) = [previous]
           /\ active_mappings accountId db = [previous]
           /\ DatabaseClient.mappings db'
              = (DatabaseClient.update_where (old_binding accountId old)
                   Mapping.deactivate (DatabaseClient.mappings db)
                 ++ [added])%list
           /\ Mapping.isActive added = true
           /\ Mapping.proxyId added = targetProxyId
           /\ Mapping.previousProxyId added = or_null (Some old)
           /\ Mapping.reassignmentReason added
              = Some (or_default reason "manual_move")
           /\ active_mappings accountId db' = [added]
           /\ one_active_mapping db')
  /\ (forall now config,
         let (result, db') := AccountProxyMapping.createAccount now config db in
         AccountProxyMapping.success result = true ->
         exists proxy,
           let added :=
             Mapping.mk (fresh_id "uuid-" (DatabaseClient.uuids db))
               (AccountProxyMapping.id config) (Proxy.id proxy) now true None
               None None in
           DatabaseClient.mappings db'
           = (DatabaseClient.mappings db ++ [added])%list
           /\ active_mappings (AccountProxyMapping.id config) db' = [added]
           /\ one_active_mapping db').
Proof.
  intros C db.
  assert (K : Consistent db).
  { apply Consistent_perform_all. now apply consistent_Consistent. }
  split; [now apply Consistent_one_active |]. split.
  - intros now accountId targetProxyId reason.
    pose proof (moveAccount_outcome now accountId targetProxyId reason db) as O.
    pose proof (Consistent_moveAccount now accountId targetProxyId reason db K)
      as K'.
    destruct (AccountProxyMapping.moveAccount now accountId targetProxyId reason
                db) as [result db'].
    cbn [snd] in K'. intro S.
    destruct O as [(account & target & G & Gp & Cap & _ & R) | [F _]];
      [| congruence].
    destruct (Consistent_reassigned now accountId targetProxyId
                (Some (or_default reason "manual_move")) db db' account K G)
      as (_ & A & previous & Fp & Ap); [| exact R |].
    { intros q Iq Eq _. destruct (find_by_key_key _ _ _ _ Gp) as [Et It].
      destruct K as (_ & K2 & _).
      assert (q = target) by (eapply NoDup_key_inj; eauto; congruence).
      now subst q. }
    exists account, previous. cbn zeta.
    destruct R as (_ & _ & Em & _).
    repeat (split; [first [assumption | reflexivity] |]).
    split; [apply or_default_or_null; discriminate |].
    split; [exact A | now apply Consistent_one_active].
  - intros now config.
    pose proof (mapping_createAccount_outcome now config db) as O.
    destruct (AccountProxyMapping.createAccount now config db) as [result db'].
    intro S.
    destruct O as [(proxy & F & KT & _ & FC) | [_ [[_ ->] | (? & ? & _ & _ & ->)]]];
      [| discriminate S | discriminate S].
    destruct (Consistent_fully_created now config proxy db db' K F KT FC)
      as [K' A].
    exists proxy. cbn zeta. destruct FC as (_ & _ & Em & _).
    split; [exact Em |]. split; [exact A | now apply Consistent_one_active].
Qed.

(** C8 on the scenario: after a run of the five kinds of operations, and for
    a move of [ella_001] back to [mars_001]. *)
Lemma C8_one_active_mapping_witness :
  one_active_mapping sample_store
  /\ exists previous,
       active_mappings "ella_001" sample_store = [previous]
       /\ Mapping.proxyId previous = "mars_002"
       /\ active_mappings "ella_001"
            (snd
               (AccountProxyMapping.moveAccount 1700000000007 "ella_001"
                  "mars_001" None sample_store))
          = [new_binding 1700000000007 "ella_001" "mars_002" "mars_001"
               (Some "manual_move") sample_store].
Proof.
  destruct (C8_one_active_mapping sample_operations idle_failover eq_refl)
    as (A & M & _).
  split; [exact A |].
  specialize (M 1700000000007 "ella_001" "mars_001" None).
  unfold sample_store.
  destruct (AccountProxyMapping.moveAccount 1700000000007 "ella_001" "mars_001"
              None (ProxyFailover.db (perform_all sample_operations idle_failover)))
    as [r db'] eqn:E.
  assert (S : AccountProxyMapping.success r = true).
  { apply (f_equal fst) in E. cbn [fst] in E. rewrite <- E. reflexivity. }
  destruct (M S) as (account & previous & G & _ & Ap & _ & _ & _ & _ & _ & An & _).
  assert (Ea : account = ella_account "1" "mars_002").
  { vm_compute in G. now injection G as <-. }
  subst account. exists previous. split; [exact Ap |]. split.
  - vm_compute in Ap. now injection Ap as <-.
  - exact An.
Defined.

(** ** The manager's counters *)

Lemma within_capacity_frame (s s' : AccountProxyManager.t) :
  map capacity_of (AccountProxyManager.proxies s')
  = map capacity_of (AccountProxyManager.proxies s) ->
  within_capacity s -> within_capacity s'.
Proof.
  intros E [D B]. split.
  - replace (map Proxy.id (AccountProxyManager.proxies s'))
      with (map (fun c => fst (fst c))
              (map capacity_of (AccountProxyManager.proxies s')))
      by (rewrite map_map; reflexivity).
    rewrite E, map_map. exact D.
  - intros p' I. apply (in_map capacity_of) in I. rewrite E in I.
    apply in_map_iff in I. destruct I as (p & Ep & I).
    injection Ep as E1 E2 E3. rewrite <- E2, <- E3. now apply B.
Qed.

Lemma within_capacity_createIncident (d : Incident.data)
  (s : AccountProxyManager.t) :
  within_capacity s ->
  within_capacity (snd (AccountProxyManager.createIncident d s)).
Proof. apply within_capacity_frame. reflexivity. Qed.

Lemma within_capacity_createAccount (accountData : Account.t)
  (s : AccountProxyManager.t) :
  within_capacity s ->
  within_capacity (snd (AccountProxyManager.createAccount accountData s)).
Proof.
  intros [D B].
  pose proof (manager_createAccount_outcome accountData s) as O.
  pose proof (manager_findAvailableProxy_rule s) as R.
  destruct (AccountProxyManager.createAccount accountData s) as [[a | e] s'].
  2: { destruct O as (_ & _ & ->). now split. }
  destruct O as (proxy & F & _ & _ & Ep & _). rewrite F in R.
  destruct R as (Ip & [_ Cap] & _). cbn [snd]. split.
  - rewrite Ep.
    change (NoDup
              (map Proxy.id
                 (DatabaseClient.update_where
                    (fun p => (Proxy.id p =? Proxy.id proxy)%string)
                    one_more_account (AccountProxyManager.proxies s)))).
    now rewrite update_where_keys.
  - intros p' I. rewrite Ep in I.
    apply (In_update_where (fun p => (Proxy.id p =? Proxy.id proxy)%string))
      in I.
    destruct I as (p & I & ->). specialize (B p I).
    destruct (String.eqb_spec (Proxy.id p) (Proxy.id proxy)) as [E | E];
      [| exact B].
    assert (p = proxy) by (eapply NoDup_key_inj; eauto). subst p.
    cbn. lia.
Qed.

Lemma within_capacity_moveAccount (accountId newProxyId : string)
  (reason : option string) (s : AccountProxyManager.t) :
  within_capacity s ->
  within_capacity
    (snd (AccountProxyManager.moveAccount accountId newProxyId reason s)).
Proof.
  intros [D B]. unfold AccountProxyManager.moveAccount.
  destruct (AccountProxyManager.getAccount accountId s) as [account |];
    [| now split].
  destruct (AccountProxyManager.getProxy newProxyId s) as [newProxy |] eqn:G;
    [| now split].
  destruct (Z.leb_spec (Proxy.maxAccounts newProxy)
              (Proxy.assignedAccounts newProxy)) as [L | L]; [now split |].
  destruct (find_by_key_key _ _ _ _ G) as [En In_].
  match goal with
  | |- context [AccountProxyManager.createIncident ?d ?s3] =>
      pose proof (within_capacity_createIncident d s3) as KI;
      destruct (AccountProxyManager.createIncident d s3) as [incident s4]
  end.
  apply KI. clear KI. cbn [AccountProxyManager.proxies
    AccountProxyManager.set_proxies AccountProxyManager.set_accounts].
  split.
  - change (NoDup
              (map Proxy.id
                 (DatabaseClient.update_where
                    (fun p => (Proxy.id p =? newProxyId)%string)
                    one_more_account
                    (DatabaseClient.update_where
                       (fun p => (Proxy.id p =? Account.proxyId account)%string)
                       one_less_account (AccountProxyManager.proxies s))))).
    now rewrite !update_where_keys.
  - intros p' I.
    apply (In_update_where (fun p => (Proxy.id p =? newProxyId)%string)) in I.
    destruct I as (p1 & I1 & ->).
    apply (In_update_where
             (fun p => (Proxy.id p =? Account.proxyId account)%string)) in I1.
    destruct I1 as (p & I & ->). specialize (B p I).
    assert (Full : Proxy.id p = newProxyId ->
                   Proxy.assignedAccounts p < Proxy.maxAccounts p).
    { intro E. assert (p = newProxy) by (eapply NoDup_key_inj; eauto; congruence).
      now subst p. }
    destruct (String.eqb_spec (Proxy.id p) (Account.proxyId account)) as [Eo | Eo];
      cbn [Proxy.id Proxy.set_assignedAccounts];
      destruct (String.eqb_spec (Proxy.id p) newProxyId) as [E | E];
      cbn; try specialize (Full E); lia.
Qed.

Lemma within_capacity_failoverAccount (accountId : string)
  (reason : option string) (s : AccountProxyManager.t) :
  within_capacity s ->
  within_capacity (snd (AccountProxyManager.failoverAccount accountId reason s)).
Proof.
  intro K. unfold AccountProxyManager.failoverAccount.
  destruct (set_has accountId (AccountProxyManager.failoverInProgress s));
    [exact K |].
  assert (Body : forall s1,
             within_capacity s1 ->
             within_capacity
               (snd (AccountProxyManager.failoverAccount_body accountId reason s1))).
  { intros s1 K1. unfold AccountProxyManager.failoverAccount_body.
    destruct (AccountProxyManager.getAccount accountId s1) as [account |];
      [| exact K1].
    destruct (AccountProxyManager.findAvailableProxy s1) as [newProxy |].
    - pose proof (within_capacity_moveAccount accountId (Proxy.id newProxy)
                    (Some (or_default reason "proxy_failure")) s1 K1) as KM.
      destruct (AccountProxyManager.moveAccount accountId (Proxy.id newProxy)
                  (Some (or_default reason "proxy_failure")) s1) as [result s2].
      destruct (AccountProxyManager.success result); [| exact KM].
      match goal with
      | |- context [AccountProxyManager.createIncident ?d s2] =>
          pose proof (within_capacity_createIncident d s2 KM) as KI;
          destruct (AccountProxyManager.createIncident d s2)
      end. exact KI.
    - match goal with
      | |- context [AccountProxyManager.createIncident ?d s1] =>
          pose proof (within_capacity_createIncident d s1 K1) as KI;
          destruct (AccountProxyManager.createIncident d s1)
      end. exact KI. }
  match goal with
  | |- context [AccountProxyManager.failoverAccount_body ?a ?r ?s1] =>
      pose proof (Body s1) as KB;
      destruct (AccountProxyManager.failoverAccount_body a r s1) as [result s2]
  end.
  cbn [snd] in *.
  eapply within_capacity_frame; [| apply KB; exact K]. reflexivity.
Qed.

Lemma within_capacity_failover_each (reason : option string)
  (accounts : list Account.t) :
  forall results s,
    within_capacity s ->
    within_capacity
      (snd (AccountProxyManager.failover_each reason accounts results s)).
Proof.
  induction accounts as [| account rest IH]; intros results s K; [exact K |].
  cbn [AccountProxyManager.failover_each].
  pose proof (within_capacity_failoverAccount (Account.id account) reason s K)
    as K1.
  destruct (AccountProxyManager.failoverAccount (Account.id account) reason s).
  now apply IH.
Qed.

Lemma within_capacity_perform (s : AccountProxyManager.t)
  (op : manager_operation) :
  within_capacity s -> within_capacity (manager_perform s op).
Proof.
  intro K. destruct op as [d | a p r | a r | p r]; cbn [manager_perform].
  - now apply within_capacity_createAccount.
  - now apply within_capacity_moveAccount.
  - now apply within_capacity_failoverAccount.
  - unfold AccountProxyManager.handleProxyFailure.
    destruct (AccountProxyManager.getProxy p s); [| exact K].
    match goal with
    | |- context [AccountProxyManager.createIncident ?d ?s1] =>
        pose proof (within_capacity_createIncident d s1) as KI;
        destruct (AccountProxyManager.createIncident d s1) as [i s2]
    end.
    apply within_capacity_failover_each. apply KI.
    eapply within_capacity_frame; [| exact K]. cbn.
    apply (update_where_capacity (fun x => (Proxy.id x =? p)%string)).
    reflexivity.
Qed.

(** The manager keeps every proxy within its capacity, over any sequence of
    its operations. *)
Lemma manager_capacity_bound (ops : list manager_operation) :
  forall s,
    within_capacity s -> within_capacity (fold_left manager_perform ops s).
Proof.
  induction ops as [| op rest IH]; intros s K; [exact K |].
  cbn [fold_left]. apply IH. now apply within_capacity_perform.
Qed.

(** C1 fails of the manager: [createAccount] stores under the id of the
    account with [Map.set], so a second call with the id [ella_001] replaces
    the stored account, now bound to [mars_002], and increments [mars_002];
    [mars_001] keeps its count of 1 with no account bound to it. *)
Theorem C1_manager_duplicate_id_leaks_a_slot :
  AccountProxyManager.accounts idle_manager = [ella_account "1" "mars_001"]
  /\ map capacity_of (AccountProxyManager.proxies idle_manager)
     = [("mars_001", 1, 2); ("mars_002", 0, 2)]
  /\ AccountProxyManager.accounts manager_after_duplicate
     = [ella_account "1" "mars_002"]
  /\ map capacity_of (AccountProxyManager.proxies manager_after_duplicate)
     = [("mars_001", 1, 2); ("mars_002", 1, 2)]
  /\ manager_bound_accounts "mars_001" manager_after_duplicate = [].
Proof. repeat split. Qed.

(** ** Scenarios of the specification, run on the embedding *)

(** Two proxies of capacity 2 and no account: four creations succeed and
    fill both proxies, the fifth fails for want of capacity and changes
    nothing. *)
Example four_accounts_fill_two_proxies :
  let (results, db) :=
    create_all 1700000000000
      [ella "1"; ella "2"; ella "3"; ella "4"; ella "5"] two_empty_proxies in
  map AccountProxyMapping.success results = [true; true; true; true; false]
  /\ map AccountProxyMapping.error results
     = [None; None; None; None; Some AccountProxyMapping.no_proxy_error]
  /\ map capacity_of (DatabaseClient.proxies db)
     = [("mars_001", 2, 2); ("mars_002", 2, 2)]
  /\ List.length (DatabaseClient.accounts db) = 4%nat.
Proof. vm_compute. repeat split. Qed.

(** A bulk failover from a proxy with two accounts when one slot is free in
    all: one account moves, the other stays for want of capacity. *)
Example bulkFailover_with_one_free_slot :
  let (result, s) :=
    ProxyFailover.bulkFailover 1700000000001 "mars_001" None one_free_slot in
  (ProxyFailover.total result, ProxyFailover.successful result,
   ProxyFailover.failed result) = (2, 1, 1)
  /\ map ProxyFailover.error (ProxyFailover.results result)
     = [None; Some "No available proxies for failover"]
  /\ map capacity_of (DatabaseClient.proxies (ProxyFailover.db s))
     = [("mars_001", 1, 2); ("mars_002", 2, 2); ("mars_003", 2, 2)]
  /\ ProxyFailover.inProgress s = [].
Proof. vm_compute. repeat split. Qed.
(** * Further properties of the code *)

(** Splits the conjunctions of the goal that are written out. *)
Ltac conjuncts := repeat match goal with |- _ /\ _ => split end.

(** ** Counting and averaging *)

Lemma count_app {A : Type} (l l' : list A) :
  count (l ++ l') = count l + count l'.
Proof. unfold count. rewrite length_app. lia. Qed.

Lemma count_filter_le {A : Type} (sel : A -> bool) (l : list A) :
  0 <= count (filter sel l) <= count l.
Proof.
  unfold count. split; [lia |]. apply inj_le. apply filter_length_le.
Qed.

(** A filter and its complement share out the list. *)
Lemma count_filter_split {A : Type} (sel : A -> bool) (l : list A) :
  count (filter sel l) + count (filter (fun x => negb (sel x)) l) = count l.
Proof.
  unfold count. rewrite <- Nat2Z.inj_add. f_equal. apply filter_length.
Qed.

Lemma count_stable_sort {A : Type} (le : A -> A -> bool) (l : list A) :
  count (stable_sort le l) = count l.
Proof. unfold count. now rewrite stable_sort_length. Qed.

Lemma round_div_bounds (lo hi a n : Z) :
  0 < n -> lo * n <= a <= hi * n -> lo <= round_div a n <= hi.
Proof.
  intros N [L H]. unfold round_div. split.
  - apply Z.div_le_lower_bound; nia.
  - apply Z.lt_succ_r. apply Z.div_lt_upper_bound; nia.
Qed.

Lemma sum_health_bounds (lo hi : Z) (rows : list Account.t) :
  (forall a, In a rows -> lo <= Account.healthScore a <= hi) ->
  lo * count rows <= DatabaseClient.sum_health rows <= hi * count rows.
Proof.
  unfold count, DatabaseClient.sum_health.
  induction rows as [| a t IH]; intro B; cbn [fold_right Datatypes.length].
  - lia.
  - pose proof (B a (or_introl eq_refl)) as Ba.
    assert (Bt : forall x, In x t -> lo <= Account.healthScore x <= hi)
      by (intros x I; apply B; now right).
    specialize (IH Bt).
    rewrite Nat2Z.inj_succ, !Z.mul_succ_r. lia.
Qed.

Lemma fold_left_sum_health (rows : list Account.t) (z : Z) :
  fold_left (fun sum a => sum + Account.healthScore a) rows z
  = z + DatabaseClient.sum_health rows.
Proof.
  revert z. induction rows as [| a t IH]; intro z; cbn.
  - lia.
  - rewrite IH. unfold DatabaseClient.sum_health. lia.
Qed.

(** The four phases share out the accounts. *)
Lemma count_by_phase (rows : list Account.t) :
  count (filter (fun a => DatabaseClient.phase_eqb (Account.phase a) Phase.warmup) rows)
  + count (filter (fun a => DatabaseClient.phase_eqb (Account.phase a) Phase.soft) rows)
  + count (filter (fun a => DatabaseClient.phase_eqb (Account.phase a) Phase.growth) rows)
  + count (filter (fun a => DatabaseClient.phase_eqb (Account.phase a) Phase.full) rows)
  = count rows.
Proof.
  unfold count. induction rows as [| a t IH]; cbn [filter Datatypes.length]; [reflexivity |].
  destruct (Account.phase a); cbn [DatabaseClient.phase_eqb Datatypes.length];
    rewrite ?Nat2Z.inj_succ; lia.
Qed.

Lemma key_count_or_zero (n : Z) :
  0 <= n -> or_zero (if n =? 0 then None else Some n) = n.
Proof.
  intro N. destruct (Z.eqb_spec n 0) as [-> | _]; reflexivity.
Qed.

(** ** The dashboard of the store *)

(** X1. [getDashboardStats] on a store whose health scores are within the
    range of the schema: the counts under the four phase keys add up to
    [totalAccounts]; the active accounts, the active proxies are at most the
    totals; the average health score is within [[0, 100]], and is 0 on a
    store without accounts. *)
Theorem getDashboardStats_totals (db : DatabaseClient.t) :
  (forall a,
      In a (DatabaseClient.accounts db) -> 0 <= Account.healthScore a <= 100) ->
  let stats := DatabaseClient.getDashboardStats db in
  or_zero (DatabaseClient.phaseDistribution stats Phase.warmup)
  + or_zero (DatabaseClient.phaseDistribution stats Phase.soft)
  + or_zero (DatabaseClient.phaseDistribution stats Phase.growth)
  + or_zero (DatabaseClient.phaseDistribution stats Phase.full)
  = DatabaseClient.totalAccounts stats
  /\ 0 <= DatabaseClient.activeAccounts stats <= DatabaseClient.totalAccounts stats
  /\ 0 <= DatabaseClient.activeProxies stats <= DatabaseClient.totalProxies stats
  /\ 0 <= DatabaseClient.averageHealthScore stats <= 100
  /\ (DatabaseClient.totalAccounts stats = 0 ->
      DatabaseClient.averageHealthScore stats = 0).
Proof.
  intros B stats. subst stats.
  unfold DatabaseClient.getDashboardStats, DatabaseClient.count_where.
  cbn [DatabaseClient.phaseDistribution DatabaseClient.totalAccounts
       DatabaseClient.activeAccounts DatabaseClient.activeProxies
       DatabaseClient.totalProxies DatabaseClient.averageHealthScore].
  split.
  { rewrite !key_count_or_zero by apply count_filter_le.
    apply count_by_phase. }
  split; [apply count_filter_le |]. split; [apply count_filter_le |].
  destruct (DatabaseClient.accounts db) as [| a t] eqn:E.
  - split; [lia | reflexivity].
  - split.
    + apply round_div_bounds.
      * unfold count. cbn [Datatypes.length]. lia.
      * rewrite <- E in *. now apply sum_health_bounds.
    + unfold count. cbn [Datatypes.length]. lia.
Qed.

Lemma getDashboardStats_totals_witness :
  let stats := DatabaseClient.getDashboardStats ella_db in
  or_zero (DatabaseClient.phaseDistribution stats Phase.warmup)
  + or_zero (DatabaseClient.phaseDistribution stats Phase.soft)
  + or_zero (DatabaseClient.phaseDistribution stats Phase.growth)
  + or_zero (DatabaseClient.phaseDistribution stats Phase.full)
  = DatabaseClient.totalAccounts stats
  /\ 0 <= DatabaseClient.activeAccounts stats <= DatabaseClient.totalAccounts stats
  /\ 0 <= DatabaseClient.activeProxies stats <= DatabaseClient.totalProxies stats
  /\ 0 <= DatabaseClient.averageHealthScore stats <= 100
  /\ (DatabaseClient.totalAccounts stats = 0 ->
      DatabaseClient.averageHealthScore stats = 0).
Proof.
  apply (getDashboardStats_totals ella_db).
  intros a [<- | []]. vm_compute. split; discriminate.
Defined.

(** ** Creating a proxy *)

Lemma find_app_other {A : Type} (sel : A -> bool) (rows : list A) (r : A) :
  sel r = false -> find sel (rows ++ [r]) = find sel rows.
Proof.
  intro S. induction rows as [| h t IH]; cbn.
  - now rewrite S.
  - destruct (sel h); [reflexivity | exact IH].
Qed.

Lemma find_none_existsb {A : Type} (sel : A -> bool) (rows : list A) :
  find sel rows = None -> existsb sel rows = false.
Proof.
  induction rows as [| h t IH]; cbn; [reflexivity |].
  destruct (sel h); [discriminate | exact IH].
Qed.

Lemma find_some_existsb {A : Type} (sel : A -> bool) (rows : list A) (r : A) :
  find sel rows = Some r -> existsb sel rows = true.
Proof.
  induction rows as [| h t IH]; cbn; [discriminate |].
  destruct (sel h); [reflexivity | exact IH].
Qed.

(** X2. [createProxy] with a health score within the range of the schema.
    When a proxy of that id is stored already the PRIMARY KEY rejects the
    insertion and the store is unchanged.  Otherwise the proxy is appended
    and [getProxy] finds it again under its id; what is stored agrees with
    the argument except for [avgResponseTime], [successRate] and
    [lastTested], which take the defaults 0, 100 and NULL whatever the
    argument held; the lookups of all other ids and all other tables are as
    before. *)
Theorem createProxy_outcome (proxy : Proxy.t) (db : DatabaseClient.t) :
  0 <= Proxy.healthScore proxy <= 100 ->
  match DatabaseClient.getProxy (Proxy.id proxy) db with
  | Some _ =>
      DatabaseClient.createProxy proxy db
      = (Throw "UNIQUE constraint failed: proxies.id", db)
  | None =>
      let stored :=
        Proxy.set_successRate 100
          (Proxy.set_avgResponseTime 0 (Proxy.set_lastTested None proxy)) in
      exists db',
        DatabaseClient.createProxy proxy db = (Ret (Some stored), db')
        /\ DatabaseClient.getProxy (Proxy.id proxy) db' = Some stored
        /\ (forall k,
               k <> Proxy.id proxy ->
               DatabaseClient.getProxy k db' = DatabaseClient.getProxy k db)
        /\ DatabaseClient.accounts db' = DatabaseClient.accounts db
        /\ DatabaseClient.mappings db' = DatabaseClient.mappings db
        /\ DatabaseClient.incidents db' = DatabaseClient.incidents db
  end.
Proof.
  intros [L H].
  unfold DatabaseClient.createProxy, DatabaseClient.proxy_violation.
  apply Z.leb_le in L. apply Z.leb_le in H. rewrite L, H. cbn [andb negb].
  unfold DatabaseClient.getProxy.
  destruct (find (fun p => (Proxy.id p =? Proxy.id proxy)%string)
              (DatabaseClient.proxies db)) as [p |] eqn:F.
  - now rewrite (find_some_existsb _ _ _ F).
  - rewrite (find_none_existsb _ _ F). cbn zeta.
    assert (G : find (fun p => (Proxy.id p =? Proxy.id proxy)%string)
                  (DatabaseClient.proxies db ++ [DatabaseClient.proxy_row proxy])
                = Some (DatabaseClient.proxy_row proxy)).
    { apply find_app_fresh; [now apply find_none_existsb |].
      cbn. apply String.eqb_refl. }
    eexists. split.
    { cbn [DatabaseClient.proxies DatabaseClient.set_proxies]. rewrite G.
      reflexivity. }
    split; [| split; [| repeat split]].
    + cbn [DatabaseClient.proxies DatabaseClient.set_proxies]. exact G.
    + intros k N. cbn [DatabaseClient.proxies DatabaseClient.set_proxies].
      apply find_app_other. cbn. apply String.eqb_neq. congruence.
Qed.

Lemma createProxy_outcome_witness :
  (let stored :=
     Proxy.set_successRate 100
       (Proxy.set_avgResponseTime 0
          (Proxy.set_lastTested None (mars "2" 5001 ProxyStatus.active 90 0))) in
   exists db',
     DatabaseClient.createProxy (mars "2" 5001 ProxyStatus.active 90 0)
       one_proxy_db = (Ret (Some stored), db')
     /\ DatabaseClient.getProxy "mars_002" db' = Some stored
     /\ (forall k,
            k <> "mars_002" ->
            DatabaseClient.getProxy k db' = DatabaseClient.getProxy k one_proxy_db)
     /\ DatabaseClient.accounts db' = DatabaseClient.accounts one_proxy_db
     /\ DatabaseClient.mappings db' = DatabaseClient.mappings one_proxy_db
     /\ DatabaseClient.incidents db' = DatabaseClient.incidents one_proxy_db)
  /\ DatabaseClient.createProxy (mars "1" 5000 ProxyStatus.active 90 0)
       one_proxy_db
     = (Throw "UNIQUE constraint failed: proxies.id", one_proxy_db).
Proof.
  split.
  - apply (createProxy_outcome (mars "2" 5001 ProxyStatus.active 90 0)
             one_proxy_db). cbn. lia.
  - apply (createProxy_outcome (mars "1" 5000 ProxyStatus.active 90 0)
             one_proxy_db). cbn. lia.
Defined.

(** ** Looking up a created account *)

(** X3. When [createAccount] of the mapping engine succeeds, the account
    it reports is stored: [getAccount] finds it under its id and
    [getAccountByTwitterHandle] under its handle; it is on the proxy that
    [findAvailableProxy] selected, in phase warmup with the limit of that
    phase, and among the accounts that [getAccountsByProxy] lists for that
    proxy. *)
Theorem createAccount_then_lookup (now : Z)
  (config : AccountProxyMapping.AccountConfig) (db : DatabaseClient.t) :
  AccountProxyMapping.success
    (fst (AccountProxyMapping.createAccount now config db)) = true ->
  exists proxy account,
    let db' := snd (AccountProxyMapping.createAccount now config db) in
    DatabaseClient.findAvailableProxy db = Some proxy
    /\ AccountProxyMapping.account
         (fst (AccountProxyMapping.createAccount now config db)) = Some account
    /\ DatabaseClient.getAccount (AccountProxyMapping.id config) db'
       = Some account
    /\ DatabaseClient.getAccountByTwitterHandle
         (AccountProxyMapping.twitterHandle config) db' = Some account
    /\ Account.proxyId account = Proxy.id proxy
    /\ Account.phase account = Phase.warmup
    /\ Account.dailyActionLimit account = 10
    /\ In account (DatabaseClient.getAccountsByProxy (Proxy.id proxy) db').
Proof.
  intro S.
  pose proof (mapping_createAccount_outcome now config db) as O.
  destruct (AccountProxyMapping.createAccount now config db) as [result db'].
  cbn [fst snd] in *.
  destruct O as [(proxy & F & K & -> & C) | (_ & [[_ ->] | (p & m & _ & _ & ->)])];
    try discriminate S.
  destruct C as (Ea & _).
  exists proxy, (onboarded now config (Proxy.id proxy)).
  unfold key_taken in K.
  destruct (existsb
              (fun r =>
                 (Account.twitterHandle r
                  =? AccountProxyMapping.twitterHandle config)%string)
              (DatabaseClient.accounts db)) eqn:E2; [discriminate |].
  destruct (existsb
              (fun r => (Account.id r =? AccountProxyMapping.id config)%string)
              (DatabaseClient.accounts db)) eqn:E1; [discriminate |].
  split; [exact F |]. split; [reflexivity |].
  split; [| split; [| split; [| split; [| split]]]]; try reflexivity.
  - unfold DatabaseClient.getAccount. rewrite Ea.
    apply find_app_fresh; [exact E1 | cbn; apply String.eqb_refl].
  - unfold DatabaseClient.getAccountByTwitterHandle. rewrite Ea.
    apply find_app_fresh; [exact E2 | cbn; apply String.eqb_refl].
  - unfold DatabaseClient.getAccountsByProxy. apply stable_sort_In.
    apply filter_In. rewrite Ea. split.
    + apply in_or_app. right. now left.
    + cbn. apply String.eqb_refl.
Qed.

Lemma createAccount_then_lookup_witness :
  exists proxy account,
    let db' :=
      snd (AccountProxyMapping.createAccount 1700000000000 (ella "1")
             one_proxy_db) in
    DatabaseClient.findAvailableProxy one_proxy_db = Some proxy
    /\ AccountProxyMapping.account
         (fst (AccountProxyMapping.createAccount 1700000000000 (ella "1")
                 one_proxy_db)) = Some account
    /\ DatabaseClient.getAccount "ella_001" db' = Some account
    /\ DatabaseClient.getAccountByTwitterHandle "@ellasophiee1" db'
       = Some account
    /\ Account.proxyId account = Proxy.id proxy
    /\ Account.phase account = Phase.warmup
    /\ Account.dailyActionLimit account = 10
    /\ In account (DatabaseClient.getAccountsByProxy (Proxy.id proxy) db').
Proof.
  apply (createAccount_then_lookup 1700000000000 (ella "1") one_proxy_db).
  reflexivity.
Defined.

(** ** Bulk creation *)

Lemma slots_of_nonneg (p : Proxy.t) : 0 <= slots_of p.
Proof.
  unfold slots_of. destruct (DatabaseClient.available p) eqn:E; [| lia].
  apply available_iff in E. destruct E as [_ E]. lia.
Qed.

Lemma slots_nonneg (rows : list Proxy.t) : 0 <= slots rows.
Proof.
  induction rows as [| p t IH]; cbn; [lia |].
  pose proof (slots_of_nonneg p). unfold slots in IH. lia.
Qed.

Lemma slots_of_one_more (p : Proxy.t) :
  DatabaseClient.available p = true ->
  slots_of (one_more_account p) = slots_of p - 1.
Proof.
  intro E. unfold slots_of. rewrite E.
  unfold DatabaseClient.available in *. apply andb_true_iff in E.
  destruct E as [S L]. cbn. rewrite S. cbn. apply Z.ltb_lt in L.
  destruct (Z.ltb_spec (Proxy.assignedAccounts p + 1) (Proxy.maxAccounts p)); lia.
Qed.

(** One more account on an available proxy takes one free slot. *)
Lemma slots_one_more (rows : list Proxy.t) (p : Proxy.t) :
  NoDup (map Proxy.id rows) -> In p rows ->
  DatabaseClient.available p = true ->
  slots
    (DatabaseClient.update_where
       (fun r => (Proxy.id r =? Proxy.id p)%string) one_more_account rows)
  = slots rows - 1.
Proof.
  intros D I E. induction rows as [| h t IH]; [destruct I |].
  cbn [map] in D. inversion D as [| k ks N D']. subst k ks.
  cbn [DatabaseClient.update_where map slots fold_right].
  fold (DatabaseClient.update_where
          (fun r => (Proxy.id r =? Proxy.id p)%string) one_more_account t).
  fold (slots
          (DatabaseClient.update_where
             (fun r => (Proxy.id r =? Proxy.id p)%string) one_more_account t)).
  fold (slots t).
  destruct I as [-> | I].
  - rewrite String.eqb_refl, (slots_of_one_more p E).
    rewrite update_where_none; [lia |].
    intros r Ir. apply String.eqb_neq. intro K. apply N. rewrite <- K.
    now apply in_map.
  - assert (Hne : (Proxy.id h =? Proxy.id p)%string = false).
    { apply String.eqb_neq. intro K. apply N. rewrite K. now apply in_map. }
    rewrite Hne, (IH D' I). lia.
Qed.

(** What one [createAccount] does to the free slots and to the number of
    accounts. *)
Lemma createAccount_slot (now : Z)
  (config : AccountProxyMapping.AccountConfig) (db : DatabaseClient.t) :
  Consistent db ->
  let (result, db') := AccountProxyMapping.createAccount now config db in
  Consistent db'
  /\ if AccountProxyMapping.success result
     then free_slots db' = free_slots db - 1
          /\ count (DatabaseClient.accounts db')
             = count (DatabaseClient.accounts db) + 1
          /\ AccountProxyMapping.error result = None
     else db' = db /\ AccountProxyMapping.error result <> None.
Proof.
  intro K.
  pose proof (Consistent_createAccount now config db K) as K'.
  pose proof (mapping_createAccount_outcome now config db) as O.
  pose proof (db_findAvailableProxy_rule db) as R.
  destruct (AccountProxyMapping.createAccount now config db) as [result db'].
  cbn [snd] in K'. split; [exact K' |].
  destruct O as [(proxy & F & _ & -> & C) | (-> & [[_ ->] | (p & m & _ & _ & ->)])];
    cbn [AccountProxyMapping.success AccountProxyMapping.failure
         AccountProxyMapping.error]; try (split; [reflexivity | discriminate]).
  rewrite F in R. destruct R as (I & A & _). apply available_iff in A.
  destruct C as (Ea & Ep & _). destruct K as (_ & D & _).
  split; [| split; [| reflexivity]].
  - unfold free_slots. rewrite Ep. now apply slots_one_more.
  - rewrite Ea, count_app. reflexivity.
Qed.

(** The loop of [bulkCreateAccounts], with what it adds to its
    accumulators. *)
Lemma create_each_run (now : Z)
  (configs : list AccountProxyMapping.AccountConfig) :
  forall (results : list AccountProxyMapping.MappingResult)
         (errors : list string) (db : DatabaseClient.t),
    Consistent db ->
    let '(results', errors', db') :=
      AccountProxyMapping.create_each now configs results errors db in
    exists new,
      results' = (results ++ new)%list
      /\ count new = count configs
      /\ count errors'
         = count errors
           + count
               (filter (fun r => negb (AccountProxyMapping.success r)) new)
      /\ free_slots db'
         = free_slots db - count (filter AccountProxyMapping.success new)
      /\ count (DatabaseClient.accounts db')
         = count (DatabaseClient.accounts db)
           + count (filter AccountProxyMapping.success new)
      /\ Consistent db'.
Proof.
  induction configs as [| config rest IH]; intros results errors db K.
  - cbn. exists []. rewrite app_nil_r. cbn. conjuncts; try reflexivity; try lia. exact K.
  - cbn [AccountProxyMapping.create_each].
    pose proof (createAccount_slot now config db K) as S.
    destruct (AccountProxyMapping.createAccount now config db) as [result db1].
    destruct S as [K1 S].
    specialize
      (IH (results ++ [result])%list
          (if negb (AccountProxyMapping.success result)
           then
             (errors
              ++ [(AccountProxyMapping.id config ++ ": "
                   ++ template (AccountProxyMapping.error result))%string])%list
           else errors) db1 K1).
    destruct (AccountProxyMapping.create_each now rest _ _ db1)
      as [[results' errors'] db'].
    destruct IH as (new & -> & Ln & Le & Lf & La & K').
    exists (result :: new). rewrite <- app_assoc. cbn [app].
    split; [reflexivity |].
    cbn [filter]. unfold count in *. cbn [Datatypes.length].
    destruct (AccountProxyMapping.success result); cbn [negb] in *;
      cbn [Datatypes.length]; rewrite ?length_app in *;
      cbn [Datatypes.length] in *.
    + destruct S as (Sf & Sa & _). conjuncts; try reflexivity; try lia. exact K'.
    + destruct S as [-> _]. conjuncts; try reflexivity; try lia. exact K'.
Qed.

(** X4. [bulkCreateAccounts] on a consistent store: [total] is the number
    of configs and is split into [successful] and [failed]; there is one
    result per config and one error line per failure; exactly [successful]
    accounts were added and each took one free slot of an active proxy, so
    that no more accounts are created than there were free slots; the store
    is consistent again. *)
Theorem bulkCreateAccounts_counts (now : Z)
  (configs : list AccountProxyMapping.AccountConfig) (db : DatabaseClient.t) :
  Consistent db ->
  let (result, db') := AccountProxyMapping.bulkCreateAccounts now configs db in
  AccountProxyMapping.b_total result = count configs
  /\ AccountProxyMapping.b_successful result
     + AccountProxyMapping.b_failed result
     = AccountProxyMapping.b_total result
  /\ count (AccountProxyMapping.b_results result)
     = AccountProxyMapping.b_total result
  /\ count (AccountProxyMapping.b_errors result)
     = AccountProxyMapping.b_failed result
  /\ AccountProxyMapping.b_successful result <= free_slots db
  /\ free_slots db'
     = free_slots db - AccountProxyMapping.b_successful result
  /\ count (DatabaseClient.accounts db')
     = count (DatabaseClient.accounts db)
       + AccountProxyMapping.b_successful result
  /\ Consistent db'.
Proof.
  intro K. unfold AccountProxyMapping.bulkCreateAccounts.
  pose proof (create_each_run now configs [] [] db K) as R.
  destruct (AccountProxyMapping.create_each now configs [] [] db)
    as [[results errors] db'].
  destruct R as (new & -> & Ln & Le & Lf & La & K').
  cbn [app AccountProxyMapping.b_total AccountProxyMapping.b_successful
       AccountProxyMapping.b_failed AccountProxyMapping.b_results
       AccountProxyMapping.b_errors].
  pose proof (count_filter_split AccountProxyMapping.success new) as P.
  pose proof (slots_nonneg (DatabaseClient.proxies db')) as Z'.
  unfold free_slots in *. change (count []) with 0 in Le.
  conjuncts; try reflexivity; try lia. exact K'.
Qed.

Lemma bulkCreateAccounts_counts_witness :
  let (result, db') :=
    AccountProxyMapping.bulkCreateAccounts 1700000000000
      [ella "1"; ella "2"; ella "3"; ella "4"; ella "5"] two_empty_proxies in
  AccountProxyMapping.b_total result = 5
  /\ AccountProxyMapping.b_successful result
     + AccountProxyMapping.b_failed result
     = AccountProxyMapping.b_total result
  /\ count (AccountProxyMapping.b_results result)
     = AccountProxyMapping.b_total result
  /\ count (AccountProxyMapping.b_errors result)
     = AccountProxyMapping.b_failed result
  /\ AccountProxyMapping.b_successful result <= 4
  /\ free_slots db' = 4 - AccountProxyMapping.b_successful result
  /\ count (DatabaseClient.accounts db')
     = 0 + AccountProxyMapping.b_successful result
  /\ Consistent db'.
Proof.
  apply (bulkCreateAccounts_counts 1700000000000
           [ella "1"; ella "2"; ella "3"; ella "4"; ella "5"]
           two_empty_proxies).
  apply consistent_Consistent. reflexivity.
Defined.

(** ** Assignable accounts *)

Lemma firstn_In {A : Type} (n : nat) (l : list A) (x : A) :
  In x (firstn n l) -> In x l.
Proof.
  revert l. induction n as [| n IH]; intros [| h t] I; cbn in *;
    try contradiction.
  destruct I as [-> | I]; [now left | right; now apply IH].
Qed.

(** X5. [getAssignableAccounts]: every account it returns is stored and
    is not on the proxy already; there are no more of them than the proxy
    has room for beside the accounts bound to it; there are none for a
    proxy that is not stored or that is full. *)
Theorem getAssignableAccounts_bounds (proxyId : string)
  (db : DatabaseClient.t) :
  let assignable := AccountProxyMapping.getAssignableAccounts proxyId db in
  (forall a,
      In a assignable ->
      In a (DatabaseClient.accounts db) /\ Account.proxyId a <> proxyId)
  /\ match DatabaseClient.getProxy proxyId db with
     | None => assignable = []
     | Some proxy =>
         count assignable
         <= Z.max 0
              (Proxy.maxAccounts proxy
               - count (DatabaseClient.getAccountsByProxy proxyId db))
     end.
Proof.
  unfold AccountProxyMapping.getAssignableAccounts.
  destruct (DatabaseClient.getProxy proxyId db) as [proxy |];
    [| split; [intros a [] | reflexivity]].
  cbn zeta.
  destruct (Z.leb_spec
              (Proxy.maxAccounts proxy
               - count (DatabaseClient.getAccountsByProxy proxyId db)) 0)
    as [L | L].
  - split; [intros a [] |]. cbn. lia.
  - split.
    + intros a I. apply firstn_In in I. apply filter_In in I.
      destruct I as [I N]. unfold DatabaseClient.getAllAccounts in I.
      apply stable_sort_In in I. split; [exact I |].
      apply negb_true_iff, String.eqb_neq in N. exact N.
    + unfold count at 1. pose proof (firstn_le_length
        (Z.to_nat
           (Proxy.maxAccounts proxy
            - count (DatabaseClient.getAccountsByProxy proxyId db)))
        (filter (fun a => negb (Account.proxyId a =? proxyId)%string)
           (DatabaseClient.getAllAccounts db))) as F.
      lia.
Qed.

(** ** The daily health check *)


(** X6. [runDailyHealthCheck] rejects as soon as an account is active.  The
    check of the first active account awaits [testProxy], which rejects
    whatever its probe did, because its [updateProxy] passes [lastTested] as
    a [Date] that the store refuses to bind; for an account whose proxy is
    not stored it rejects at [proxy.id].  Nothing is awaited inside a [try],
    so the run rejects with that error: no result is returned, nothing is
    logged, no health score is stored, no alert is sent and no incident is
    opened.  Without an active account the run returns the empty list. *)
Theorem runDailyHealthCheck_rejects (config : HealthMonitor.HealthCheckConfig)
  (now : Z) (probe_of : string -> HealthMonitor.Probe)
  (db : DatabaseClient.t) :
  HealthMonitor.runDailyHealthCheck config now probe_of db
  = match DatabaseClient.getActiveAccounts db with
    | [] => (Ret [], [], db)
    | account :: _ =>
        (Throw
           match DatabaseClient.getProxy (Account.proxyId account) db with
           | Some _ => DatabaseClient.bind_error
           | None => "Cannot read properties of null (reading 'id')"
           end, [], db)
    end.
Proof.
  unfold HealthMonitor.runDailyHealthCheck.
  destruct (DatabaseClient.getActiveAccounts db) as [| account rest];
    [reflexivity |].
  cbn [HealthMonitor.check_accounts].
  unfold HealthMonitor.check_account, HealthMonitor.checkAccountHealth.
  destruct (DatabaseClient.getProxy (Account.proxyId account) db);
    [| reflexivity].
  now rewrite testProxy_refused.
Qed.

(** The run on the store of [ella_001], whose proxy answers: the run rejects
    and the store is as it was. *)
Example daily_check_of_ella_rejects :
  DatabaseClient.getActiveAccounts ella_db = DatabaseClient.accounts ella_db
  /\ HealthMonitor.runDailyHealthCheck HealthMonitor.default_config
       1700000000000 always_ok ella_db
     = (Throw DatabaseClient.bind_error, [], ella_db).
Proof. split; reflexivity. Qed.

(** ** What the consistency of the store reads *)

Lemma filter_map_length {A B : Type} (key : A -> B) (g : B -> bool)
  (l : list A) :
  List.length (filter (fun a => g (key a)) l)
  = List.length (filter g (map key l)).
Proof.
  induction l as [| a t IH]; cbn; [reflexivity |].
  destruct (g (key a)); cbn; now rewrite IH.
Qed.

Lemma bound_count_keys (l l' : list Account.t) (k : string) :
  map account_key l' = map account_key l ->
  List.length (filter (fun a => (Account.proxyId a =? k)%string) l')
  = List.length (filter (fun a => (Account.proxyId a =? k)%string) l).
Proof.
  intro E.
  transitivity
    (List.length
       (filter (fun c => (snd c =? k)%string) (map account_key l'))).
  - exact (filter_map_length account_key (fun c => (snd c =? k)%string) l').
  - rewrite E. symmetry.
    exact (filter_map_length account_key (fun c => (snd c =? k)%string) l).
Qed.

(** The consistency of the store reads, of the accounts, their ids and
    their proxy ids only. *)
Lemma Consistent_frame_keys (db db' : DatabaseClient.t) :
  map account_key (DatabaseClient.accounts db')
  = map account_key (DatabaseClient.accounts db) ->
  DatabaseClient.mappings db' = DatabaseClient.mappings db ->
  map capacity_of (DatabaseClient.proxies db')
  = map capacity_of (DatabaseClient.proxies db) ->
  Consistent db -> Consistent db'.
Proof.
  intros Ea Em Ep (K1 & K2 & K3 & K4 & K5).
  assert (Ei : map Account.id (DatabaseClient.accounts db')
               = map Account.id (DatabaseClient.accounts db)).
  { replace (map Account.id (DatabaseClient.accounts db'))
      with (map fst (map account_key (DatabaseClient.accounts db')))
      by (rewrite map_map; reflexivity).
    rewrite Ea, map_map. reflexivity. }
  assert (Back : forall a',
             In a' (DatabaseClient.accounts db') ->
             exists a,
               In a (DatabaseClient.accounts db)
               /\ account_key a = account_key a').
  { intros a' I. apply (in_map account_key) in I. rewrite Ea in I.
    apply in_map_iff in I. destruct I as (a & E & I). now exists a. }
  assert (Forth : forall a,
             In a (DatabaseClient.accounts db) ->
             exists a',
               In a' (DatabaseClient.accounts db')
               /\ account_key a' = account_key a).
  { intros a I. apply (in_map account_key) in I. rewrite <- Ea in I.
    apply in_map_iff in I. destruct I as (a' & E & I). now exists a'. }
  unfold Consistent, bound_accounts, active_mappings in *. rewrite Em.
  split; [now rewrite Ei |]. split; [| split; [| split]].
  - replace (map Proxy.id (DatabaseClient.proxies db'))
      with (map (fun c => fst (fst c)) (map capacity_of (DatabaseClient.proxies db')))
      by (rewrite map_map; reflexivity).
    rewrite Ep, map_map. exact K2.
  - intros p' I. apply (in_map capacity_of) in I. rewrite Ep in I.
    apply in_map_iff in I. destruct I as (p & E & I).
    injection E as E1 E2 E3. rewrite <- E1, <- E2, <- E3.
    rewrite (bound_count_keys _ _ (Proxy.id p) Ea). now apply K3.
  - intros a' I. destruct (Back a' I) as (a & Ia & E).
    injection E as E1 E2. rewrite <- E1, <- E2. now apply K4.
  - intros m I. destruct (K5 m I) as (a & Ia & E).
    destruct (Forth a Ia) as (a' & Ia' & E').
    exists a'. split; [exact Ia' |]. injection E' as E1 _. congruence.
Qed.


(** ** The health summary *)

Lemma health_partition (l : list Account.t) :
  count (filter (fun a => 80 <=? Account.healthScore a) l)
  + count
      (filter
         (fun a =>
            (60 <=? Account.healthScore a) && (Account.healthScore a <? 80)) l)
  + count
      (filter
         (fun a =>
            (40 <=? Account.healthScore a) && (Account.healthScore a <? 60)) l)
  + count (filter (fun a => Account.healthScore a <? 40) l)
  = count l
  /\ count (filter (fun a => Account.healthScore a <? 40) l)
     <= count (filter (fun a => Account.healthScore a <? 50) l)
     <= count (filter (fun a => Account.healthScore a <? 40) l)
        + count
            (filter
               (fun a =>
                  (40 <=? Account.healthScore a)
                  && (Account.healthScore a <? 60)) l).
Proof.
  unfold count. induction l as [| a t IH]; cbn [filter Datatypes.length].
  - lia.
  - destruct (Z.leb_spec 80 (Account.healthScore a));
      destruct (Z.leb_spec 60 (Account.healthScore a));
      destruct (Z.leb_spec 40 (Account.healthScore a));
      destruct (Z.ltb_spec (Account.healthScore a) 80);
      destruct (Z.ltb_spec (Account.healthScore a) 60);
      destruct (Z.ltb_spec (Account.healthScore a) 50);
      destruct (Z.ltb_spec (Account.healthScore a) 40);
      try lia; cbn [andb Datatypes.length]; rewrite ?Nat2Z.inj_succ; lia.
Qed.

(** X8. [getHealthSummary]: the four bands of the health distribution
    share out the accounts; the accounts needing attention are the critical
    ones and part of the warning ones; failing and active proxies share out
    the proxies; and the average health is [NaN] exactly on a store without
    accounts, where [getDashboardStats] reports 0. *)
Theorem getHealthSummary_distribution (db : DatabaseClient.t) :
  let summary := HealthMonitor.getHealthSummary db in
  HealthMonitor.s_excellent summary + HealthMonitor.s_good summary
  + HealthMonitor.s_warning summary + HealthMonitor.s_critical summary
  = HealthMonitor.s_totalAccounts summary
  /\ HealthMonitor.s_critical summary
     <= HealthMonitor.s_accountsNeedingAttention summary
     <= HealthMonitor.s_critical summary + HealthMonitor.s_warning summary
  /\ HealthMonitor.s_totalAccounts summary = count (DatabaseClient.accounts db)
  /\ HealthMonitor.s_failingProxies summary
     + DatabaseClient.activeProxies (DatabaseClient.getDashboardStats db)
     = count (DatabaseClient.proxies db)
  /\ (HealthMonitor.s_averageHealth summary = None
      <-> DatabaseClient.accounts db = [])
  /\ (DatabaseClient.accounts db = [] ->
      DatabaseClient.averageHealthScore (DatabaseClient.getDashboardStats db)
      = 0).
Proof.
  cbn zeta. unfold HealthMonitor.getHealthSummary.
  cbn [HealthMonitor.s_excellent HealthMonitor.s_good HealthMonitor.s_warning
       HealthMonitor.s_critical HealthMonitor.s_totalAccounts
       HealthMonitor.s_accountsNeedingAttention HealthMonitor.s_failingProxies
       HealthMonitor.s_averageHealth].
  pose proof (health_partition (DatabaseClient.getAllAccounts db)) as [P A].
  split; [exact P |]. split; [exact A |].
  split; [apply count_stable_sort |]. split; [| split].
  - unfold DatabaseClient.getDashboardStats, DatabaseClient.count_where.
    cbn [DatabaseClient.activeProxies].
    rewrite <- (count_filter_split
                  (fun p => ProxyStatus.eqb (Proxy.status p) ProxyStatus.active)
                  (DatabaseClient.proxies db)).
    rewrite Z.add_comm. f_equal. unfold count. f_equal.
    apply Permutation_length. unfold DatabaseClient.getAllProxies.
    generalize (stable_sort_perm DatabaseClient.proxy_id_le (DatabaseClient.proxies db)).
    generalize (stable_sort DatabaseClient.proxy_id_le (DatabaseClient.proxies db)).
    intros l' Pm. induction Pm as [| x l1 l2 Pm IH | x y l1 | l1 l2 l3 P1 IH1 P2 IH2];
      cbn [filter]; try reflexivity.
    + destruct (negb _); [now constructor | exact IH].
    + destruct (negb (ProxyStatus.eqb (Proxy.status x) ProxyStatus.active));
        destruct (negb (ProxyStatus.eqb (Proxy.status y) ProxyStatus.active));
        try reflexivity. apply perm_swap.
    + now rewrite IH1.
  - unfold DatabaseClient.getAllAccounts.
    pose proof (stable_sort_length DatabaseClient.account_id_le
                  (DatabaseClient.accounts db)) as L.
    destruct (stable_sort DatabaseClient.account_id_le (DatabaseClient.accounts db));
      destruct (DatabaseClient.accounts db); cbn in L; try discriminate L;
      split; intro; try reflexivity; discriminate.
  - intro E. unfold DatabaseClient.getDashboardStats.
    cbn [DatabaseClient.averageHealthScore]. now rewrite E.
Qed.

(** ** Failover and the status of the proxies *)

Lemma kept_or_failed_refl (p : Proxy.t) : kept_or_failed p p.
Proof. unfold kept_or_failed. tauto. Qed.

Lemma kept_or_failed_trans (p q r : Proxy.t) :
  kept_or_failed p q -> kept_or_failed q r -> kept_or_failed p r.
Proof.
  unfold kept_or_failed. intros (A1 & A2 & A3 & A4) (B1 & B2 & B3 & B4).
  conjuncts; try congruence. destruct A4, B4; [left | right | right | right];
    congruence.
Qed.

Lemma Forall2_refl_of {A : Type} (R : A -> A -> Prop) (l : list A) :
  (forall x, R x x) -> Forall2 R l l.
Proof. intro H. induction l; constructor; auto. Qed.

Lemma Forall2_trans_of {A : Type} (R : A -> A -> Prop) (l1 l2 l3 : list A) :
  (forall x y z, R x y -> R y z -> R x z) ->
  Forall2 R l1 l2 -> Forall2 R l2 l3 -> Forall2 R l1 l3.
Proof.
  intro T. intro F. revert l3. induction F as [| x y l1 l2 Rxy F IH];
    intros l3 G; inversion G; subst; constructor; eauto.
Qed.

Lemma Forall2_update_where {A : Type} (R : A -> A -> Prop) (sel : A -> bool)
  (f : A -> A) (rows : list A) :
  (forall x, R x x) -> (forall x, R x (f x)) ->
  Forall2 R rows (DatabaseClient.update_where sel f rows).
Proof.
  intros Rr Rf. induction rows as [| h t IH]; cbn; constructor; [| exact IH].
  destruct (sel h); auto.
Qed.

(** The two tables hold, under every id, rows that are related. *)
Lemma Forall2_getProxy (R : Proxy.t -> Proxy.t -> Prop)
  (rows rows' : list Proxy.t) (k : string) (p : Proxy.t) :
  (forall x y, R x y -> Proxy.id y = Proxy.id x) ->
  Forall2 R rows rows' ->
  find (fun r => (Proxy.id r =? k)%string) rows = Some p ->
  exists p',
    find (fun r => (Proxy.id r =? k)%string) rows' = Some p' /\ R p p'.
Proof.
  intros Rid F. induction F as [| x y l l' Rxy F IH]; cbn; [discriminate |].
  rewrite (Rid _ _ Rxy). destruct (Proxy.id x =? k)%string.
  - intro E. injection E as <-. now exists y.
  - exact IH.
Qed.

Lemma kept_or_failed_id (x y : Proxy.t) :
  kept_or_failed x y -> Proxy.id y = Proxy.id x.
Proof. now intros [E _]. Qed.

Ltac kept_step :=
  apply Forall2_update_where;
  [ exact kept_or_failed_refl
  | intro; unfold kept_or_failed; cbn; tauto ].

(** A failover leaves, of every proxy, the id, the health score and the
    capacity, and the status unless it sets it to [failed]. *)
Lemma handleProxyFailure_proxies (now : Z) (accountId : string)
  (reason : option string) (s : ProxyFailover.t) :
  Forall2 kept_or_failed
    (DatabaseClient.proxies (ProxyFailover.db s))
    (DatabaseClient.proxies
       (ProxyFailover.db
          (snd (ProxyFailover.handleProxyFailure now accountId reason s)))).
Proof.
  unfold ProxyFailover.handleProxyFailure,
    ProxyFailover.handleProxyFailure_begin.
  destruct (set_has accountId (ProxyFailover.inProgress s));
    [apply Forall2_refl_of, kept_or_failed_refl |].
  cbn [ProxyFailover.db ProxyFailover.set_inProgress ProxyFailover.config].
  destruct (DatabaseClient.getAccount accountId (ProxyFailover.db s))
    as [account |] eqn:G; [| apply Forall2_refl_of, kept_or_failed_refl].
  destruct (ProxyFailover.enableAutoFailover (ProxyFailover.config s));
    cbn [negb]; [| apply Forall2_refl_of, kept_or_failed_refl].
  set (db1 := snd
                (DatabaseClient.updateProxy (Account.proxyId account)
                   (Proxy.mk_updates (Some ProxyStatus.failed) None None None
                      None) (ProxyFailover.db s))).
  assert (F1 : Forall2 kept_or_failed
                 (DatabaseClient.proxies (ProxyFailover.db s))
                 (DatabaseClient.proxies db1)) by (cbn; kept_step).
  destruct (DatabaseClient.findAvailableProxy db1) as [newProxy |];
    [| exact F1].
  pose proof (updateAccountProxy_effect now accountId (Proxy.id newProxy)
                (Some (or_default reason "proxy_failure")) db1) as U.
  change (DatabaseClient.getAccount accountId db1)
    with (DatabaseClient.getAccount accountId (ProxyFailover.db s)) in U.
  rewrite G in U. destruct U as (db2 & -> & (_ & Ep & _)).
  unfold ProxyFailover.handleProxyFailure_resume.
  cbn [snd ProxyFailover.db ProxyFailover.set_db ProxyFailover.release
       ProxyFailover.set_inProgress DatabaseClient.createIncident
       DatabaseClient.randomUUID DatabaseClient.resolveIncident
       DatabaseClient.set_incidents DatabaseClient.proxies].
  rewrite Ep.
  eapply Forall2_trans_of; [exact kept_or_failed_trans | exact F1 |].
  apply Forall2_trans_of
    with (l2 := DatabaseClient.update_where
                  (fun p => (Proxy.id p =? Account.proxyId account)%string)
                  one_less_account (DatabaseClient.proxies db1));
    [exact kept_or_failed_trans | |]; kept_step.
Qed.

Lemma failover_each_proxies (now : Z) (reason : option string)
  (accounts : list Account.t) :
  forall results s,
    Forall2 kept_or_failed
      (DatabaseClient.proxies (ProxyFailover.db s))
      (DatabaseClient.proxies
         (ProxyFailover.db
            (snd (ProxyFailover.failover_each now reason accounts results s)))).
Proof.
  induction accounts as [| account rest IH]; intros results s;
    [apply Forall2_refl_of, kept_or_failed_refl |].
  cbn [ProxyFailover.failover_each].
  pose proof (handleProxyFailure_proxies now (Account.id account) reason s) as F.
  destruct (ProxyFailover.handleProxyFailure now (Account.id account) reason s)
    as [result s1].
  eapply Forall2_trans_of; [exact kept_or_failed_trans | exact F | apply IH].
Qed.


(** ** Maintenance *)



(** ** Degradation *)

(** X10. [handleProxyDegradation] on a consistent store.  For a proxy
    that is not stored nothing changes.  For a stored proxy the health score
    goes down by 15 and not below 0, whether accounts are moved or not, and
    the capacity stays; with a success rate of 50 or more no account is
    moved, the status stays and one incident is added.  The store is
    consistent again in every case. *)
Theorem handleProxyDegradation_effect (now : Z) (proxyId : string)
  (metrics : ProxyFailover.DegradationMetrics) (s : ProxyFailover.t) :
  Consistent (ProxyFailover.db s) ->
  let s' := ProxyFailover.handleProxyDegradation now proxyId metrics s in
  Consistent (ProxyFailover.db s')
  /\ match DatabaseClient.getProxy proxyId (ProxyFailover.db s) with
     | None => s' = s
     | Some proxy =>
         exists p',
           DatabaseClient.getProxy proxyId (ProxyFailover.db s') = Some p'
           /\ Proxy.healthScore p' = Z.max 0 (Proxy.healthScore proxy - 15)
           /\ Proxy.maxAccounts p' = Proxy.maxAccounts proxy
           /\ (50 <= ProxyFailover.m_successRate metrics ->
               Proxy.status p' = Proxy.status proxy
               /\ Proxy.assignedAccounts p' = Proxy.assignedAccounts proxy
               /\ DatabaseClient.accounts (ProxyFailover.db s')
                  = DatabaseClient.accounts (ProxyFailover.db s)
               /\ DatabaseClient.mappings (ProxyFailover.db s')
                  = DatabaseClient.mappings (ProxyFailover.db s)
               /\ count (DatabaseClient.incidents (ProxyFailover.db s'))
                  = count (DatabaseClient.incidents (ProxyFailover.db s)) + 1)
     end.
Proof.
  intro K. cbn zeta. unfold ProxyFailover.handleProxyDegradation.
  destruct (DatabaseClient.getProxy proxyId (ProxyFailover.db s))
    as [proxy |] eqn:G; [| now split].
  cbn [DatabaseClient.createIncident DatabaseClient.randomUUID].
  match goal with
  | |- context [DatabaseClient.updateProxy proxyId ?u ?d] =>
      set (db2 := snd (DatabaseClient.updateProxy proxyId u d))
  end.
  assert (K2 : Consistent db2).
  { revert K. apply Consistent_frame; try reflexivity.
    cbn. now apply update_where_capacity. }
  assert (G2 : find (fun r => (Proxy.id r =? proxyId)%string)
                 (DatabaseClient.proxies db2)
               = Some
                   (Proxy.set_healthScore
                      (Z.max 0 (Proxy.healthScore proxy - 15)) proxy)).
  { unfold db2. cbn [DatabaseClient.updateProxy DatabaseClient.proxies snd
                     Proxy.u_lastTested
                     DatabaseClient.set_proxies DatabaseClient.set_incidents].
    rewrite find_update_where by (intros r E; exact E).
    unfold DatabaseClient.getProxy in G. now rewrite G. }
  destruct (Z.ltb_spec (ProxyFailover.m_successRate metrics) 50) as [L | L].
  - pose proof (Consistent_failover_each now (Some "proactive_degradation")
                  (DatabaseClient.getAccountsByProxy proxyId db2) []
                  (ProxyFailover.set_db db2 s) K2) as KF.
    pose proof (failover_each_proxies now (Some "proactive_degradation")
                  (DatabaseClient.getAccountsByProxy proxyId db2) []
                  (ProxyFailover.set_db db2 s)) as F.
    split; [exact KF |].
    destruct (Forall2_getProxy _ _ _ _ _ kept_or_failed_id F G2)
      as (p' & G' & (_ & H' & M' & _)).
    exists p'. split; [exact G' |]. split; [exact H' |]. split; [exact M' |].
    lia.
  - split; [exact K2 |]. eexists. split; [exact G2 |].
    split; [reflexivity |]. split; [reflexivity |]. intros _.
    conjuncts; try reflexivity.
    unfold db2. cbn. rewrite count_app. reflexivity.
Qed.

Lemma handleProxyDegradation_effect_witness :
  let s' :=
    ProxyFailover.handleProxyDegradation 1700000000001 "mars_002"
      (ProxyFailover.mk_metrics 4200 72 Severity.medium) idle_failover in
  Consistent (ProxyFailover.db s')
  /\ exists p',
       DatabaseClient.getProxy "mars_002" (ProxyFailover.db s') = Some p'
       /\ Proxy.healthScore p' = Z.max 0 (60 - 15)
       /\ Proxy.maxAccounts p' = 2
       /\ (50 <= 72 ->
           Proxy.status p' = ProxyStatus.active
           /\ Proxy.assignedAccounts p' = 0
           /\ DatabaseClient.accounts (ProxyFailover.db s')
              = DatabaseClient.accounts two_proxy_db
           /\ DatabaseClient.mappings (ProxyFailover.db s')
              = DatabaseClient.mappings two_proxy_db
           /\ count (DatabaseClient.incidents (ProxyFailover.db s'))
              = count (DatabaseClient.incidents two_proxy_db) + 1).
Proof.
  apply (handleProxyDegradation_effect 1700000000001 "mars_002"
           (ProxyFailover.mk_metrics 4200 72 Severity.medium) idle_failover).
  apply consistent_Consistent. reflexivity.
Defined.

(** ** Recovery of a proxy *)

(** X11. [recoverProxy] of the failover controller returns false for a proxy
    that is not stored.  For a stored proxy it rejects, whatever the probe
    did: the awaited [testProxy] of the monitor rejects, because its
    [updateProxy] passes [lastTested] as a [Date] that the store refuses to
    bind, and nothing catches the error.  The proxy keeps its status and its
    health score, no incident is resolved, and the whole store is as it
    was. *)
Theorem recoverProxy_rejects (now : Z) (created_at : string -> Z)
  (probe : HealthMonitor.Probe) (proxyId : string) (s : ProxyFailover.t) :
  ProxyFailover.recoverProxy now created_at probe proxyId s
  = match DatabaseClient.getProxy proxyId (ProxyFailover.db s) with
    | None => (Ret false, s)
    | Some _ => (Throw DatabaseClient.bind_error, s)
    end.
Proof.
  unfold ProxyFailover.recoverProxy.
  destruct (DatabaseClient.getProxy proxyId (ProxyFailover.db s));
    [| reflexivity].
  rewrite testProxy_refused. now destruct s.
Qed.

(** A failed proxy whose probe passes: the recovery rejects, and the proxy
    is still failed with its health score of 95. *)
Example recovery_of_a_failed_proxy_rejects :
  ProxyFailover.recoverProxy 1700000000002 same_second ok_probe "mars_001"
    failed_proxy_failover
  = (Throw DatabaseClient.bind_error, failed_proxy_failover)
  /\ option_map (fun p => (Proxy.status p, Proxy.healthScore p))
       (DatabaseClient.getProxy "mars_001"
          (ProxyFailover.db failed_proxy_failover))
     = Some (ProxyStatus.failed, 95).
Proof. split; reflexivity. Qed.

(** ** The failover status *)

Lemma findAvailableProxy_none (db : DatabaseClient.t) :
  (forall p, In p (DatabaseClient.proxies db) -> DatabaseClient.available p = false) ->
  DatabaseClient.findAvailableProxy db = None.
Proof.
  intro N. unfold DatabaseClient.findAvailableProxy.
  now rewrite (filter_none _ _ N).
Qed.

Lemma existsb_over_map {A B : Type} (f : B -> bool) (g : A -> B)
  (l : list A) : existsb f (map g l) = existsb (fun x => f (g x)) l.
Proof.
  induction l as [| x t IH]; cbn; [reflexivity | now rewrite IH].
Qed.

Lemma canFailover_false (s : ProxyFailover.t) :
  ProxyFailover.canFailover (ProxyFailover.getFailoverStatus s) = false ->
  forall p,
    In p (DatabaseClient.proxies (ProxyFailover.db s)) ->
    (Proxy.assignedAccounts p <? Proxy.maxAccounts p) = false.
Proof.
  unfold ProxyFailover.getFailoverStatus. cbn [ProxyFailover.canFailover].
  rewrite existsb_over_map. cbn [ProxyFailover.canAcceptMore]. intros E p I.
  apply not_true_iff_false. intro L. apply not_true_iff_false in E.
  apply E. apply existsb_exists. exists p. split; [| exact L].
  unfold DatabaseClient.getAllProxies. now apply stable_sort_In.
Qed.

(** X12. When [getFailoverStatus] reports [canFailover] as false, that is
    when no proxy has fewer accounts than its capacity, every call of
    [handleProxyFailure] fails and moves nothing: accounts, mappings and the
    counters of the proxies are as before. *)
Theorem no_failover_without_capacity (now : Z) (accountId : string)
  (reason : option string) (s : ProxyFailover.t) :
  ProxyFailover.canFailover (ProxyFailover.getFailoverStatus s) = false ->
  let (result, s') := ProxyFailover.handleProxyFailure now accountId reason s in
  ProxyFailover.success result = false
  /\ ProxyFailover.newProxyId result = None
  /\ DatabaseClient.accounts (ProxyFailover.db s')
     = DatabaseClient.accounts (ProxyFailover.db s)
  /\ DatabaseClient.mappings (ProxyFailover.db s')
     = DatabaseClient.mappings (ProxyFailover.db s)
  /\ map capacity_of (DatabaseClient.proxies (ProxyFailover.db s'))
     = map capacity_of (DatabaseClient.proxies (ProxyFailover.db s)).
Proof.
  intro C. pose proof (canFailover_false s C) as N.
  unfold ProxyFailover.handleProxyFailure,
    ProxyFailover.handleProxyFailure_begin.
  destruct (set_has accountId (ProxyFailover.inProgress s));
    [conjuncts; reflexivity |].
  cbn [ProxyFailover.db ProxyFailover.set_inProgress ProxyFailover.config].
  destruct (DatabaseClient.getAccount accountId (ProxyFailover.db s))
    as [account |]; [| conjuncts; reflexivity].
  destruct (ProxyFailover.enableAutoFailover (ProxyFailover.config s));
    cbn [negb];
    [| cbn [DatabaseClient.createIncident DatabaseClient.randomUUID];
       conjuncts; reflexivity].
  rewrite findAvailableProxy_none.
  - cbn [DatabaseClient.createIncident DatabaseClient.randomUUID
         ProxyFailover.success ProxyFailover.newProxyId ProxyFailover.db
         ProxyFailover.release ProxyFailover.set_db
         ProxyFailover.set_inProgress DatabaseClient.set_incidents
         DatabaseClient.accounts DatabaseClient.mappings
         DatabaseClient.proxies DatabaseClient.updateProxy snd
         Proxy.u_lastTested DatabaseClient.set_proxies].
    conjuncts; try reflexivity. now apply update_where_capacity.
  - intros p' I. cbn [DatabaseClient.updateProxy DatabaseClient.proxies snd
                      Proxy.u_lastTested DatabaseClient.set_proxies] in I.
    apply In_update_where in I. destruct I as (p & I & ->).
    specialize (N p I). unfold DatabaseClient.available.
    destruct (Proxy.id p =? Account.proxyId account)%string.
    + reflexivity.
    + rewrite N. apply andb_false_r.
Qed.

Lemma no_failover_without_capacity_witness :
  let (result, s') :=
    ProxyFailover.handleProxyFailure 1700000000001 "ella_001" None full_house in
  ProxyFailover.success result = false
  /\ ProxyFailover.newProxyId result = None
  /\ DatabaseClient.accounts (ProxyFailover.db s')
     = DatabaseClient.accounts (ProxyFailover.db full_house)
  /\ DatabaseClient.mappings (ProxyFailover.db s')
     = DatabaseClient.mappings (ProxyFailover.db full_house)
  /\ map capacity_of (DatabaseClient.proxies (ProxyFailover.db s'))
     = map capacity_of (DatabaseClient.proxies (ProxyFailover.db full_house)).
Proof.
  apply (no_failover_without_capacity 1700000000001 "ella_001" None full_house).
  reflexivity.
Defined.

(** ** Retrying *)

Lemma total_app (l l' : list Z) : total (l ++ l') = total l + total l'.
Proof.
  unfold total. induction l as [| x t IH]; cbn; [reflexivity |].
  rewrite IH. lia.
Qed.

(** The delays of a doubling backoff add up to [delay * (2^n - 1)]. *)
Lemma total_backoff (delay : Z) (n : nat) :
  total (backoff delay n) = delay * (2 ^ Z.of_nat n - 1).
Proof.
  unfold backoff. induction n as [| n IH].
  - cbn. lia.
  - rewrite seq_S, map_app, total_app, IH. cbn [map total fold_right Nat.add].
    rewrite Nat2Z.inj_succ, Z.pow_succ_r by lia. lia.
Qed.

(** The loop of [withRetry] from the call number [c] on, when the next [k]
    calls throw and the one after returns. *)
Lemma retry_loop_success {T : Type} (config : ProxyFailover.FailoverConfig)
  (operation : nat -> outcome T) (value : T) (k : nat) :
  forall (c r : nat) (lastError : option string) (slept : list Z),
    (forall j, (j < k)%nat -> exists e, operation (c + j)%nat = Throw e) ->
    operation (c + k)%nat = Ret value ->
    (k < r)%nat ->
    Z.of_nat (c + r) = ProxyFailover.maxRetries config ->
    ProxyFailover.retry_loop config operation r c lastError slept
    = (ProxyFailover.Resolved value,
       (slept
        ++ map (fun j => ProxyFailover.retryDelayMs config * 2 ^ Z.of_nat j)
             (seq c k))%list).
Proof.
  induction k as [| k IH]; intros c r lastError slept F Hv L M.
  - destruct r as [| r]; [lia |]. cbn [ProxyFailover.retry_loop seq map].
    rewrite Nat.add_0_r in Hv. rewrite Hv. now rewrite app_nil_r.
  - destruct r as [| r]; [lia |]. cbn [ProxyFailover.retry_loop].
    destruct (F 0%nat ltac:(lia)) as [e E]. rewrite Nat.add_0_r in E.
    rewrite E.
    destruct (Z.ltb_spec (Z.of_nat c + 1) (ProxyFailover.maxRetries config))
      as [_ | B]; [| lia].
    rewrite (IH (S c) r (Some e)); try lia.
    + rewrite <- app_assoc. cbn [seq map app].
      replace (Z.of_nat c + 1 - 1) with (Z.of_nat c) by lia. reflexivity.
    + intros j J. replace (S c + j)%nat with (c + S j)%nat by lia.
      apply F. lia.
    + replace (S c + k)%nat with (c + S k)%nat by lia. exact Hv.
Qed.

(** The loop of [withRetry] when every call from the number [c] on
    throws. *)
Lemma retry_loop_exhausted {T : Type} (config : ProxyFailover.FailoverConfig)
  (operation : nat -> outcome T) (errors : nat -> string) :
  (forall j, operation j = Throw (errors j)) ->
  forall (r c : nat) (lastError : option string) (slept : list Z),
    Z.of_nat (c + r) = ProxyFailover.maxRetries config ->
    ProxyFailover.retry_loop config operation r c lastError slept
    = (match r with
       | O =>
           match lastError with
           | Some e => ProxyFailover.Rejected e
           | None => ProxyFailover.RejectedUndefined
           end
       | S r' => ProxyFailover.Rejected (errors (c + r')%nat)
       end,
       (slept
        ++ map (fun j => ProxyFailover.retryDelayMs config * 2 ^ Z.of_nat j)
             (seq c (Nat.pred r)))%list).
Proof.
  intro F. induction r as [| r IH]; intros c lastError slept M.
  - cbn. now rewrite app_nil_r.
  - cbn [ProxyFailover.retry_loop Nat.pred]. rewrite F.
    rewrite (IH (S c) (Some (errors c))) by lia.
    destruct r as [| r].
    + cbn [seq map Nat.pred]. rewrite Nat.add_0_r.
      destruct (Z.ltb_spec (Z.of_nat c + 1) (ProxyFailover.maxRetries config));
        [lia | reflexivity].
    + destruct (Z.ltb_spec (Z.of_nat c + 1) (ProxyFailover.maxRetries config));
        [| lia].
      cbn [Nat.pred seq map]. rewrite <- app_assoc. cbn [app].
      replace (Z.of_nat c + 1 - 1) with (Z.of_nat c) by lia.
      replace (S c + r)%nat with (c + S r)%nat by lia. reflexivity.
Qed.

(** X13. [withRetry] when the operation throws on its first [k] calls and
    returns on the next, with [k] below [maxRetries]: the promise resolves
    with that value; the operation was called [k + 1] times; before each
    retry the loop slept, first [retryDelayMs], then twice as long each
    time, [retryDelayMs * (2^k - 1)] milliseconds in all. *)
Theorem withRetry_first_success {T : Type}
  (config : ProxyFailover.FailoverConfig) (operation : nat -> outcome T)
  (k : nat) (value : T) :
  (forall j, (j < k)%nat -> exists e, operation j = Throw e) ->
  operation k = Ret value ->
  Z.of_nat k < ProxyFailover.maxRetries config ->
  ProxyFailover.withRetry config operation
  = (ProxyFailover.Resolved value,
     backoff (ProxyFailover.retryDelayMs config) k)
  /\ total (snd (ProxyFailover.withRetry config operation))
     = ProxyFailover.retryDelayMs config * (2 ^ Z.of_nat k - 1).
Proof.
  intros F Hv L.
  assert (E : ProxyFailover.withRetry config operation
              = (ProxyFailover.Resolved value,
                 backoff (ProxyFailover.retryDelayMs config) k)).
  { unfold ProxyFailover.withRetry.
    rewrite (retry_loop_success config operation value k); try assumption;
      try reflexivity; lia. }
  split; [exact E |]. rewrite E. apply total_backoff.
Qed.

Lemma withRetry_first_success_witness :
  ProxyFailover.withRetry ProxyFailover.default_config third_time_lucky
  = (ProxyFailover.Resolved 7, backoff 5000 2)
  /\ total
       (snd (ProxyFailover.withRetry ProxyFailover.default_config
               third_time_lucky))
     = 5000 * (2 ^ 2 - 1).
Proof.
  apply (withRetry_first_success ProxyFailover.default_config third_time_lucky
           2 7).
  - intros [| [| j]] J; [now exists "ECONNRESET" | now exists "ETIMEDOUT" | lia].
  - reflexivity.
  - cbn. lia.
Defined.

(** X14. [withRetry] when every call of the operation throws.  With
    [maxRetries] of at least 1 the operation is called [maxRetries] times
    and the promise rejects with the error of the last call; the loop slept
    between the calls and not after the last, [retryDelayMs * (2^(maxRetries
    - 1) - 1)] milliseconds in all.  With [maxRetries] below 1 the operation
    is never called and the promise rejects with [undefined]. *)
Theorem withRetry_exhausted {T : Type}
  (config : ProxyFailover.FailoverConfig) (operation : nat -> outcome T)
  (errors : nat -> string) :
  (forall j, operation j = Throw (errors j)) ->
  ProxyFailover.withRetry config operation
  = (if ProxyFailover.maxRetries config <? 1
     then (ProxyFailover.RejectedUndefined, [])
     else
       (ProxyFailover.Rejected
          (errors (Z.to_nat (ProxyFailover.maxRetries config - 1))),
        backoff (ProxyFailover.retryDelayMs config)
          (Z.to_nat (ProxyFailover.maxRetries config - 1)))).
Proof.
  intro F. unfold ProxyFailover.withRetry.
  destruct (Z.ltb_spec (ProxyFailover.maxRetries config) 1) as [L | L].
  - replace (Z.to_nat (ProxyFailover.maxRetries config)) with 0%nat by lia.
    reflexivity.
  - rewrite (retry_loop_exhausted config operation errors F) by lia.
    destruct (Z.to_nat (ProxyFailover.maxRetries config)) as [| r] eqn:E;
      [lia |].
    cbn [Nat.pred Nat.add app].
    replace (Z.to_nat (ProxyFailover.maxRetries config - 1)) with r by lia.
    reflexivity.
Qed.

Lemma withRetry_exhausted_witness :
  ProxyFailover.withRetry ProxyFailover.default_config never_lucky
  = (ProxyFailover.Rejected "failure 2", [5000; 10000]).
Proof.
  apply (withRetry_exhausted ProxyFailover.default_config never_lucky
           (fresh_id "failure ")).
  reflexivity.
Defined.

(** ** The manager's maps *)

Section MoreMapFacts.
Context {A : Type} (key : A -> string).

Lemma map_get_set_other (k : string) (v : A) (m : list A) :
  k <> key v ->
  AccountProxyManager.map_get key k (AccountProxyManager.map_set key v m)
  = AccountProxyManager.map_get key k m.
Proof.
  intro N. unfold AccountProxyManager.map_get.
  induction m as [| x t IH]; cbn.
  - apply String.eqb_neq in N. now rewrite String.eqb_sym, N.
  - destruct (key x =? key v)%string eqn:E; cbn.
    + apply String.eqb_eq in E.
      assert (Nv : (key v =? k)%string = false)
        by (apply String.eqb_neq; congruence).
      assert (Nx : (key x =? k)%string = false)
        by (apply String.eqb_neq; congruence).
      now rewrite Nv, Nx.
    + destruct (key x =? k)%string; [reflexivity | exact IH].
Qed.

Lemma map_get_mutate_other (k k' : string) (f : A -> A) (m : list A) :
  k <> k' -> (forall x, key (f x) = key x) ->
  AccountProxyManager.map_get key k (AccountProxyManager.map_mutate key k' f m)
  = AccountProxyManager.map_get key k m.
Proof.
  intros N K. apply (find_update_where_other (fun x => (key x =? k)%string)).
  - intros r _. now rewrite K.
  - intros r E' E. apply String.eqb_eq in E, E'. congruence.
Qed.


End MoreMapFacts.

(** ** Adding a proxy *)


(** ** Updating an account *)


(** ** Resolving incidents *)


(** ** Recovery of a proxy by the manager *)




(** ** The health check of the manager *)

Section MapKeys.
Context {A : Type} (key : A -> string).



End MapKeys.








(** ** The stats of the manager *)

(** X20. [getStats] of the manager, whose health scores are from 0 to
    100.  Every proxy is counted once, as active or as failing; the counts
    under the four phase keys add up to [totalAccounts]; the active accounts
    and the accounts that need attention are at most the total, the open
    incidents at most the incidents stored; the average health score is from
    0 to 100, and 0 without accounts. *)
Theorem manager_getStats_totals (createdAt : string -> Z)
  (s : AccountProxyManager.t) :
  (forall a,
      In a (AccountProxyManager.accounts s) ->
      0 <= Account.healthScore a <= 100) ->
  let stats := AccountProxyManager.getStats createdAt s in
  AccountProxyManager.activeProxies stats
  + AccountProxyManager.failingProxies stats
  = AccountProxyManager.totalProxies stats
  /\ or_zero (AccountProxyManager.phaseDistribution stats Phase.warmup)
     + or_zero (AccountProxyManager.phaseDistribution stats Phase.soft)
     + or_zero (AccountProxyManager.phaseDistribution stats Phase.growth)
     + or_zero (AccountProxyManager.phaseDistribution stats Phase.full)
     = AccountProxyManager.totalAccounts stats
  /\ 0 <= AccountProxyManager.activeAccounts stats
     <= AccountProxyManager.totalAccounts stats
  /\ 0 <= AccountProxyManager.accountsNeedingAttention stats
     <= AccountProxyManager.totalAccounts stats
  /\ 0 <= AccountProxyManager.openIncidents stats
     <= count (AccountProxyManager.incidents s)
  /\ 0 <= AccountProxyManager.averageHealthScore stats <= 100
  /\ (AccountProxyManager.totalAccounts stats = 0 ->
      AccountProxyManager.averageHealthScore stats = 0).
Proof.
  intros B stats. subst stats. unfold AccountProxyManager.getStats.
  cbn [AccountProxyManager.activeProxies AccountProxyManager.failingProxies
       AccountProxyManager.totalProxies AccountProxyManager.phaseDistribution
       AccountProxyManager.totalAccounts AccountProxyManager.activeAccounts
       AccountProxyManager.accountsNeedingAttention
       AccountProxyManager.openIncidents
       AccountProxyManager.averageHealthScore].
  unfold AccountProxyManager.getAllAccounts, AccountProxyManager.getAllProxies,
    AccountProxyManager.getOpenIncidents, AccountProxyManager.getAllIncidents.
  split; [apply count_filter_split |].
  split.
  { rewrite !key_count_or_zero by apply count_filter_le.
    apply count_by_phase. }
  split; [apply count_filter_le |]. split; [apply count_filter_le |].
  split.
  { rewrite <- (count_stable_sort (AccountProxyManager.newest_first createdAt)
                  (AccountProxyManager.incidents s)).
    apply count_filter_le. }
  destruct (AccountProxyManager.accounts s) as [| a t] eqn:E.
  - split; [lia | reflexivity].
  - split.
    + apply round_div_bounds.
      * unfold count. cbn [Datatypes.length]. lia.
      * rewrite fold_left_sum_health, Z.add_0_l.
        now apply sum_health_bounds.
    + unfold count. cbn [Datatypes.length]. lia.
Qed.

Lemma manager_getStats_totals_witness :
  let stats := AccountProxyManager.getStats same_second stranded_manager in
  AccountProxyManager.activeProxies stats
  + AccountProxyManager.failingProxies stats
  = AccountProxyManager.totalProxies stats
  /\ AccountProxyManager.failingProxies stats = 2
  /\ AccountProxyManager.openIncidents stats = 2
  /\ AccountProxyManager.averageHealthScore stats = 100.
Proof.
  destruct (manager_getStats_totals same_second stranded_manager)
    as (P & _).
  - intros a [<- | []]. vm_compute. split; discriminate.
  - split; [exact P |]. repeat split.
Defined.

(** ** Suspended and banned accounts *)

(** X21. [handleAccountIssue]: an event for an account that is not
    stored, or an event of another type than [account.suspended] and
    [account.banned], changes nothing.  For a stored account the two events
    set its status to [suspended] and [banned], leave every other account
    and every proxy as they are, so that the account keeps its slot on its
    proxy, and record an open, critical incident for the account and its
    proxy; the incident of a ban has the type [proxy_failure]. *)
Theorem handleAccountIssue_effect (accountId type : string)
  (reason : option string) (s : AccountProxyManager.t) :
  let s' := AccountProxyManager.handleAccountIssue accountId type reason s in
  match AccountProxyManager.getAccount accountId s with
  | None => s' = s
  | Some account =>
      if ((type =? "account.suspended") || (type =? "account.banned"))%string
      then
        let banned := negb (type =? "account.suspended")%string in
        AccountProxyManager.getAccount accountId s'
        = Some
            (Account.set_status
               (if banned then AccountStatus.banned
                else AccountStatus.suspended) account)
        /\ (forall k,
               k <> accountId ->
               AccountProxyManager.getAccount k s'
               = AccountProxyManager.getAccount k s)
        /\ AccountProxyManager.proxies s' = AccountProxyManager.proxies s
        /\ ~ In accountId
               (map Account.id (AccountProxyManager.getActiveAccounts s'))
        /\ exists incident,
             AccountProxyManager.getIncident (Incident.id incident) s'
             = Some incident
             /\ Incident.type incident
                = (if banned then IncidentType.proxy_failure
                   else IncidentType.account_suspended)
             /\ Incident.severity incident = Severity.critical
             /\ Incident.status incident = IncidentStatus.open
             /\ Incident.accountId incident = Some accountId
             /\ Incident.proxyId incident = Some (Account.proxyId account)
             /\ Incident.description incident
                = Some
                    (or_default reason
                       (if banned then "Account banned by Twitter"
                        else "Account suspended by Twitter"))
      else s' = s
  end.
Proof.
  intro s'. subst s'. unfold AccountProxyManager.handleAccountIssue.
  destruct (AccountProxyManager.getAccount accountId s) as [account |] eqn:G;
    [| reflexivity].
  assert (R : forall status d,
             let s1 :=
               AccountProxyManager.set_accounts
                 (AccountProxyManager.map_mutate Account.id accountId
                    (Account.set_status status) (AccountProxyManager.accounts s))
                 s in
             let s' := snd (AccountProxyManager.createIncident d s1) in
             status <> AccountStatus.active ->
             AccountProxyManager.getAccount accountId s'
             = Some (Account.set_status status account)
             /\ (forall k,
                    k <> accountId ->
                    AccountProxyManager.getAccount k s'
                    = AccountProxyManager.getAccount k s)
             /\ AccountProxyManager.proxies s' = AccountProxyManager.proxies s
             /\ ~ In accountId
                    (map Account.id (AccountProxyManager.getActiveAccounts s'))
             /\ AccountProxyManager.getIncident
                  (Incident.id (fst (AccountProxyManager.createIncident d s1)))
                  s'
                = Some (fst (AccountProxyManager.createIncident d s1))).
  { intros status d s1 s' N. subst s' s1.
    unfold AccountProxyManager.createIncident, AccountProxyManager.generateId,
      AccountProxyManager.getAccount, AccountProxyManager.getIncident,
      AccountProxyManager.getActiveAccounts, AccountProxyManager.getAllAccounts
      in *.
    cbn [fst snd AccountProxyManager.accounts AccountProxyManager.incidents
         AccountProxyManager.proxies AccountProxyManager.set_accounts
         AccountProxyManager.set_incidents].
    split; [| split; [| split; [reflexivity | split]]].
    - rewrite map_get_mutate by reflexivity. now rewrite G.
    - intros k K. now apply map_get_mutate_other.
    - intro I. apply in_map_iff in I. destruct I as (x & E & I).
      apply filter_In in I. destruct I as [I A].
      unfold AccountProxyManager.map_mutate in I. apply in_map_iff in I.
      destruct I as (y & Ey & _). rewrite <- Ey in A, E.
      destruct (Account.id y =? accountId)%string eqn:B.
      + cbn [Account.set_status Account.status] in A.
        destruct status; try discriminate A. now apply N.
      + apply String.eqb_neq in B. now apply B.
    - match goal with
      | |- AccountProxyManager.map_get _ _ (AccountProxyManager.map_set _ ?v _)
           = _ => exact (map_get_set Incident.id v _)
      end. }
  destruct (type =? "account.suspended")%string eqn:T1; cbn [orb negb].
  - match goal with
    | |- context [AccountProxyManager.createIncident ?d _] =>
        destruct (R AccountStatus.suspended d) as (A1 & A2 & A3 & A4 & A5);
          [discriminate |]
    end.
    split; [exact A1 |]. split; [exact A2 |]. split; [exact A3 |].
    split; [exact A4 |]. eexists. split; [exact A5 |]. repeat split.
  - destruct (type =? "account.banned")%string eqn:T2; [| reflexivity].
    match goal with
    | |- context [AccountProxyManager.createIncident ?d _] =>
        destruct (R AccountStatus.banned d) as (A1 & A2 & A3 & A4 & A5);
          [discriminate |]
    end.
    split; [exact A1 |]. split; [exact A2 |]. split; [exact A3 |].
    split; [exact A4 |]. eexists. split; [exact A5 |]. repeat split.
Qed.

(** ** Onboarding, whatever happens *)

Section Settling.
Import AccountProxyWorkflows.

Lemma on_manager_validate (config : OnboardingConfig) :
  exists f, on_manager f (validate config).
Proof.
  exists (fun m =>
            (if empty (accountId config) || empty (name config)
                || empty (twitterHandle config)
             then Throw "Missing required fields: accountId, name, twitterHandle"
             else if empty (adspowerProfileId config)
             then Throw "Missing required field: adspowerProfileId"
             else Ret Valid, m)).
  intro s. unfold validate. cbn [fst snd]. rewrite set_manager_same.
  destruct (empty (accountId config) || empty (name config)
            || empty (twitterHandle config)); [reflexivity |].
  destruct (empty (adspowerProfileId config)); reflexivity.
Qed.

Lemma on_manager_check_proxies : exists f, on_manager f check_proxies.
Proof.
  exists (fun m =>
            (match AccountProxyManager.findAvailableProxy m with
             | None => Throw AccountProxyManager.no_proxy_error
             | Some availableProxy =>
                 Ret (AvailableProxyId (Proxy.id availableProxy))
             end, m)).
  intro s. unfold check_proxies. cbn [fst snd]. rewrite set_manager_same.
  destruct (AccountProxyManager.findAvailableProxy (manager s)); reflexivity.
Qed.

Lemma on_manager_create_account (now : Z) (config : OnboardingConfig) :
  exists f, on_manager f (create_account now config).
Proof.
  exists (fun m =>
            match
              AccountProxyManager.createAccount
                (Account.mk (accountId config) (name config)
                   (twitterHandle config) (email config) (phone config)
                   (phase_or_warmup (initialPhase config)) 1
                   AccountStatus.active 100 (adspowerProfileId config) None ""
                   0 0 0 0 (Some now) 0 0
                   (getActionLimitForPhase
                      (phase_or_warmup (initialPhase config)))
                   (notes config)) m
            with
            | (Ret account, m') => (Ret (Created account), m')
            | (Throw e, m') => (Throw e, m')
            end).
  intro s. unfold create_account.
  destruct (AccountProxyManager.createAccount _ (manager s)) as [[a | e] m'];
    reflexivity.
Qed.

Lemma on_manager_verify_assignment (config : OnboardingConfig) :
  exists f, on_manager f (verify_assignment config).
Proof.
  exists (fun m =>
            (match AccountProxyManager.getAccount (accountId config) m with
             | None => Throw "Account created but proxy assignment failed"
             | Some account =>
                 if empty (Account.proxyId account)
                 then Throw "Account created but proxy assignment failed"
                 else Ret (AssignedProxyId (Account.proxyId account))
             end, m)).
  intro s. unfold verify_assignment. cbn [fst snd]. rewrite set_manager_same.
  destruct (AccountProxyManager.getAccount (accountId config) (manager s))
    as [account |]; [| reflexivity].
  destruct (empty (Account.proxyId account)); reflexivity.
Qed.

Lemma on_manager_health_check (now : Z) (probe : outcome Z)
  (config : OnboardingConfig) :
  exists f, on_manager f (health_check now probe config).
Proof.
  exists (fun m =>
            match
              find
                (fun p =>
                   existsb
                     (fun a => (Account.id a =? accountId config)%string)
                     (AccountProxyManager.getAccountsByProxy (Proxy.id p) m))
                (AccountProxyManager.getAllProxies m)
            with
            | Some proxy =>
                match probe with
                | Ret elapsed =>
                    let (testResult, m') :=
                      AccountProxyManager.testProxy now elapsed (Proxy.id proxy)
                        m in
                    (Ret (ProxyTest testResult), m')
                | Throw e => (Throw e, m)
                end
            | None => (Ret Skipped, m)
            end).
  intro s. unfold health_check.
  destruct (find _ (AccountProxyManager.getAllProxies (manager s)))
    as [proxy |]; [| cbn [fst snd]; now rewrite set_manager_same].
  destruct probe as [elapsed | e];
    [| cbn [fst snd]; now rewrite set_manager_same].
  destruct (AccountProxyManager.testProxy now elapsed (Proxy.id proxy)
              (manager s)); reflexivity.
Qed.

Lemma on_manager_complete : exists f, on_manager f complete.
Proof.
  exists (fun m => (Ret Completed, m)). intro s. unfold complete, ret.
  cbn [fst snd]. now rewrite set_manager_same.
Qed.

Lemma onboarding_steps_on_manager (now : Z) (probe : outcome Z)
  (config : OnboardingConfig) :
  Forall (fun p => exists f, on_manager f (snd p))
    (onboarding_steps now probe config).
Proof.
  repeat constructor; cbn [snd].
  - apply on_manager_validate.
  - apply on_manager_check_proxies.
  - apply on_manager_create_account.
  - apply on_manager_verify_assignment.
  - apply on_manager_health_check.
  - apply on_manager_complete.
Qed.

Lemma settled_step (now : Z) (n : nat) (stepName : string)
  (res : outcome StepOutput) :
  Step.name (settled now n stepName res) = stepName
  /\ match res with
     | Ret _ => step_completed (settled now n stepName res)
     | Throw e => step_failed e (settled now n stepName res)
     end.
Proof. destruct res; repeat split. Qed.

(** A run of steps that work on the manager: the steps are appended to the
    workflow, completed up to the one that threw. *)
Lemma run_steps_settles (now : Z) (wid : string)
  (ops : list (string * M StepOutput)) :
  Forall (fun p => exists f, on_manager f (snd p)) ops ->
  forall (s : t) (m : AccountProxyManager.t) (w : Workflow.t) (n : nat),
    tracks wid s m w n ->
    exists res s' m' new n',
      run_steps now wid ops s = (res, s')
      /\ tracks wid s' m' (Workflow.set_steps (Workflow.steps w ++ new)%list w)
           n'
      /\ (n <= n')%nat
      /\ match res with
         | Ret _ =>
             map Step.name new = map fst ops /\ Forall step_completed new
         | Throw e =>
             exists done failed,
               new = (done ++ [failed])%list
               /\ Forall step_completed done
               /\ step_failed e failed
               /\ map Step.name new
                  = firstn (Datatypes.length new) (map fst ops)
         end.
Proof.
  induction ops as [| [stepName operation] rest IH]; intros F s m w n T.
  - exists (Ret tt), s, m, [], n. cbn [run_steps ret].
    split; [reflexivity |]. rewrite app_nil_r.
    split; [now destruct w |]. split; [lia |].
    split; [reflexivity | constructor].
  - inversion F as [| ? ? [f Hf] F']; subst. cbn [snd] in Hf.
    destruct (executeStep_run now wid stepName operation s m (snd (f m)) w n
                (fst (f m)) T) as (s1 & E1 & T1).
    { intros s2 <-. apply Hf. }
    cbn [run_steps]. unfold bind. rewrite E1.
    destruct (settled_step now n stepName (fst (f m))) as [Nm St].
    destruct (fst (f m)) as [output | e].
    + destruct (IH F' s1 _ _ _ T1)
        as (res & s' & m' & new & n' & E & T' & L & R).
      exists res, s', m', (settled now n stepName (Ret output) :: new), n'.
      split; [exact E |].
      cbn [Workflow.steps Workflow.set_steps] in T'.
      rewrite <- app_assoc in T'. split; [exact T' |]. split; [lia |].
      destruct res as [[] | e].
      * destruct R as [Rn Rc]. cbn [map fst]. rewrite Rn, Nm.
        split; [reflexivity | now constructor].
      * destruct R as (done & failed & -> & Dc & Ff & Rn).
        exists (settled now n stepName (Ret output) :: done), failed.
        split; [reflexivity |]. split; [now constructor |].
        split; [exact Ff |].
        cbn [map fst Datatypes.length firstn app]. now rewrite Nm, Rn.
    + exists (Throw e), s1, (snd (f m)), [settled now n stepName (Throw e)],
        (S n).
      split; [reflexivity |]. split; [exact T1 |]. split; [lia |].
      exists [], (settled now n stepName (Throw e)).
      split; [reflexivity |]. split; [constructor |]. split; [exact St |].
      cbn [map fst Datatypes.length firstn]. now rewrite Nm.
Qed.

(** The body of [onboardAccount] is the run of its six steps, followed by the
    completion of the workflow. *)
Lemma onboarding_body (now : Z) (probe : outcome Z) (config : OnboardingConfig)
  (wid : string) (s : t) :
  (executeStep now wid "validate" (validate config) ;;
   executeStep now wid "check_proxies" check_proxies ;;
   executeStep now wid "create_account" (create_account now config) ;;
   executeStep now wid "verify_assignment" (verify_assignment config) ;;
   executeStep now wid "health_check" (health_check now probe config) ;;
   executeStep now wid "complete" complete ;;
   completeWorkflow now wid) s
  = (run_steps now wid (onboarding_steps now probe config) ;;
     completeWorkflow now wid) s.
Proof.
  unfold onboarding_steps. cbn [run_steps]. unfold bind, ret.
  repeat match goal with
         | |- context [executeStep ?a ?b ?c ?d ?x] =>
             destruct (executeStep a b c d x) as [[? | ?] ?]
         end; reflexivity.
Qed.

(** [onboardAccount], whatever its steps do. *)
Lemma onboardAccount_run (now : Z) (probe : outcome Z)
  (config : OnboardingConfig) (s : t) :
  exists res s' w,
    onboardAccount now probe config s = (res, s')
    /\ getWorkflow (fresh_id "wf-" (ids s)) s' = Some w
    /\ Workflow.id w = fresh_id "wf-" (ids s)
    /\ Workflow.type w = WorkflowType.onboarding
    /\ Workflow.metadata w = config
    /\ Workflow.startedAt w = Some now
    /\ Workflow.completedAt w = Some now
    /\ (ids s < ids s')%nat
    /\ match res with
       | Ret returned =>
           returned = Some w
           /\ Workflow.status w = WorkflowStatus.completed
           /\ map Step.name (Workflow.steps w)
              = map fst (onboarding_steps now probe config)
           /\ Forall step_completed (Workflow.steps w)
       | Throw e =>
           Workflow.status w = WorkflowStatus.failed
           /\ (exists done failed,
                  Workflow.steps w = (done ++ [failed])%list
                  /\ Forall step_completed done
                  /\ step_failed e failed
                  /\ map Step.name (Workflow.steps w)
                     = firstn (Datatypes.length (Workflow.steps w))
                         (map fst (onboarding_steps now probe config)))
           /\ exists incident,
                AccountProxyManager.getIncident (Incident.id incident)
                  (manager s') = Some incident
                /\ failure_incident e incident
       end.
Proof.
  unfold onboardAccount, createWorkflow, generateId.
  set (wid := fresh_id "wf-" (ids s)).
  set (workflow := Workflow.mk wid WorkflowType.onboarding
                     WorkflowStatus.running [] (Some now) None config).
  set (s0 := set_workflows
               (AccountProxyManager.map_set Workflow.id workflow
                  (workflows (mk (manager s) (workflows s) (S (ids s)))))
               (mk (manager s) (workflows s) (S (ids s)))).
  change (Workflow.id workflow) with wid.
  change (Workflow.type workflow) with WorkflowType.onboarding.
  rewrite onboarding_body.
  assert (T0 : tracks wid s0 (manager s) workflow (S (ids s))).
  { unfold tracks. split; [reflexivity |]. split.
    - unfold getWorkflow, s0. cbn [workflows set_workflows].
      exact (map_get_set Workflow.id workflow _).
    - split; [reflexivity |]. split; [reflexivity | constructor]. }
  destruct (run_steps_settles now wid (onboarding_steps now probe config)
              (onboarding_steps_on_manager now probe config) s0 _ _ _ T0)
    as (res & s1 & m1 & new & n1 & E & (Tm & Tw & Tn & _) & L & R).
  unfold bind at 1. rewrite E. cbn [Workflow.steps app] in Tw.
  destruct res as [[] | e].
  - unfold completeWorkflow. eexists _, _, _. split; [reflexivity |].
    rewrite getWorkflow_mutate by reflexivity. rewrite Tw.
    cbn [option_map]. split; [reflexivity |].
    destruct R as [Rn Rc].
    conjuncts; try reflexivity; try assumption.
    cbn [ids mutate_workflow set_workflows]. lia.
  - unfold failWorkflow.
    destruct (AccountProxyManager.createIncident _ _) as [incident m] eqn:C.
    eexists _, _, _. split; [reflexivity |].
    change (getWorkflow wid (set_manager m ?x)) with (getWorkflow wid x).
    rewrite getWorkflow_mutate by reflexivity. rewrite Tw.
    cbn [option_map]. split; [reflexivity |].
    conjuncts; try reflexivity; try assumption.
    + cbn [ids mutate_workflow set_workflows set_manager]. lia.
    + exists incident.
      unfold AccountProxyManager.createIncident,
        AccountProxyManager.generateId in C.
      injection C as <- <-. cbn [manager set_manager].
      split; [| repeat split].
      unfold AccountProxyManager.getIncident.
      cbn [AccountProxyManager.incidents AccountProxyManager.set_incidents].
      match goal with
      | |- AccountProxyManager.map_get _ _ (AccountProxyManager.map_set _ ?v _)
           = _ => exact (map_get_set Incident.id v _)
      end.
Qed.
End Settling.

Section Onboardings.
Import AccountProxyWorkflows.

Lemma getWorkflow_mutate_other (k wid : string) (f : Workflow.t -> Workflow.t)
  (s : t) :
  k <> wid ->
  (forall w, Workflow.id (f w) = Workflow.id w) ->
  getWorkflow k (mutate_workflow wid f s) = getWorkflow k s.
Proof.
  intros N K. unfold getWorkflow, mutate_workflow. cbn [workflows set_workflows].
  now apply map_get_mutate_other.
Qed.

(** A step of the workflow [wid] leaves the other workflows alone. *)
Lemma executeStep_frame (now : Z) (wid stepName k : string)
  (operation : M StepOutput) (s : t) :
  (exists f, on_manager f operation) ->
  k <> wid ->
  getWorkflow k (snd (executeStep now wid stepName operation s))
  = getWorkflow k s.
Proof.
  intros [f Hf] N. unfold executeStep, generateId. rewrite Hf.
  destruct (fst (f _)); cbn [snd]; unfold mutate_step;
    rewrite getWorkflow_mutate_other by (try exact N; reflexivity);
    change (getWorkflow k (set_manager ?m ?x)) with (getWorkflow k x);
    now rewrite getWorkflow_mutate_other by (try exact N; reflexivity).
Qed.

Lemma run_steps_frame (now : Z) (wid k : string)
  (ops : list (string * M StepOutput)) :
  Forall (fun p => exists f, on_manager f (snd p)) ops ->
  k <> wid ->
  forall s, getWorkflow k (snd (run_steps now wid ops s)) = getWorkflow k s.
Proof.
  intros F N. induction ops as [| [stepName operation] rest IH]; intro s;
    [reflexivity |].
  inversion F as [| ? ? Hf F']; subst. cbn [run_steps]. unfold bind.
  pose proof (executeStep_frame now wid stepName k operation s Hf N) as E.
  destruct (executeStep now wid stepName operation s) as [[output | e] s1];
    cbn [snd] in E; [| exact E].
  now rewrite IH.
Qed.

(** An onboarding leaves the workflows of other ids alone. *)
Lemma onboardAccount_frame (now : Z) (probe : outcome Z)
  (config : OnboardingConfig) (k : string) (s : t) :
  k <> fresh_id "wf-" (ids s) ->
  getWorkflow k (snd (onboardAccount now probe config s)) = getWorkflow k s.
Proof.
  intro N. unfold onboardAccount, createWorkflow, generateId.
  cbn [Workflow.id Workflow.type]. rewrite onboarding_body.
  unfold bind at 1.
  pose proof (run_steps_frame now (fresh_id "wf-" (ids s)) k
                (onboarding_steps now probe config)
                (onboarding_steps_on_manager now probe config) N) as R.
  match goal with
  | |- context [run_steps _ _ _ ?x] =>
      specialize (R x); destruct (run_steps now _ _ x) as [[[] | e] s1]
  end; cbn [snd] in *.
  - unfold completeWorkflow. cbn [snd].
    rewrite getWorkflow_mutate_other by (try exact N; reflexivity).
    rewrite R. unfold getWorkflow. cbn [workflows set_workflows].
    now apply map_get_set_other.
  - unfold failWorkflow.
    destruct (AccountProxyManager.createIncident _ _) as [incident m].
    change (getWorkflow k (set_manager m ?x)) with (getWorkflow k x).
    rewrite getWorkflow_mutate_other by (try exact N; reflexivity).
    rewrite R. unfold getWorkflow. cbn [workflows set_workflows].
    now apply map_get_set_other.
Qed.

Lemma onboard_each_run (now : Z) (probe_of : string -> outcome Z)
  (all configs : list OnboardingConfig) :
  incl configs all ->
  forall (workflows : list Workflow.t) (errors : list string) (s : t),
    Forall (onboarded_in all s) workflows ->
    Forall (error_line_of all) errors ->
    let '(workflows', errors', s') :=
      onboard_each now probe_of configs workflows errors s in
    count workflows' + count errors'
    = count workflows + count errors + count configs
    /\ Forall (onboarded_in all s') workflows'
    /\ Forall (error_line_of all) errors'
    /\ (ids s <= ids s')%nat.
Proof.
  induction configs as [| c rest IH]; intros I workflows errors s Fw Fe.
  - cbn [onboard_each]. change (count []) with 0.
    split; [lia |]. split; [exact Fw |]. split; [exact Fe | lia].
  - cbn [onboard_each].
    assert (Ic : In c all) by (apply I; now left).
    assert (Ir : incl rest all) by (intros x X; apply I; now right).
    destruct (onboardAccount_run now (probe_of (accountId c)) c s)
      as (res & s1 & w & E & Gw & Ew & _ & Em & _ & _ & L & R).
    pose proof (onboardAccount_frame now (probe_of (accountId c)) c) as Fr.
    rewrite E.
    assert (Keep : Forall (onboarded_in all s1) workflows).
    { eapply Forall_impl; [| exact Fw].
      intros x (Sx & Gx & Mx & Cx & k & Lk & Ek).
      split; [exact Sx |]. split; [| split; [exact Mx | split; [exact Cx |]]].
      - specialize (Fr (Workflow.id x) s). rewrite E in Fr. cbn [snd] in Fr.
        rewrite Fr; [exact Gx |]. rewrite Ek. intro X.
        apply fresh_id_inj in X. lia.
      - exists k. split; [lia | exact Ek]. }
    destruct res as [returned | e].
    + destruct R as (-> & Sw & _ & Cw).
      specialize (IH Ir (workflows ++ [w])%list errors s1).
      destruct (onboard_each now probe_of rest (workflows ++ [w])%list errors
                  s1) as [[workflows' errors'] s'].
      destruct IH as (N & Fw' & Fe' & L'); [| exact Fe |].
      * apply Forall_app. split; [exact Keep |]. constructor; [| constructor].
        split; [exact Sw |]. split; [now rewrite Ew |].
        split; [now rewrite Em |]. split; [exact Cw |].
        exists (ids s). split; [exact L | exact Ew].
      * rewrite count_app in N. change (count [w]) with 1 in N.
        split; [| split; [exact Fw' | split; [exact Fe' | lia]]].
        unfold count in *. cbn [Datatypes.length]. lia.
    + specialize (IH Ir workflows
                    (errors ++ [(accountId c ++ ": " ++ e)%string])%list s1).
      destruct (onboard_each now probe_of rest workflows
                  (errors ++ [(accountId c ++ ": " ++ e)%string])%list s1)
        as [[workflows' errors'] s'].
      destruct IH as (N & Fw' & Fe' & L'); [exact Keep | |].
      * apply Forall_app. split; [exact Fe |]. constructor; [| constructor].
        exists c, e. now split.
      * rewrite count_app in N. change (count [_]) with 1 in N.
        split; [| split; [exact Fw' | split; [exact Fe' | lia]]].
        unfold count in *. cbn [Datatypes.length]. lia.
Qed.

End Onboardings.


(** X23. [bulkOnboard] accounts for every configuration: the workflows
    it returns and the error lines it reports are as many as the
    configurations.  Every workflow it returns is completed, with all its
    steps completed, belongs to one of the configurations and is the
    workflow stored under its id.  Every error line starts with the id of one of the
    accounts.  An onboarding that throws does not stop the loop. *)
Theorem bulkOnboard_accounts_for_all (now : Z)
  (probe_of : string -> outcome Z)
  (configs : list AccountProxyWorkflows.OnboardingConfig)
  (s : AccountProxyWorkflows.t) :
  let '(workflows, errors, s') :=
    AccountProxyWorkflows.bulkOnboard now probe_of configs s in
  count workflows + count errors = count configs
  /\ Forall
       (fun w =>
          AccountProxyWorkflows.Workflow.status w = WorkflowStatus.completed
          /\ AccountProxyWorkflows.getWorkflow
               (AccountProxyWorkflows.Workflow.id w) s' = Some w
          /\ In (AccountProxyWorkflows.Workflow.metadata w) configs
          /\ Forall step_completed (AccountProxyWorkflows.Workflow.steps w))
       workflows
  /\ Forall
       (fun line =>
          exists config e,
            In config configs
            /\ line
               = (AccountProxyWorkflows.accountId config ++ ": " ++ e)%string)
       errors.
Proof.
  unfold AccountProxyWorkflows.bulkOnboard.
  pose proof (onboard_each_run now probe_of configs configs
                (incl_refl configs) [] [] s (Forall_nil _) (Forall_nil _))
    as H.
  destruct (AccountProxyWorkflows.onboard_each now probe_of configs [] [] s)
    as [[workflows errors] s'].
  destruct H as (N & Fw & Fe & _). change (count []) with 0 in N.
  split; [lia |]. split; [| exact Fe].
  eapply Forall_impl; [| exact Fw]. intros w (A & B & C & D & _). tauto.
Qed.

(** ** The queries on incidents *)

Lemma insert_newest_first (created_at : string -> Z) (x : Incident.t)
  (l : list Incident.t) :
  newest_to_oldest created_at l ->
  newest_to_oldest created_at
    (insert_sorted (DatabaseClient.newest_first created_at) x l).
Proof.
  induction l as [| h t IH]; intro S; cbn [insert_sorted].
  - split; [intros y [] | exact I].
  - destruct S as [Sh St]. unfold DatabaseClient.newest_first at 1.
    destruct (Z.leb_spec (created_at (Incident.id h))
                (created_at (Incident.id x))) as [L | L].
    + split; [| split; assumption].
      intros y [<- | I]; [exact L |]. specialize (Sh y I). lia.
    + split; [| now apply IH].
      intros y I. apply insert_sorted_In in I. destruct I as [-> | I];
        [lia | now apply Sh].
Qed.

Lemma sort_newest_first (created_at : string -> Z) (l : list Incident.t) :
  newest_to_oldest created_at
    (stable_sort (DatabaseClient.newest_first created_at) l).
Proof.
  induction l as [| h t IH]; cbn [stable_sort]; [exact I |].
  now apply insert_newest_first.
Qed.

Lemma filter_newest_first (created_at : string -> Z)
  (sel : Incident.t -> bool) (l : list Incident.t) :
  newest_to_oldest created_at l ->
  newest_to_oldest created_at (filter sel l).
Proof.
  induction l as [| h t IH]; intro S; cbn [filter]; [exact I |].
  destruct S as [Sh St]. destruct (sel h); [| now apply IH].
  split; [| now apply IH]. intros y Iy. apply filter_In in Iy.
  apply Sh. tauto.
Qed.

Lemma column_is_eq (k : string) (o : option string) :
  column_is k o = true <-> o = Some k.
Proof.
  destruct o as [x |]; cbn; [| split; discriminate].
  rewrite String.eqb_eq. split; congruence.
Qed.

Lemma status_open_eq (i : Incident.t) :
  IncidentStatus.eqb (Incident.status i) IncidentStatus.open = true
  <-> Incident.status i = IncidentStatus.open.
Proof. destruct (Incident.status i); cbn; split; congruence. Qed.

(** X24. The queries of the store on incidents.  [getOpenIncidents]
    lists the stored incidents that are open, [getIncidentsByAccount] those
    of the account, [getIncidentsByProxy] those that have the proxy as their
    proxy or as their old proxy, but not those that only have it as their new
    proxy; each list runs from the newest incident to the oldest. *)
Theorem store_incident_queries (created_at : string -> Z)
  (accountId proxyId : string) (db : DatabaseClient.t) :
  (forall i,
      In i (DatabaseClient.getOpenIncidents created_at db)
      <-> In i (DatabaseClient.incidents db)
          /\ Incident.status i = IncidentStatus.open)
  /\ (forall i,
         In i (DatabaseClient.getIncidentsByAccount created_at accountId db)
         <-> In i (DatabaseClient.incidents db)
             /\ Incident.accountId i = Some accountId)
  /\ (forall i,
         In i (DatabaseClient.getIncidentsByProxy created_at proxyId db)
         <-> In i (DatabaseClient.incidents db)
             /\ (Incident.proxyId i = Some proxyId
                 \/ Incident.oldProxyId i = Some proxyId))
  /\ newest_to_oldest created_at
       (DatabaseClient.getOpenIncidents created_at db)
  /\ newest_to_oldest created_at
       (DatabaseClient.getIncidentsByAccount created_at accountId db)
  /\ newest_to_oldest created_at
       (DatabaseClient.getIncidentsByProxy created_at proxyId db).
Proof.
  unfold DatabaseClient.getOpenIncidents, DatabaseClient.getIncidentsByAccount,
    DatabaseClient.getIncidentsByProxy.
  split; [| split; [| split]].
  - intro i. now rewrite stable_sort_In, <- in_rev, filter_In, status_open_eq.
  - intro i. now rewrite stable_sort_In, <- in_rev, filter_In, column_is_eq.
  - intro i. now rewrite stable_sort_In, <- in_rev, filter_In, orb_true_iff,
      !column_is_eq.
  - split; [| split]; apply sort_newest_first.
Qed.

(** X25. The queries of the manager on incidents.  [getAllIncidents]
    lists the incidents of the map, [getOpenIncidents] those that are open,
    [getIncidentsByAccount] those of the account, [getIncidentsByProxy] those
    that have the proxy as their proxy, their old proxy or their new proxy;
    each list runs from the newest incident to the oldest. *)
Theorem manager_incident_queries (createdAt : string -> Z)
  (accountId proxyId : string) (s : AccountProxyManager.t) :
  (forall i,
      In i (AccountProxyManager.getAllIncidents createdAt s)
      <-> In i (AccountProxyManager.incidents s))
  /\ (forall i,
         In i (AccountProxyManager.getOpenIncidents createdAt s)
         <-> In i (AccountProxyManager.incidents s)
             /\ Incident.status i = IncidentStatus.open)
  /\ (forall i,
         In i (AccountProxyManager.getIncidentsByAccount createdAt accountId s)
         <-> In i (AccountProxyManager.incidents s)
             /\ Incident.accountId i = Some accountId)
  /\ (forall i,
         In i (AccountProxyManager.getIncidentsByProxy createdAt proxyId s)
         <-> In i (AccountProxyManager.incidents s)
             /\ (Incident.proxyId i = Some proxyId
                 \/ Incident.oldProxyId i = Some proxyId
                 \/ Incident.newProxyId i = Some proxyId))
  /\ newest_to_oldest createdAt
       (AccountProxyManager.getAllIncidents createdAt s)
  /\ newest_to_oldest createdAt
       (AccountProxyManager.getOpenIncidents createdAt s)
  /\ newest_to_oldest createdAt
       (AccountProxyManager.getIncidentsByAccount createdAt accountId s)
  /\ newest_to_oldest createdAt
       (AccountProxyManager.getIncidentsByProxy createdAt proxyId s).
Proof.
  unfold AccountProxyManager.getOpenIncidents,
    AccountProxyManager.getIncidentsByAccount,
    AccountProxyManager.getIncidentsByProxy,
    AccountProxyManager.getAllIncidents.
  assert (S : newest_to_oldest createdAt
                (stable_sort (AccountProxyManager.newest_first createdAt)
                   (AccountProxyManager.incidents s)))
    by apply sort_newest_first.
  split; [| split; [| split; [| split]]].
  - intro i. apply stable_sort_In.
  - intro i. now rewrite filter_In, stable_sort_In, status_open_eq.
  - intro i. now rewrite filter_In, stable_sort_In, column_is_eq.
  - intro i. rewrite filter_In, stable_sort_In, !orb_true_iff, !column_is_eq.
    tauto.
  - split; [exact S |]. split; [| split]; now apply filter_newest_first.
Qed.

(** ** The daily reset *)

Lemma find_map_key {A : Type} (key : A -> string) (f : A -> A) (k : string)
  (l : list A) :
  (forall x, key (f x) = key x) ->
  find (fun x => (key x =? k)%string) (map f l)
  = option_map f (find (fun x => (key x =? k)%string) l).
Proof.
  intro K. induction l as [| h t IH]; cbn [map find]; [reflexivity |].
  rewrite K. destruct (key h =? k)%string; [reflexivity | exact IH].
Qed.

(** X26. [resetDailyActions], of the store and of the manager: every
    account, whatever its status, has no action counted for the day
    afterwards and is otherwise the account it was, found under the same id;
    proxies, mappings and incidents are untouched, so that a consistent store
    stays consistent; a second reset changes nothing. *)
Theorem resetDailyActions_effect (db : DatabaseClient.t)
  (s : AccountProxyManager.t) :
  Consistent db ->
  let db' := DatabaseClient.resetDailyActions db in
  let s' := AccountProxyManager.resetDailyActions s in
  Consistent db'
  /\ (forall id,
         DatabaseClient.getAccount id db'
         = option_map (Account.set_actionsToday 0)
             (DatabaseClient.getAccount id db))
  /\ (forall id,
         AccountProxyManager.getAccount id s'
         = option_map (Account.set_actionsToday 0)
             (AccountProxyManager.getAccount id s))
  /\ (forall a, In a (DatabaseClient.accounts db') -> Account.actionsToday a = 0)
  /\ (forall a,
         In a (AccountProxyManager.accounts s') -> Account.actionsToday a = 0)
  /\ DatabaseClient.proxies db' = DatabaseClient.proxies db
  /\ DatabaseClient.mappings db' = DatabaseClient.mappings db
  /\ DatabaseClient.incidents db' = DatabaseClient.incidents db
  /\ AccountProxyManager.proxies s' = AccountProxyManager.proxies s
  /\ AccountProxyManager.incidents s' = AccountProxyManager.incidents s
  /\ DatabaseClient.resetDailyActions db' = db'
  /\ AccountProxyManager.resetDailyActions s' = s'.
Proof.
  intros C db' s'. subst db' s'.
  unfold DatabaseClient.resetDailyActions,
    AccountProxyManager.resetDailyActions.
  split.
  { apply (Consistent_frame_keys db); try reflexivity; [| exact C].
    cbn [DatabaseClient.accounts DatabaseClient.set_accounts].
    rewrite map_map. reflexivity. }
  split.
  { intro id. unfold DatabaseClient.getAccount.
    cbn [DatabaseClient.accounts DatabaseClient.set_accounts].
    now apply find_map_key. }
  split.
  { intro id. unfold AccountProxyManager.getAccount,
      AccountProxyManager.map_get.
    cbn [AccountProxyManager.accounts AccountProxyManager.set_accounts].
    now apply find_map_key. }
  split.
  { intros a I. cbn [DatabaseClient.accounts DatabaseClient.set_accounts] in I.
    apply in_map_iff in I. now destruct I as (x & <- & _). }
  split.
  { intros a I.
    cbn [AccountProxyManager.accounts AccountProxyManager.set_accounts] in I.
    apply in_map_iff in I. now destruct I as (x & <- & _). }
  conjuncts; try reflexivity.
  - unfold DatabaseClient.set_accounts. cbn. rewrite map_map. reflexivity.
  - unfold AccountProxyManager.set_accounts. cbn. rewrite map_map.
    reflexivity.
Qed.

Lemma resetDailyActions_effect_witness :
  Consistent (DatabaseClient.resetDailyActions evening_db)
  /\ map Account.actionsToday (DatabaseClient.accounts evening_db) = [7]
  /\ map Account.actionsToday
       (DatabaseClient.accounts (DatabaseClient.resetDailyActions evening_db))
     = [0].
Proof.
  split; [| split; reflexivity].
  apply (resetDailyActions_effect evening_db idle_manager).
  apply consistent_Consistent. reflexivity.
Defined.
